(** * BACnet MS/TP on the PIC32MX795F512L: datalink facade, RS-485 baud
    configuration and millisecond timer service

    A shallow embedding of the C sources of the port

    - [ports/pic32mx795f512l/rs485.c]: the RS-485 driver followed by the
      MS/TP datalink layer ([dlmstp_*], [MSTP_Get_Send], [MSTP_Put_Receive],
      [MSTP_SilenceTimer]),
    - the main source file of the port ([Timer1Handler], [mstimer_*]),
    - the stub file of the port ([npdu_handler], [mstimer_now]),

    and the properties of that code.  The file-scope variables of the C
    files are the fields of one record [state]; every C function is a
    function from states to states (and a result).  C integers are [Z] with
    the wrap-around of their type written out. *)

From Stdlib Require Import ZArith List Bool Lia.
From coqutil Require Import Datatypes.RecordSetters.
Import ListNotations.
Import RecordSetters.OCamlLikeNotations.
Local Open Scope Z_scope.

(** ** C integer types of the XC32 target

    On the PIC32 (XC32, ILP32) [int], [unsigned], [long] and
    [unsigned long] are all 32 bits wide. *)
Module C.

Definition uint8 (z : Z) : Z := z mod 2 ^ 8.
Definition uint16 (z : Z) : Z := z mod 2 ^ 16.
Definition uint32 (z : Z) : Z := z mod 2 ^ 32.

(** [unsigned long] of the target. *)
Definition ulong (z : Z) : Z := uint32 z.

(** Conversion to [int]: the value is kept when it fits, and wraps in two's
    complement otherwise. *)
Definition int (z : Z) : Z :=
  let w := z mod 2 ^ 32 in
  if w <? 2 ^ 31 then w else w - 2 ^ 32.

(** [memcpy(dst, src, n)] on arrays held as lists: the first [n] cells of
    [dst] are replaced by the first [n] cells of [src].  (C requires both
    arrays to hold at least [n] cells.) *)
Definition memcpy (dst src : list Z) (n : Z) : list Z :=
  firstn (Z.to_nat n) src ++ skipn (Z.to_nat n) dst.

End C.

(** ** Data of the datalink layer *)

(** The buffers an [mstp_port_struct_t] can point to: [Receive_Buffer] and
    [Transmit_Buffer] of the datalink layer, or nothing. *)
Inductive buf_ptr : Type :=
| NULL
| ptr_Receive_Buffer
| ptr_Transmit_Buffer.

(** [BACNET_ADDRESS], with the members the port reads or writes. *)
Module Address.
Record t : Type := mk {
  mac_len : Z;
  mac : list Z;
  net : Z;
  len : Z
}.
End Address.
Definition BACNET_ADDRESS : Type := Address.t.

(** [BACNET_NPDU_DATA], with the member the port reads. *)
Record BACNET_NPDU_DATA : Type := {
  data_expecting_reply : bool
}.

(** [struct mstp_port_struct_t].  The members the port touches are named;
    the others (the states and counters of the upstream state machine) are
    the component [other] of a type [F] the port never looks into. *)
Module Port.
Record t (F : Type) : Type := mk {
  This_Station : Z;
  Nmax_master : Z;
  Nmax_info_frames : Z;
  InputBuffer : buf_ptr;
  InputBufferSize : Z;
  OutputBuffer : buf_ptr;
  OutputBufferSize : Z;
  SilenceTimer : Z;
  SilenceTimerReset : Z;
  DataRegister : Z;
  DataAvailable : bool;
  DestinationAddress : Z;
  SourceAddress : Z;
  FrameType : Z;
  DataLength : Z;
  other : F
}.
Arguments mk {F}.
Arguments This_Station {F}.
Arguments Nmax_master {F}.
Arguments Nmax_info_frames {F}.
Arguments InputBuffer {F}.
Arguments InputBufferSize {F}.
Arguments OutputBuffer {F}.
Arguments OutputBufferSize {F}.
Arguments SilenceTimer {F}.
Arguments SilenceTimerReset {F}.
Arguments DataRegister {F}.
Arguments DataAvailable {F}.
Arguments DestinationAddress {F}.
Arguments SourceAddress {F}.
Arguments FrameType {F}.
Arguments DataLength {F}.
Arguments other {F}.
End Port.

(** The anonymous struct of [Transmit_Packet]. *)
Module TxPacket.
Record t : Type := mk {
  ready : bool;
  destination : Z;
  frame_type : Z;
  pdu : list Z;
  pdu_len : Z
}.
End TxPacket.

(** [struct mstimer]. *)
Record mstimer : Type := {
  start : Z;
  interval : Z
}.

(** Calls that leave the modelled files, in the order made (newest first):
    [MSTP_Init] of the upstream state machine, and [npdu_handler], whose
    body in the stub file is empty. *)
Inductive call : Type :=
| call_MSTP_Init
| call_npdu_handler (src : BACNET_ADDRESS) (pdu : buf_ptr) (pdu_len : Z).

(** ** Constants *)

(** [MAX_MPDU] of the port's [dlmstp.h]. *)
Definition MAX_MPDU : Z := 501.

(** Modelled from the spec: the header that defines
    [MSTP_BROADCAST_ADDRESS] is not among the sources; the broadcast
    destination is 0xFF. *)
Definition MSTP_BROADCAST_ADDRESS : Z := 255.

(** Modelled from the spec: [BACNET_BROADCAST_NETWORK] is defined in a
    header that is not among the sources; it is the 16-bit all-ones
    network number. *)
Definition BACNET_BROADCAST_NETWORK : Z := 65535.

(** [SYS_FREQ] and [GetPeripheralClock()] of [hardware.h]. *)
Definition SYS_FREQ : Z := 80000000.
Definition GetPeripheralClock : Z := SYS_FREQ / 1.

(** ** The upstream MS/TP module

    [mstp.h] and [mstp.c] are not among the sources.  The port uses three
    frame-type constants and two functions of them. [MSTP_Init] works on the
    port structure it is given.  [MSTP_Create_Frame buffer buffer_size
    frame_type destination source data data_len] returns the new contents of
    [buffer] and the frame length. *)
Class Mstp (F : Type) : Type := {
  FRAME_TYPE_TEST_REQUEST : Z;
  FRAME_TYPE_BACNET_DATA_EXPECTING_REPLY : Z;
  FRAME_TYPE_BACNET_DATA_NOT_EXPECTING_REPLY : Z;
  MSTP_Init : Port.t F -> Port.t F;
  MSTP_Create_Frame :
    list Z -> Z -> Z -> Z -> Z -> list Z -> Z -> list Z * Z
}.

(** ** The program state: the file-scope variables *)
Record state (F : Type) : Type := mkState {
  (* rs485.c, driver part *)
  U1BRG : Z;
  (* rs485.c, datalink part *)
  MSTP_Port : Port.t F;
  Receive_Buffer : list Z;
  Transmit_Buffer : list Z;
  Receive_Packet_Ready : bool;
  Receive_Address : BACNET_ADDRESS;
  Receive_PDU_Len : Z;
  Transmit_Packet : TxPacket.t;
  This_Station : Z;
  Max_Master : Z;
  Max_Info_Frames : Z;
  Valid_Frame_Count : Z;
  (* main source file *)
  millisecond_counter : Z;
  mstp_timer : Z;
  mstp_silence_timer : Z;
  mLED_3 : bool;
  (* calls to other modules *)
  calls : list call
}.
Arguments mkState {F}.
Arguments U1BRG {F}.
Arguments MSTP_Port {F}.
Arguments Receive_Buffer {F}.
Arguments Transmit_Buffer {F}.
Arguments Receive_Packet_Ready {F}.
Arguments Receive_Address {F}.
Arguments Receive_PDU_Len {F}.
Arguments Transmit_Packet {F}.
Arguments This_Station {F}.
Arguments Max_Master {F}.
Arguments Max_Info_Frames {F}.
Arguments Valid_Frame_Count {F}.
Arguments millisecond_counter {F}.
Arguments mstp_timer {F}.
Arguments mstp_silence_timer {F}.
Arguments mLED_3 {F}.
Arguments calls {F}.

Section Timer.
Context {F : Type}.

(** ** Millisecond timer service (main source file) *)

(** [Timer1Handler]: the 1 ms tick. *)
Definition Timer1Handler (st : state F) : state F :=
  let st :=
    { st with millisecond_counter := C.uint32 (millisecond_counter st + 1) } in
  let st :=
    if 0 <? mstp_timer st
    then { st with mstp_timer := C.uint16 (mstp_timer st - 1) }
    else st in
  let st :=
    if 0 <? mstp_silence_timer st
    then { st with mstp_silence_timer := C.uint16 (mstp_silence_timer st - 1) }
    else st in
  if millisecond_counter st mod 500 =? 0
  then { st with mLED_3 := negb (mLED_3 st) }
  else st.

(** [k] ticks of the timer interrupt. *)
Fixpoint ticks (k : nat) (st : state F) : state F :=
  match k with
  | O => st
  | S k' => ticks k' (Timer1Handler st)
  end.

Definition mstimer_now (st : state F) : Z :=
  millisecond_counter st.


Definition mstimer_expired (t : option mstimer) (st : state F) : Z :=
  match t with
  | Some t =>
      if C.ulong (millisecond_counter st - start t) >=? interval t
      then 1 else 0
  | None => 1
  end.


Definition mstimer_remaining (t : option mstimer) (st : state F) : Z :=
  match t with
  | None => 0
  | Some t =>
      let elapsed := C.ulong (millisecond_counter st - start t) in
      if elapsed >=? interval t then 0
      else C.ulong (interval t - elapsed)
  end.

Definition mstimer_elapsed (t : option mstimer) (st : state F) : Z :=
  match t with
  | Some t => C.ulong (millisecond_counter st - start t)
  | None => 0
  end.

End Timer.

Section Datalink.
Context {F : Type} `{Mstp F}.

(** ** RS-485 driver ([rs485.c], hardware build) *)

(** [RS485_Set_Baud_Rate]: the divisor for high-speed mode goes to [U1BRG].
    (With [TEST_MODE] defined the function is an empty stub.)  The
    arithmetic is that of [uint32_t]; a zero divisor is undefined in C and
    gives 0 here. *)
Definition RS485_Set_Baud_Rate (baud : Z) (st : state F) : state F :=
  let brg_value := C.uint32 (GetPeripheralClock / C.uint32 (4 * baud) - 1) in
  { st with U1BRG := brg_value }.

(** [RS485_Initialize], on the variables of [state]: of the UART and port
    registers it programs, and of the receive FIFO it empties, only the
    baud-rate divisor is part of [state]; it is set for 19200 baud. *)
Definition RS485_Initialize (st : state F) : state F :=
  RS485_Set_Baud_Rate 19200 st.

(** ** MS/TP datalink layer ([rs485.c], second part) *)

(** Reading and writing the array a buffer pointer designates. *)
Definition load_buf (p : buf_ptr) (st : state F) : list Z :=
  match p with
  | NULL => []
  | ptr_Receive_Buffer => Receive_Buffer st
  | ptr_Transmit_Buffer => Transmit_Buffer st
  end.

Definition store_buf (p : buf_ptr) (v : list Z) (st : state F) : state F :=
  match p with
  | NULL => st
  | ptr_Receive_Buffer => { st with Receive_Buffer := v }
  | ptr_Transmit_Buffer => { st with Transmit_Buffer := v }
  end.

(** [a[0] = v] on an array held as a list. *)
Definition array_set0 (v : Z) (a : list Z) : list Z := v :: tl a.

(** The payload bytes behind a [uint8_t *]. *)
Definition bytes_at (pdu : option (list Z)) : list Z :=
  match pdu with
  | Some b => b
  | None => []
  end.

Definition is_null {A : Type} (p : option A) : bool :=
  match p with
  | Some _ => false
  | None => true
  end.

(** [MSTP_Init(&MSTP_Port)], with the call recorded. *)
Definition do_MSTP_Init (st : state F) : state F :=
  { st with MSTP_Port := MSTP_Init (MSTP_Port st);
            calls := call_MSTP_Init :: calls st }.

(** [npdu_handler] of the stub file: the body is empty; the call is
    recorded. *)
Definition npdu_handler (src : BACNET_ADDRESS) (pdu : buf_ptr) (pdu_len : Z)
  (st : state F) : state F :=
  { st with calls := call_npdu_handler src pdu pdu_len :: calls st }.

(** [mstimer_init]: the body is empty. *)
Definition mstimer_init (st : state F) : state F := st.

(** [ifname] is not used. *)
Definition dlmstp_init (ifname : option (list Z)) (st : state F)
  : bool * state F :=
  (* Initialize MS/TP port structure *)
  let st := do_MSTP_Init st in
  (* Set port configuration *)
  let st :=
    { st with MSTP_Port :=
                { MSTP_Port st with
                    Port.This_Station := This_Station st;
                    Port.Nmax_master := Max_Master st;
                    Port.Nmax_info_frames := Max_Info_Frames st;
                    Port.InputBuffer := ptr_Receive_Buffer;
                    Port.InputBufferSize := MAX_MPDU;
                    Port.OutputBuffer := ptr_Transmit_Buffer;
                    Port.OutputBufferSize := MAX_MPDU;
                    Port.SilenceTimer := 0;
                    Port.SilenceTimerReset := 0 } } in
  (* Clear transmit packet *)
  let st :=
    { st with Transmit_Packet :=
                { Transmit_Packet st with TxPacket.ready := false } } in
  (* Initialize RS-485 interface *)
  let st := RS485_Initialize st in
  (* Initialize timer *)
  let st := mstimer_init st in
  (true, st).

Definition dlmstp_send_pdu
  (dest : option BACNET_ADDRESS) (npdu_data : option BACNET_NPDU_DATA)
  (pdu : option (list Z)) (pdu_len : Z) (st : state F) : Z * state F :=
  (* Validate parameters *)
  if is_null pdu || (pdu_len =? 0) || (pdu_len >? MAX_MPDU) then (-1, st)
  (* Check if transmit buffer is busy *)
  else if TxPacket.ready (Transmit_Packet st) then (-2, st)
  else
    (* Get destination MAC address *)
    let destination_mac :=
      match dest with
      | Some d =>
          if Address.mac_len d =? 1 then nth 0 (Address.mac d) 0
          else MSTP_BROADCAST_ADDRESS
      | None => MSTP_BROADCAST_ADDRESS
      end in
    (* Store PDU for transmission *)
    let tp := Transmit_Packet st in
    let tp :=
      { tp with TxPacket.pdu :=
                  C.memcpy (TxPacket.pdu tp) (bytes_at pdu) pdu_len } in
    let tp := { tp with TxPacket.pdu_len := C.uint16 pdu_len } in
    let tp := { tp with TxPacket.destination := destination_mac } in
    let tp :=
      match npdu_data with
      | Some n =>
          if data_expecting_reply n
          then { tp with TxPacket.frame_type :=
                           FRAME_TYPE_BACNET_DATA_EXPECTING_REPLY }
          else { tp with TxPacket.frame_type :=
                           FRAME_TYPE_BACNET_DATA_NOT_EXPECTING_REPLY }
      | None => { tp with TxPacket.frame_type :=
                            FRAME_TYPE_BACNET_DATA_NOT_EXPECTING_REPLY }
      end in
    (* Mark as ready for transmission *)
    let tp := { tp with TxPacket.ready := true } in
    (C.int pdu_len, { st with Transmit_Packet := tp }).

(** The packet an accepted call of [dlmstp_send_pdu] leaves staged. *)
Definition staged (dest : option BACNET_ADDRESS)
  (npdu : option BACNET_NPDU_DATA) (pdu : option (list Z)) (pdu_len : Z)
  (st : state F) : TxPacket.t :=
  TxPacket.mk true
    match dest with
    | Some d =>
        if Address.mac_len d =? 1 then nth 0 (Address.mac d) 0
        else MSTP_BROADCAST_ADDRESS
    | None => MSTP_BROADCAST_ADDRESS
    end
    match npdu with
    | Some n =>
        if data_expecting_reply n
        then FRAME_TYPE_BACNET_DATA_EXPECTING_REPLY
        else FRAME_TYPE_BACNET_DATA_NOT_EXPECTING_REPLY
    | None => FRAME_TYPE_BACNET_DATA_NOT_EXPECTING_REPLY
    end
    (C.memcpy (TxPacket.pdu (Transmit_Packet st)) (bytes_at pdu) pdu_len)
    (C.uint16 pdu_len).

Definition dlmstp_get_broadcast_address (dest : option BACNET_ADDRESS)
  : option BACNET_ADDRESS :=
  match dest with
  | Some d =>
      Some { d with Address.mac_len := 1;
                    Address.mac :=
                      array_set0 MSTP_BROADCAST_ADDRESS (Address.mac d);
                    Address.net := BACNET_BROADCAST_NETWORK;
                    Address.len := 0 }
  | None => None
  end.

Definition dlmstp_get_my_address (my_address : option BACNET_ADDRESS)
  (st : state F) : option BACNET_ADDRESS :=
  match my_address with
  | Some d =>
      Some { d with Address.mac_len := 1;
                    Address.mac :=
                      array_set0 (This_Station st) (Address.mac d);
                    Address.net := 0;
                    Address.len := 0 }
  | None => None
  end.

Definition dlmstp_set_mac_address (mac_address : Z) (st : state F) : state F :=
  if mac_address <=? 254 then
    let st := { st with This_Station := mac_address } in
    if negb (Port.This_Station (MSTP_Port st) =? mac_address) then
      let st :=
        { st with MSTP_Port :=
                    { MSTP_Port st with Port.This_Station := mac_address } } in
      do_MSTP_Init st
    else st
  else st.

Definition dlmstp_mac_address (st : state F) : Z := This_Station st.

Definition dlmstp_set_max_master (max_master : Z) (st : state F) : state F :=
  if max_master <=? 127 then
    let st := { st with Max_Master := max_master } in
    { st with MSTP_Port :=
                { MSTP_Port st with Port.Nmax_master := max_master } }
  else st.

Definition dlmstp_max_master (st : state F) : Z := Max_Master st.

Definition dlmstp_set_max_info_frames (max_info_frames : Z) (st : state F)
  : state F :=
  if max_info_frames >=? 1 then
    let st := { st with Max_Info_Frames := max_info_frames } in
    { st with MSTP_Port :=
                { MSTP_Port st with Port.Nmax_info_frames := max_info_frames } }
  else st.

Definition dlmstp_max_info_frames (st : state F) : Z := Max_Info_Frames st.

Definition dlmstp_set_baud_rate (baud : Z) (st : state F) : bool * state F :=
  let valid := false in
  (* Validate baud rate per PICS *)
  if (baud =? 9600) || (baud =? 19200) || (baud =? 38400)
     || (baud =? 57600) || (baud =? 76800) || (baud =? 115200)
  then (true, RS485_Set_Baud_Rate baud st)
  else (valid, st).

Definition dlmstp_baud_rate (st : state F) : Z := 19200.

Definition dlmstp_rs485_rx_event (st : state F) : state F :=
  (* Reset silence timer on any received byte *)
  { st with MSTP_Port := { MSTP_Port st with Port.SilenceTimer := 0 } }.

(** *** Callbacks of the MS/TP state machine

    The state machine passes a pointer to a port structure; here the
    structure is the argument [mstp_port]. *)

Definition MSTP_Get_Send (mstp_port : Port.t F) (timeout : Z) (st : state F)
  : Z * state F :=
  let pdu_len := 0 in
  (* Check if we have PDU to send *)
  if TxPacket.ready (Transmit_Packet st) then
    (* Create frame in output buffer *)
    let '(buffer, n) :=
      MSTP_Create_Frame
        (load_buf (Port.OutputBuffer mstp_port) st)
        (Port.OutputBufferSize mstp_port)
        (TxPacket.frame_type (Transmit_Packet st))
        (TxPacket.destination (Transmit_Packet st))
        (Port.This_Station mstp_port)
        (TxPacket.pdu (Transmit_Packet st))
        (TxPacket.pdu_len (Transmit_Packet st)) in
    let st := store_buf (Port.OutputBuffer mstp_port) buffer st in
    let pdu_len := C.uint16 n in
    if pdu_len >? 0 then
      (* Clear ready flag on successful frame creation *)
      (pdu_len,
       { st with Transmit_Packet :=
                   { Transmit_Packet st with TxPacket.ready := false } })
    else (pdu_len, st)
  else (pdu_len, st).

Definition MSTP_Put_Receive (mstp_port : Port.t F) (st : state F)
  : Z * state F :=
  let pdu_len := 0 in
  (* Check if frame is for us *)
  if (Port.DestinationAddress mstp_port =? Port.This_Station mstp_port)
     || (Port.DestinationAddress mstp_port =? MSTP_BROADCAST_ADDRESS)
  then
    let '(pdu_len, st) :=
      if (Port.FrameType mstp_port
            =? FRAME_TYPE_BACNET_DATA_NOT_EXPECTING_REPLY)
         || (Port.FrameType mstp_port
               =? FRAME_TYPE_BACNET_DATA_EXPECTING_REPLY)
      then
        (* Process BACnet NPDU *)
        if Port.DataLength mstp_port >? 0 then
          (* Store source address *)
          let ra := Receive_Address st in
          let ra := { ra with Address.mac_len := 1 } in
          let ra :=
            { ra with Address.mac :=
                        array_set0 (Port.SourceAddress mstp_port)
                          (Address.mac ra) } in
          let ra := { ra with Address.net := 0 } in
          let ra := { ra with Address.len := 0 } in
          let st := { st with Receive_Address := ra } in
          (* Store PDU length *)
          let st :=
            { st with Receive_PDU_Len :=
                        C.uint16 (Port.DataLength mstp_port) } in
          let pdu_len := C.uint16 (Port.DataLength mstp_port) in
          (* Handle the NPDU *)
          (pdu_len,
           npdu_handler (Receive_Address st) (Port.InputBuffer mstp_port)
             (Receive_PDU_Len st) st)
        else (pdu_len, st)
      else if Port.FrameType mstp_port =? FRAME_TYPE_TEST_REQUEST then
        (* Test Response is handled by MS/TP state machine *)
        (C.uint16 (Port.DataLength mstp_port), st)
      else (pdu_len, st) in
    (pdu_len,
     { st with Valid_Frame_Count := C.uint32 (Valid_Frame_Count st + 1) })
  else (pdu_len, st).

(** The call of [MSTP_Create_Frame] that [MSTP_Get_Send] makes for the
    staged packet. *)
Definition create_staged_frame (mstp_port : Port.t F) (st : state F)
  : list Z * Z :=
  MSTP_Create_Frame
    (load_buf (Port.OutputBuffer mstp_port) st)
    (Port.OutputBufferSize mstp_port)
    (TxPacket.frame_type (Transmit_Packet st))
    (TxPacket.destination (Transmit_Packet st))
    (Port.This_Station mstp_port)
    (TxPacket.pdu (Transmit_Packet st))
    (TxPacket.pdu_len (Transmit_Packet st)).

(** The frames the specification has delivered upstream: addressed to this
    station or to broadcast, of one of the two BACnet data types, with a
    data length greater than zero. *)
Definition delivered_upstream (mstp_port : Port.t F) : Prop :=
  (Port.DestinationAddress mstp_port = Port.This_Station mstp_port
   \/ Port.DestinationAddress mstp_port = 255)
  /\ (Port.FrameType mstp_port = FRAME_TYPE_BACNET_DATA_EXPECTING_REPLY
      \/ Port.FrameType mstp_port
         = FRAME_TYPE_BACNET_DATA_NOT_EXPECTING_REPLY)
  /\ Port.DataLength mstp_port > 0.

(** The source address [MSTP_Put_Receive] hands to [npdu_handler]. *)
Definition upstream_source (mstp_port : Port.t F) (st : state F)
  : BACNET_ADDRESS :=
  Address.mk 1
    (array_set0 (Port.SourceAddress mstp_port)
       (Address.mac (Receive_Address st)))
    0 0.

(** [MSTP_SilenceTimer]: the value of [mstimer_now()]; the port structure is
    not read. *)
Definition MSTP_SilenceTimer (mstp_port : Port.t F) (st : state F) : Z :=
  mstimer_now st.

(** [MSTP_SilenceTimerReset]: the body is empty. *)
Definition MSTP_SilenceTimerReset (mstp_port : Port.t F) (st : state F)
  : state F := st.

End Datalink.

Section Configuration.
Context {F : Type} `{Mstp F}.

(** ** Power-on state and sequences of configuration calls *)

(** A zero-initialised port structure ([o] stands for the zeroed rest). *)
Definition Port_zero (o : F) : Port.t F :=
  Port.mk 0 0 0 NULL 0 NULL 0 0 0 0 false 0 0 0 0 o.

(** The file-scope variables as their initialisers leave them. *)
Definition power_on (o : F) : state F :=
  {| U1BRG := 0;
     MSTP_Port := Port_zero o;
     Receive_Buffer := repeat 0 (Z.to_nat MAX_MPDU);
     Transmit_Buffer := repeat 0 (Z.to_nat MAX_MPDU);
     Receive_Packet_Ready := false;
     Receive_Address := Address.mk 0 (repeat 0 7) 0 0;
     Receive_PDU_Len := 0;
     Transmit_Packet :=
       TxPacket.mk false 0 0 (repeat 0 (Z.to_nat MAX_MPDU)) 0;
     This_Station := 1;
     Max_Master := 127;
     Max_Info_Frames := 1;
     Valid_Frame_Count := 0;
     millisecond_counter := 0;
     mstp_timer := 0;
     mstp_silence_timer := 0;
     mLED_3 := false;
     calls := [] |}.

(** A call of one of the configuration setters, or of [dlmstp_init]. *)
Inductive config_call : Type :=
| init
| set_mac_address (mac_address : Z)
| set_max_master (max_master : Z)
| set_max_info_frames (max_info_frames : Z)
| set_baud_rate (baud : Z).

Definition is_uint8 (z : Z) : bool := (0 <=? z) && (z <? 2 ^ 8).
Definition is_uint32 (z : Z) : bool := (0 <=? z) && (z <? 2 ^ 32).

(** The argument of the call is a value of the parameter's C type. *)
Definition config_call_typed (c : config_call) : bool :=
  match c with
  | init => true
  | set_mac_address a => is_uint8 a
  | set_max_master m => is_uint8 m
  | set_max_info_frames n => is_uint8 n
  | set_baud_rate b => is_uint32 b
  end.

Definition do_config_call (st : state F) (c : config_call) : state F :=
  match c with
  | init => snd (dlmstp_init None st)
  | set_mac_address a => dlmstp_set_mac_address a st
  | set_max_master m => dlmstp_set_max_master m st
  | set_max_info_frames n => dlmstp_set_max_info_frames n st
  | set_baud_rate b => snd (dlmstp_set_baud_rate b st)
  end.

Definition do_config_calls (cs : list config_call) (st : state F)
  : state F :=
  fold_left do_config_call cs st.

(** The configuration invariant: station address 0..254, max_master 0..127,
    max_info_frames at least 1. *)
Definition config_ok (st : state F) : Prop :=
  0 <= This_Station st <= 254
  /\ 0 <= Max_Master st <= 127
  /\ 1 <= Max_Info_Frames st.

(** The set of baud rates the specification enumerates. *)
Definition enumerated_baud_rates : list Z :=
  [9600; 19200; 38400; 57600; 76800; 115200].

End Configuration.

(** ** An instance of the upstream module

    Used to run the port's functions on concrete inputs. *)
Module Std.

(** Modelled from the spec: the states of the master-node state machine and
    of the receive-frame state machine, which live in the part of the port
    structure that [mstp.h] declares. *)
Inductive master_state : Type :=
| MASTER_INITIALIZE | MASTER_IDLE | MASTER_USE_TOKEN | MASTER_WAIT_FOR_REPLY
| MASTER_PASS_TOKEN | MASTER_NO_TOKEN | MASTER_POLL_FOR_MASTER
| MASTER_ANSWER_DATA_REQUEST.

Inductive receive_state : Type :=
| RECEIVE_IDLE | RECEIVE_PREAMBLE | RECEIVE_HEADER | RECEIVE_HEADER_CRC
| RECEIVE_DATA | RECEIVE_DATA_CRC.

Record fsm : Type := {
  master : master_state;
  receive : receive_state
}.

(** Modelled from the spec: [MSTP_Init] is not among the sources; a reset
    puts the master state machine in INITIALIZE and the receive state
    machine in IDLE. *)
Definition MSTP_Init_model (p : Port.t fsm) : Port.t fsm :=
  { p with Port.other := {| master := MASTER_INITIALIZE;
                            receive := RECEIVE_IDLE |} }.

(** Modelled from the spec: the CRC functions are not among the sources;
    header CRC8 and data CRC16 with the standard MS/TP polynomials, one
    byte at a time. *)
Definition CRC_Calc_Header (dataValue crcValue : Z) : Z :=
  let crc := Z.lxor crcValue dataValue in
  let crc :=
    C.uint16
      (fold_left (fun acc k => Z.lxor acc (Z.shiftl crc k))
                 [1; 2; 3; 4; 5; 6; 7] crc) in
  Z.lxor (Z.land crc 254) (Z.land (Z.shiftr crc 8) 1).

Definition CRC_Calc_Data (dataValue crcValue : Z) : Z :=
  let crcLow := Z.lxor (Z.land crcValue 255) dataValue in
  C.uint16
    (fold_left Z.lxor
       [Z.shiftl crcLow 8; Z.shiftl crcLow 3; Z.shiftl crcLow 12;
        Z.shiftr crcLow 4; Z.land crcLow 15;
        Z.shiftl (Z.land crcLow 15) 7]
       (Z.shiftr crcValue 8)).

Definition header_crc (bytes : list Z) : Z :=
  Z.lxor 255 (fold_left (fun crc b => CRC_Calc_Header b crc) bytes 255).

Definition data_crc (bytes : list Z) : Z :=
  Z.lxor 65535 (fold_left (fun crc b => CRC_Calc_Data b crc) bytes 65535).

(** Modelled from the spec: [MSTP_Create_Frame] is not among the sources; it
    writes the two preamble bytes, frame type, destination, source, the
    data length (big-endian), the header CRC8 and, for a non-empty payload,
    the payload and its CRC16 (little-endian); it returns 0 and writes
    nothing when the capacity is insufficient. *)
Definition MSTP_Create_Frame_model
  (buffer : list Z) (buffer_size frame_type destination source : Z)
  (data : list Z) (data_len : Z) : list Z * Z :=
  let header :=
    [frame_type; destination; source; data_len / 256; data_len mod 256] in
  let payload := firstn (Z.to_nat data_len) data in
  let crc16 := data_crc payload in
  let frame :=
    [85; 255] ++ header ++ [header_crc header]
    ++ (if data_len >? 0
        then payload ++ [crc16 mod 256; crc16 / 256]
        else []) in
  let n := Z.of_nat (length frame) in
  if n <=? buffer_size then (C.memcpy buffer frame n, n) else (buffer, 0).

(** Modelled from the spec: the frame-type codes are defined in a header
    that is not among the sources; the codes of the MS/TP frame types in
    the order the specification lists them (token = 0). *)
#[global] Instance mstp : Mstp fsm := {|
  FRAME_TYPE_TEST_REQUEST := 3;
  FRAME_TYPE_BACNET_DATA_EXPECTING_REPLY := 5;
  FRAME_TYPE_BACNET_DATA_NOT_EXPECTING_REPLY := 6;
  MSTP_Init := MSTP_Init_model;
  MSTP_Create_Frame := MSTP_Create_Frame_model
|}.

Definition fsm0 : fsm :=
  {| master := MASTER_INITIALIZE; receive := RECEIVE_IDLE |}.

(** The state after power-on and [dlmstp_init]. *)
Definition st0 : state fsm := snd (dlmstp_init None (power_on fsm0)).

(** Inputs: a unicast destination, a payload, a received data frame. *)
Definition addr10 : BACNET_ADDRESS := Address.mk 1 [10; 0; 0; 0; 0; 0; 0] 0 0.

Definition addr_long : BACNET_ADDRESS :=
  Address.mk 6 [192; 168; 0; 7; 186; 192; 0] 0 0.

Definition payload : list Z := [1; 34; 48].

(** [st0] with [payload] staged for station 10. *)
Definition st_pending : state fsm :=
  snd (dlmstp_send_pdu (Some addr10) None (Some payload) 3 st0).

(** The port structure after a broadcast data frame of 3 bytes from
    station 2 has been received. *)
Definition port_rx_broadcast : Port.t fsm :=
  { MSTP_Port st0 with
      Port.DestinationAddress := 255;
      Port.SourceAddress := 2;
      Port.FrameType := 6;
      Port.DataLength := 3 }.

End Std.


(** * More of the port

    The rest of the millisecond timer service, the transmit and receive
    paths of the RS-485 driver, the remaining callbacks of the datalink
    layer, the instance setter of the Device object and the Binary Output
    object. *)

Section TimerRest.
Context {F : Type}.

(** ** Millisecond timer service, continued (main source file) *)


Definition mstimer_expire (t : option mstimer) (st : state F)
  : option mstimer :=
  match t with
  | Some t =>
      Some {| start := C.ulong (millisecond_counter st - interval t);
              interval := interval t |}
  | None => None
  end.

Definition mstimer_interval (t : option mstimer) : Z :=
  match t with
  | Some t => interval t
  | None => 0
  end.

Definition mstimer_silence_reset (st : state F) : state F :=
  { st with mstp_silence_timer := 0 }.

End TimerRest.

(** ** RS-485 driver: transmit and receive paths ([rs485.c], hardware
    build) *)

(** [BACNET_RX_FIFO_SIZE] and [BACNET_TX_FIFO_SIZE] of [hardware.h]. *)
Definition BACNET_RX_FIFO_SIZE : Z := 512.
Definition BACNET_TX_FIFO_SIZE : Z := 512.

(** The FIFO module ([fifo.h]) is not among the sources.  The driver keeps
    one [FIFO_BUFFER] over [rx_fifo_buffer]; a value of [Q] stands for the
    two together.  [FIFO_Put] returns its status and the new FIFO,
    [FIFO_Get] the byte and the new FIFO. *)
Class Fifo (Q : Type) : Type := {
  FIFO_Empty : Q -> bool;
  FIFO_Put : Q -> Z -> bool * Q;
  FIFO_Get : Q -> Z * Q
}.

(** The file-scope variables of the driver, and what it drives of the
    hardware: the bytes written to the transmit register [U1TXREG] (newest
    first), the driver-enable pin RD5 ([ENA_BACNET] sets it, [DIS_BACNET]
    clears it) and the transmit-interrupt enable bit of [IEC0]. *)
Record rs485_state (Q : Type) : Type := mkRs485 {
  rx_fifo : Q;
  rx_timestamp : list Z;
  rx_timestamp_head : Z;
  rx_timestamp_tail : Z;
  tx_buffer : list Z;
  tx_count : Z;
  tx_pos : Z;
  rx_bytes : Z;
  tx_bytes : Z;
  transmitting : bool;
  U1TXREG : list Z;
  LATD_U1RTS : bool;
  IEC0_U1TXIE : bool
}.
Arguments mkRs485 {Q}.
Arguments rx_fifo {Q}.
Arguments rx_timestamp {Q}.
Arguments rx_timestamp_head {Q}.
Arguments rx_timestamp_tail {Q}.
Arguments tx_buffer {Q}.
Arguments tx_count {Q}.
Arguments tx_pos {Q}.
Arguments rx_bytes {Q}.
Arguments tx_bytes {Q}.
Arguments transmitting {Q}.
Arguments U1TXREG {Q}.
Arguments LATD_U1RTS {Q}.
Arguments IEC0_U1TXIE {Q}.

(** [a[i] = v] on an array held as a list (an index outside the array is
    undefined in C and leaves the list as it is). *)
Definition array_set (i v : Z) (a : list Z) : list Z :=
  if (0 <=? i) && (i <? Z.of_nat (length a))
  then firstn (Z.to_nat i) a ++ v :: skipn (S (Z.to_nat i)) a
  else a.

Section Driver.
Context {F Q : Type} `{Fifo Q}.

Definition RS485_Transmit_Ready (d : rs485_state Q) : bool :=
  negb (transmitting d).

(** The transmit branch of [UART1Handler] (taken when [U1TXIF] is set): the
    next byte goes out, or the transmission is closed.  The wait for the
    shift register to empty and the hold delay change no variable. *)
Definition UART1Handler_TX (d : rs485_state Q) : rs485_state Q :=
  (* Send next byte if available *)
  if tx_count d >? 0 then
    let d := { d with U1TXREG := nth (Z.to_nat (tx_pos d)) (tx_buffer d) 0
                                 :: U1TXREG d } in
    let d := { d with tx_pos := C.uint16 (tx_pos d + 1) } in
    { d with tx_count := C.uint16 (tx_count d - 1) }
  else
    (* Transmission complete *)
    let d := { d with IEC0_U1TXIE := false } in
    (* Disable transmitter *)
    let d := { d with LATD_U1RTS := false } in
    { d with transmitting := false }.

(** [k] transmit interrupts. *)
Fixpoint tx_interrupts (k : nat) (d : rs485_state Q) : rs485_state Q :=
  match k with
  | O => d
  | S k' => tx_interrupts k' (UART1Handler_TX d)
  end.

(** [RS485_Send_Frame].  The loop [while (transmitting)] ends only when the
    interrupt handler closes the frame in flight: entered with
    [transmitting] set, the call does not return by itself, which is
    [None] here. *)
Definition RS485_Send_Frame (buffer : list Z) (nbytes : Z)
  (d : rs485_state Q) : option (rs485_state Q) :=
  if (nbytes =? 0) || (nbytes >? BACNET_TX_FIFO_SIZE) then Some d
  (* Wait for any previous transmission to complete *)
  else if transmitting d then None
  else
    (* Copy data to transmit buffer *)
    let d := { d with tx_buffer := C.memcpy (tx_buffer d) buffer nbytes } in
    let d := { d with tx_count := nbytes } in
    let d := { d with tx_pos := 0 } in
    let d := { d with tx_bytes := C.uint32 (tx_bytes d + nbytes) } in
    (* Enable transmitter *)
    let d := { d with transmitting := true } in
    let d := { d with LATD_U1RTS := true } in
    (* Enable TX interrupt to start transmission *)
    let d := { d with IEC0_U1TXIE := true } in
    (* Send first byte to trigger TX interrupt *)
    if tx_count d >? 0 then
      let d := { d with U1TXREG := nth (Z.to_nat (tx_pos d)) (tx_buffer d) 0
                                   :: U1TXREG d } in
      let d := { d with tx_pos := C.uint16 (tx_pos d + 1) } in
      Some { d with tx_count := C.uint16 (tx_count d - 1) }
    else Some d.

(** [MSTP_Send_Frame] of the datalink layer; the port structure is not
    used. *)
Definition MSTP_Send_Frame (mstp_port : Port.t F) (buffer : list Z)
  (nbytes : Z) (d : rs485_state Q) : option (rs485_state Q) :=
  if RS485_Transmit_Ready d then RS485_Send_Frame buffer nbytes d
  else Some d.

(** [RS485_Get_Statistics]: each pointer is null or points to a counter,
    and the result is what the pointers designate afterwards. *)
Definition RS485_Get_Statistics (p_rx_bytes p_tx_bytes : option Z)
  (d : rs485_state Q) : option Z * option Z :=
  (match p_rx_bytes with Some _ => Some (rx_bytes d) | None => None end,
   match p_tx_bytes with Some _ => Some (tx_bytes d) | None => None end).

Definition RS485_Clear_Statistics (d : rs485_state Q) : rs485_state Q :=
  let d := { d with rx_bytes := 0 } in
  { d with tx_bytes := 0 }.

Definition RS485_DataAvailable (d : rs485_state Q) : bool :=
  negb (FIFO_Empty (rx_fifo d)).

(** [RS485_Receive]: [data_byte] is the byte behind the first pointer,
    [timestamp] the word behind the second, which may be null; the result
    is the status, what the two pointers designate afterwards, and the
    state. *)
Definition RS485_Receive (data_byte : Z) (timestamp : option Z)
  (d : rs485_state Q) : bool * Z * option Z * rs485_state Q :=
  let status := false in
  if negb (FIFO_Empty (rx_fifo d)) then
    (* Get data byte from FIFO *)
    let '(data_byte, q) := FIFO_Get (rx_fifo d) in
    let d := { d with rx_fifo := q } in
    (* Get corresponding timestamp *)
    let timestamp :=
      match timestamp with
      | Some _ =>
          Some (nth (Z.to_nat (rx_timestamp_tail d)) (rx_timestamp d) 0)
      | None => None
      end in
    let d :=
      { d with rx_timestamp_tail :=
                 (rx_timestamp_tail d + 1) mod BACNET_RX_FIFO_SIZE } in
    (true, data_byte, timestamp, d)
  else (status, data_byte, timestamp, d).

(** One turn of the receive loop of [UART1Handler], for the byte [data]
    read from [U1RXREG]. *)
Definition rx_byte (w : state F * rs485_state Q) (data : Z)
  : state F * rs485_state Q :=
  let '(st, d) := w in
  let d := { d with rx_bytes := C.uint32 (rx_bytes d + 1) } in
  (* Store data in FIFO *)
  let d := { d with rx_fifo := snd (FIFO_Put (rx_fifo d) data) } in
  (* Store timestamp *)
  let d :=
    { d with rx_timestamp :=
               array_set (rx_timestamp_head d) (millisecond_counter st)
                 (rx_timestamp d) } in
  let d :=
    { d with rx_timestamp_head :=
               (rx_timestamp_head d + 1) mod BACNET_RX_FIFO_SIZE } in
  (* Signal data received for MS/TP *)
  (dlmstp_rs485_rx_event st, d).

(** The receive branch of [UART1Handler] (taken when [U1RXIF] is set), for
    the bytes the UART holds, oldest first. *)
Definition UART1Handler_RX (U1RXREG : list Z) (w : state F * rs485_state Q)
  : state F * rs485_state Q :=
  fold_left rx_byte U1RXREG w.

(** [MSTP_Get_Receive]: the result is the return value, the port structure
    and the driver state. *)
Definition MSTP_Get_Receive (mstp_port : Port.t F) (d : rs485_state Q)
  : Z * Port.t F * rs485_state Q :=
  let no_data (p : Port.t F) (d : rs485_state Q) :=
    (0, { p with Port.DataAvailable := false }, d) in
  if RS485_DataAvailable d then
    (* Get byte and store in DataRegister *)
    let '(status, data_byte, _, d) :=
      RS485_Receive (Port.DataRegister mstp_port) (Some 0) d in
    let mstp_port := { mstp_port with Port.DataRegister := data_byte } in
    if status then (1, { mstp_port with Port.DataAvailable := true }, d)
    else no_data mstp_port d
  else no_data mstp_port d.

(** *** The pairing of bytes and arrival times

    [contents] reads a FIFO as the list of the bytes it holds, oldest
    first.  Modelled from the spec: the FIFO module is not among the
    sources; it is a bounded first-in first-out queue of bytes, and a byte
    put into a full FIFO is not stored. *)
Record fifo_model (contents : Q -> list Z) (capacity : nat) : Prop := {
  fifo_empty : forall q, FIFO_Empty q = true <-> contents q = [];
  fifo_put_room :
    forall q b, (length (contents q) < capacity)%nat ->
                contents (snd (FIFO_Put q b)) = contents q ++ [b];
  fifo_put_full :
    forall q b, (capacity <= length (contents q))%nat ->
                contents (snd (FIFO_Put q b)) = contents q;
  fifo_get :
    forall q b l, contents q = b :: l ->
                  fst (FIFO_Get q) = b /\ contents (snd (FIFO_Get q)) = l
}.

(** The driver holds the bytes of [pending] (byte, arrival time; oldest
    first), each with its arrival time in the slot of [rx_timestamp] that
    [RS485_Receive] will read for it. *)
Definition rx_paired (contents : Q -> list Z) (d : rs485_state Q)
  (pending : list (Z * Z)) : Prop :=
  contents (rx_fifo d) = map fst pending
  /\ length (rx_timestamp d) = Z.to_nat BACNET_RX_FIFO_SIZE
  /\ Z.of_nat (length pending) <= BACNET_RX_FIFO_SIZE
  /\ 0 <= rx_timestamp_tail d < BACNET_RX_FIFO_SIZE
  /\ rx_timestamp_head d
     = (rx_timestamp_tail d + Z.of_nat (length pending))
       mod BACNET_RX_FIFO_SIZE
  /\ forall i : nat,
       (i < length pending)%nat ->
       nth (Z.to_nat ((rx_timestamp_tail d + Z.of_nat i)
                      mod BACNET_RX_FIFO_SIZE))
         (rx_timestamp d) 0
       = snd (nth i pending (0, 0)).

End Driver.

(** A FIFO as a list of at most 512 bytes, to run the driver on concrete
    inputs. *)
Module ListFifo.

Definition capacity : nat := 512.

#[global] Instance fifo : Fifo (list Z) := {|
  FIFO_Empty q := match q with [] => true | _ => false end;
  FIFO_Put q b :=
    if (length q <? capacity)%nat then (true, q ++ [b]) else (false, q);
  FIFO_Get q := match q with [] => (0, []) | b :: l => (b, l) end
|}.

(** The driver variables as their initialisers leave them. *)
Definition d0 : rs485_state (list Z) :=
  {| rx_fifo := [];
     rx_timestamp := repeat 0 512;
     rx_timestamp_head := 0;
     rx_timestamp_tail := 0;
     tx_buffer := repeat 0 512;
     tx_count := 0;
     tx_pos := 0;
     rx_bytes := 0;
     tx_bytes := 0;
     transmitting := false;
     U1TXREG := [];
     LATD_U1RTS := false;
     IEC0_U1TXIE := false |}.

End ListFifo.

(** ** Device object: the instance number (first part of the main file's
    translation unit) *)

(** The file-scope variable of the Device object beside those of the
    datalink layer. *)
Record device_state (F : Type) : Type := mkDevice {
  Device_Object_Instance : Z;
  datalink : state F
}.
Arguments mkDevice {F}.
Arguments Device_Object_Instance {F}.
Arguments datalink {F}.

Section Device.
Context {F : Type} `{Mstp F}.

(** [BACNET_MAX_INSTANCE] is defined in a header that is not among the
    sources. *)
Variable BACNET_MAX_INSTANCE : Z.

Definition Device_Object_Instance_Number (ds : device_state F) : Z :=
  Device_Object_Instance ds.

Definition Device_Set_Object_Instance_Number (instance : Z)
  (ds : device_state F) : bool * device_state F :=
  let status := false in
  if instance <=? BACNET_MAX_INSTANCE then
    (* Make the change *)
    let ds := { ds with Device_Object_Instance := instance } in
    (* Update the data link layer *)
    let ds :=
      { ds with datalink :=
                  dlmstp_set_mac_address (C.uint8 (Z.land instance 127))
                    (datalink ds) } in
    (true, ds)
  else (status, ds).

Definition Device_Valid_Object_Instance_Number (object_id : Z)
  (ds : device_state F) : bool :=
  Device_Object_Instance ds =? object_id.

End Device.

(** ** Binary Output object (second part of the main file's translation
    unit) *)

From Stdlib Require Strings.String Numbers.DecimalString.

(** The strings [Binary_Output_Init] gives to the objects. *)
Module BoText.
Import String.
Local Open Scope string_scope.

(** [sprintf(name, "BO-%u", i)]. *)
Definition sprintf_BO (i : Z) : string :=
  "BO-" ++ DecimalString.NilZero.string_of_uint (N.to_uint (Z.to_N i)).

Definition description : string := "Binary Output".
Definition active_text : string := "On".
Definition inactive_text : string := "Off".

End BoText.

Definition MAX_BINARY_OUTPUTS : Z := 4.
Definition BACNET_PRIORITY_ARRAY_SIZE : Z := 16.

(** [BINARY_OUTPUT_DATA]; [CS] stands for [BACNET_CHARACTER_STRING]. *)
Module BO.
Record t (CS : Type) : Type := mk {
  Present_Value : Z;
  Relinquish_Default : Z;
  Priority_Array : list Z;
  Priority_Active : list bool;
  Object_Name : CS;
  Description : CS;
  Active_Text : CS;
  Inactive_Text : CS;
  Out_Of_Service : bool;
  Reliability : Z;
  Polarity : Z;
  Changed : bool;
  Minimum_Off_Time_ms : Z;
  Minimum_On_Time_ms : Z;
  Time_Of_State_Count_Change_ms : Z;
  Last_State : Z
}.
Arguments mk {CS}.
Arguments Present_Value {CS}.
Arguments Relinquish_Default {CS}.
Arguments Priority_Array {CS}.
Arguments Priority_Active {CS}.
Arguments Object_Name {CS}.
Arguments Description {CS}.
Arguments Active_Text {CS}.
Arguments Inactive_Text {CS}.
Arguments Out_Of_Service {CS}.
Arguments Reliability {CS}.
Arguments Polarity {CS}.
Arguments Changed {CS}.
Arguments Minimum_Off_Time_ms {CS}.
Arguments Minimum_On_Time_ms {CS}.
Arguments Time_Of_State_Count_Change_ms {CS}.
Arguments Last_State {CS}.
End BO.

(** The enumeration constants and the character-string function the object
    uses are declared in headers that are not among the sources.
    [characterstring_init_ansi] returns its status and the string it
    leaves. *)
Class Bacnet (CS : Type) : Type := {
  BINARY_INACTIVE : Z;
  BINARY_ACTIVE : Z;
  RELIABILITY_NO_FAULT_DETECTED : Z;
  POLARITY_NORMAL : Z;
  characterstring_init_ansi : CS -> String.string -> bool * CS
}.

(** [a[i] = v] on an array of any element type (an index outside the array
    leaves the list as it is). *)
Definition list_set {A : Type} (i : nat) (v : A) (a : list A) : list A :=
  if (i <? length a)%nat then firstn i a ++ v :: skipn (S i) a else a.

Section BinaryOutput.
Context {F CS : Type} `{Bacnet CS}.

(** [BO_Data] is the list of the [MAX_BINARY_OUTPUTS] objects.
    [BO_Data[index].member = ...] is [BO_update]; reading a member is
    [BO_member], with the value to read where the list has no such
    element. *)
Definition BO_update (index : Z) (f : BO.t CS -> BO.t CS)
  (BO_Data : list (BO.t CS)) : list (BO.t CS) :=
  match nth_error BO_Data (Z.to_nat index) with
  | Some o => list_set (Z.to_nat index) (f o) BO_Data
  | None => BO_Data
  end.

Definition BO_member {A : Type} (index : Z) (member : BO.t CS -> A)
  (otherwise : A) (BO_Data : list (BO.t CS)) : A :=
  match nth_error BO_Data (Z.to_nat index) with
  | Some o => member o
  | None => otherwise
  end.

(** One pass of the loop of [Binary_Output_Init], for the object of index
    [i]. *)
Definition Binary_Output_Init_object (st : state F) (i : Z) (o : BO.t CS)
  : BO.t CS :=
  {| BO.Present_Value := BINARY_INACTIVE;
     BO.Relinquish_Default := BINARY_INACTIVE;
     BO.Priority_Array :=
       repeat BINARY_INACTIVE (Z.to_nat BACNET_PRIORITY_ARRAY_SIZE);
     BO.Priority_Active := repeat false (Z.to_nat BACNET_PRIORITY_ARRAY_SIZE);
     BO.Object_Name :=
       snd (characterstring_init_ansi (BO.Object_Name o)
              (BoText.sprintf_BO i));
     BO.Description :=
       snd (characterstring_init_ansi (BO.Description o) BoText.description);
     BO.Active_Text :=
       snd (characterstring_init_ansi (BO.Active_Text o) BoText.active_text);
     BO.Inactive_Text :=
       snd (characterstring_init_ansi (BO.Inactive_Text o)
              BoText.inactive_text);
     BO.Out_Of_Service := false;
     BO.Reliability := RELIABILITY_NO_FAULT_DETECTED;
     BO.Polarity := POLARITY_NORMAL;
     BO.Changed := false;
     BO.Minimum_Off_Time_ms := 0;
     BO.Minimum_On_Time_ms := 0;
     BO.Time_Of_State_Count_Change_ms := millisecond_counter st;
     BO.Last_State := BINARY_INACTIVE |}.

Definition Binary_Output_Init (st : state F) (BO_Data : list (BO.t CS))
  : list (BO.t CS) :=
  map (fun io => Binary_Output_Init_object st (Z.of_nat (fst io)) (snd io))
      (combine (seq 0 (Z.to_nat MAX_BINARY_OUTPUTS)) BO_Data).

(** The search of the priority loop: the value at the first active
    priority, if any. *)
Fixpoint first_active (active : list bool) (values : list Z) : option Z :=
  match active, values with
  | true :: _, v :: _ => Some v
  | false :: active', _ :: values' => first_active active' values'
  | _, _ => None
  end.

(** [Binary_Output_Present_Value_Calculate] on the object it is called
    for. *)
Definition Present_Value_Calculate_object (st : state F) (o : BO.t CS)
  : BO.t CS :=
  (* Find highest priority active value *)
  match first_active
          (firstn (Z.to_nat BACNET_PRIORITY_ARRAY_SIZE) (BO.Priority_Active o))
          (firstn (Z.to_nat BACNET_PRIORITY_ARRAY_SIZE) (BO.Priority_Array o))
  with
  | Some new_value =>
      (* Check minimum on/off time *)
      let time_in_state :=
        C.uint32 (millisecond_counter st
                  - BO.Time_Of_State_Count_Change_ms o) in
      if (BO.Last_State o =? BINARY_ACTIVE)
         && (new_value =? BINARY_INACTIVE)
         && (time_in_state <? BO.Minimum_On_Time_ms o)
      then o (* Minimum on time not met *)
      else if (BO.Last_State o =? BINARY_INACTIVE)
              && (new_value =? BINARY_ACTIVE)
              && (time_in_state <? BO.Minimum_Off_Time_ms o)
      then o (* Minimum off time not met *)
      else
        (* Update state *)
        if negb (BO.Present_Value o =? new_value) then
          { o with BO.Last_State := BO.Present_Value o;
                   BO.Present_Value := new_value;
                   BO.Time_Of_State_Count_Change_ms := millisecond_counter st }
        else o
  | None =>
      (* Use relinquish default if no priority is active *)
      if negb (BO.Present_Value o =? BO.Relinquish_Default o) then
        { o with BO.Last_State := BO.Present_Value o;
                 BO.Present_Value := BO.Relinquish_Default o;
                 BO.Time_Of_State_Count_Change_ms := millisecond_counter st }
      else o
  end.

Definition Binary_Output_Present_Value_Calculate (index : Z) (st : state F)
  (BO_Data : list (BO.t CS)) : list (BO.t CS) :=
  if index <? MAX_BINARY_OUTPUTS
  then BO_update index (Present_Value_Calculate_object st) BO_Data
  else BO_Data.

Definition Binary_Output_Valid_Instance (object_instance : Z) : bool :=
  object_instance <? MAX_BINARY_OUTPUTS.

Definition Binary_Output_Count : Z := MAX_BINARY_OUTPUTS.

Definition Binary_Output_Index_To_Instance (index : Z) : Z := index.

Definition Binary_Output_Instance_To_Index (object_instance : Z) : Z :=
  let index := MAX_BINARY_OUTPUTS in
  if object_instance <? MAX_BINARY_OUTPUTS then object_instance else index.

Definition Binary_Output_Present_Value (object_instance : Z)
  (BO_Data : list (BO.t CS)) : Z :=
  let value := BINARY_INACTIVE in
  let index := Binary_Output_Instance_To_Index object_instance in
  if index <? MAX_BINARY_OUTPUTS
  then BO_member index BO.Present_Value value BO_Data
  else value.

Definition Binary_Output_Present_Value_Set
  (object_instance value priority : Z) (st : state F)
  (BO_Data : list (BO.t CS)) : bool * list (BO.t CS) :=
  let status := false in
  let index := Binary_Output_Instance_To_Index object_instance in
  if index <? MAX_BINARY_OUTPUTS then
    if negb (priority =? 0) && (priority <=? BACNET_PRIORITY_ARRAY_SIZE) then
      (* Set priority value *)
      let priority := priority - 1 in
      let BO_Data :=
        BO_update index
          (fun o => { o with BO.Priority_Array :=
                               list_set (Z.to_nat priority) value
                                 (BO.Priority_Array o) }) BO_Data in
      let BO_Data :=
        BO_update index
          (fun o => { o with BO.Priority_Active :=
                               list_set (Z.to_nat priority) true
                                 (BO.Priority_Active o) }) BO_Data in
      (* Calculate new present value *)
      let prior_value := BO_member index BO.Present_Value 0 BO_Data in
      let BO_Data := Binary_Output_Present_Value_Calculate index st BO_Data in
      (* Check for COV *)
      let BO_Data :=
        if negb (prior_value =? BO_member index BO.Present_Value 0 BO_Data)
        then BO_update index (fun o => { o with BO.Changed := true }) BO_Data
        else BO_Data in
      (true, BO_Data)
    else if BO_member index BO.Out_Of_Service false BO_Data then
      (* Direct write when out of service *)
      let BO_Data :=
        if negb (BO_member index BO.Present_Value 0 BO_Data =? value) then
          BO_update index
            (fun o => { o with BO.Changed := true;
                               BO.Last_State := BO.Present_Value o;
                               BO.Present_Value := value;
                               BO.Time_Of_State_Count_Change_ms :=
                                 millisecond_counter st }) BO_Data
        else BO_Data in
      (true, BO_Data)
    else (status, BO_Data)
  else (status, BO_Data).

Definition Binary_Output_Present_Value_Relinquish
  (object_instance priority : Z) (st : state F) (BO_Data : list (BO.t CS))
  : bool * list (BO.t CS) :=
  let status := false in
  let index := Binary_Output_Instance_To_Index object_instance in
  if index <? MAX_BINARY_OUTPUTS then
    if negb (priority =? 0) && (priority <=? BACNET_PRIORITY_ARRAY_SIZE) then
      let priority := priority - 1 in
      let BO_Data :=
        BO_update index
          (fun o => { o with BO.Priority_Active :=
                               list_set (Z.to_nat priority) false
                                 (BO.Priority_Active o) }) BO_Data in
      (* Calculate new present value *)
      let prior_value := BO_member index BO.Present_Value 0 BO_Data in
      let BO_Data := Binary_Output_Present_Value_Calculate index st BO_Data in
      (* Check for COV *)
      let BO_Data :=
        if negb (prior_value =? BO_member index BO.Present_Value 0 BO_Data)
        then BO_update index (fun o => { o with BO.Changed := true }) BO_Data
        else BO_Data in
      (true, BO_Data)
    else (status, BO_Data)
  else (status, BO_Data).

Definition Binary_Output_Out_Of_Service (object_instance : Z)
  (BO_Data : list (BO.t CS)) : bool :=
  let oos := false in
  let index := Binary_Output_Instance_To_Index object_instance in
  if index <? MAX_BINARY_OUTPUTS
  then BO_member index BO.Out_Of_Service oos BO_Data
  else oos.

Definition Binary_Output_Out_Of_Service_Set (object_instance : Z)
  (oos_flag : bool) (BO_Data : list (BO.t CS)) : list (BO.t CS) :=
  let index := Binary_Output_Instance_To_Index object_instance in
  if index <? MAX_BINARY_OUTPUTS
  then BO_update index (fun o => { o with BO.Out_Of_Service := oos_flag })
         BO_Data
  else BO_Data.

Definition Binary_Output_Polarity (object_instance : Z)
  (BO_Data : list (BO.t CS)) : Z :=
  let polarity := POLARITY_NORMAL in
  let index := Binary_Output_Instance_To_Index object_instance in
  if index <? MAX_BINARY_OUTPUTS
  then BO_member index BO.Polarity polarity BO_Data
  else polarity.

Definition Binary_Output_Polarity_Set (object_instance polarity : Z)
  (BO_Data : list (BO.t CS)) : bool * list (BO.t CS) :=
  let status := false in
  let index := Binary_Output_Instance_To_Index object_instance in
  if index <? MAX_BINARY_OUTPUTS
  then (true,
        BO_update index (fun o => { o with BO.Polarity := polarity }) BO_Data)
  else (status, BO_Data).

Definition Binary_Output_Relinquish_Default (object_instance : Z)
  (BO_Data : list (BO.t CS)) : Z :=
  let value := BINARY_INACTIVE in
  let index := Binary_Output_Instance_To_Index object_instance in
  if index <? MAX_BINARY_OUTPUTS
  then BO_member index BO.Relinquish_Default value BO_Data
  else value.

Definition Binary_Output_Relinquish_Default_Set (object_instance value : Z)
  (BO_Data : list (BO.t CS)) : bool * list (BO.t CS) :=
  let status := false in
  let index := Binary_Output_Instance_To_Index object_instance in
  if index <? MAX_BINARY_OUTPUTS
  then (true,
        BO_update index (fun o => { o with BO.Relinquish_Default := value })
          BO_Data)
  else (status, BO_Data).

Definition Binary_Output_Priority_Array_Value
  (object_instance priority : Z) (BO_Data : list (BO.t CS)) : Z :=
  let value := BINARY_INACTIVE in
  let index := Binary_Output_Instance_To_Index object_instance in
  if index <? MAX_BINARY_OUTPUTS then
    if negb (priority =? 0) && (priority <=? BACNET_PRIORITY_ARRAY_SIZE) then
      let priority := priority - 1 in
      if BO_member index
           (fun o => nth (Z.to_nat priority) (BO.Priority_Active o) false)
           false BO_Data
      then BO_member index
             (fun o => nth (Z.to_nat priority) (BO.Priority_Array o) 0)
             value BO_Data
      else value
    else value
  else value.

Definition Binary_Output_Change_Of_Value (object_instance : Z)
  (BO_Data : list (BO.t CS)) : bool :=
  let changed := false in
  let index := Binary_Output_Instance_To_Index object_instance in
  if index <? MAX_BINARY_OUTPUTS
  then BO_member index BO.Changed changed BO_Data
  else changed.

Definition Binary_Output_Change_Of_Value_Clear (object_instance : Z)
  (BO_Data : list (BO.t CS)) : list (BO.t CS) :=
  let index := Binary_Output_Instance_To_Index object_instance in
  if index <? MAX_BINARY_OUTPUTS
  then BO_update index (fun o => { o with BO.Changed := false }) BO_Data
  else BO_Data.

(** *** What the properties of the object speak of *)

(** The arrays have their declared sizes. *)
Definition BO_sized (BO_Data : list (BO.t CS)) : Prop :=
  length BO_Data = Z.to_nat MAX_BINARY_OUTPUTS
  /\ forall o, In o BO_Data ->
       length (BO.Priority_Array o) = Z.to_nat BACNET_PRIORITY_ARRAY_SIZE
       /\ length (BO.Priority_Active o)
          = Z.to_nat BACNET_PRIORITY_ARRAY_SIZE.

(** Priority [priority] (1..16) of the object is active. *)
Definition priority_active (priority : Z) (o : BO.t CS) : bool :=
  nth (Z.to_nat (priority - 1)) (BO.Priority_Active o) false.

(** The value commanded at priority [priority] (1..16) of the object. *)
Definition priority_value (priority : Z) (o : BO.t CS) : Z :=
  nth (Z.to_nat (priority - 1)) (BO.Priority_Array o) 0.

(** [v] is the value the priority array of the object calls for: the value
    at the active priority with the lowest number, or the relinquish
    default when no priority is active. *)
Definition commanded (o : BO.t CS) (v : Z) : Prop :=
  (exists p, 1 <= p <= BACNET_PRIORITY_ARRAY_SIZE
             /\ priority_active p o = true
             /\ priority_value p o = v
             /\ forall q, 1 <= q < p -> priority_active q o = false)
  \/ ((forall q, 1 <= q <= BACNET_PRIORITY_ARRAY_SIZE ->
                 priority_active q o = false)
      /\ v = BO.Relinquish_Default o).

(** [BO_Data'] is [BO_Data] with the object of index [index] replaced by
    [o'], every other object being as it was. *)
Definition only_object_changed (index : Z) (o' : BO.t CS)
  (BO_Data BO_Data' : list (BO.t CS)) : Prop :=
  nth_error BO_Data' (Z.to_nat index) = Some o'
  /\ (forall j : nat,
        j <> Z.to_nat index -> nth_error BO_Data' j = nth_error BO_Data j)
  /\ length BO_Data' = length BO_Data.

(** The arrays have their declared sizes and no object has a minimum on or
    off time. *)
Definition BO_quiet (BO_Data : list (BO.t CS)) : Prop :=
  BO_sized BO_Data
  /\ forall o, In o BO_Data ->
       BO.Minimum_Off_Time_ms o = 0 /\ BO.Minimum_On_Time_ms o = 0.





End BinaryOutput.

(** An instance of the absent declarations, to run the object on concrete
    inputs: character strings as they are, the binary values 0 and 1. *)
Module StdBo.

#[global] Instance bacnet : Bacnet String.string := {|
  BINARY_INACTIVE := 0;
  BINARY_ACTIVE := 1;
  RELIABILITY_NO_FAULT_DETECTED := 0;
  POLARITY_NORMAL := 0;
  characterstring_init_ansi _ value := (true, value)
|}.

(** The objects zero-initialised, and after [Binary_Output_Init] at
    power-on. *)
Definition zero : BO.t String.string :=
  BO.mk 0 0 (repeat 0 16) (repeat false 16)
    String.EmptyString String.EmptyString String.EmptyString
    String.EmptyString false 0 0 false 0 0 0 0.

Definition bo0 : list (BO.t String.string) :=
  Binary_Output_Init Std.st0 (repeat zero 4).

End StdBo.

(** * Properties *)

(** ** Machine arithmetic *)

Lemma uint32_range (z : Z) : 0 <= C.uint32 z < 2 ^ 32.
Proof. unfold C.uint32. apply Z.mod_pos_bound. lia. Qed.

Lemma uint32_small (z : Z) : 0 <= z < 2 ^ 32 -> C.uint32 z = z.
Proof. intros Hz. unfold C.uint32. now apply Z.mod_small. Qed.

Lemma uint16_small (z : Z) : 0 <= z < 2 ^ 16 -> C.uint16 z = z.
Proof. intros Hz. unfold C.uint16. now apply Z.mod_small. Qed.

Lemma int_small (z : Z) : 0 <= z < 2 ^ 31 -> C.int z = z.
Proof.
  intros Hz. unfold C.int. cbv zeta.
  rewrite Z.mod_small by lia.
  destruct (Z.ltb_spec z (2 ^ 31)); [reflexivity | lia].
Qed.

Lemma memcpy_prefix (dst src : list Z) (n : Z) :
  (Z.to_nat n <= length src)%nat ->
  firstn (Z.to_nat n) (C.memcpy dst src n) = firstn (Z.to_nat n) src.
Proof.
  intros Hn. unfold C.memcpy.
  rewrite firstn_app, firstn_firstn, Nat.min_id, length_firstn.
  replace (Z.to_nat n - Nat.min (Z.to_nat n) (length src))%nat with 0%nat
    by lia.
  cbn [firstn]. apply app_nil_r.
Qed.

(** ** Millisecond timer *)

Section TimerFacts.
Context {F : Type}.

Lemma Timer1Handler_counter (st : state F) :
  millisecond_counter (Timer1Handler st)
  = C.uint32 (millisecond_counter st + 1).
Proof.
  unfold Timer1Handler. cbv zeta.
  repeat match goal with
         | |- context [if ?b then _ else _] => destruct b
         end; reflexivity.
Qed.

Lemma ticks_counter (k : nat) :
  forall st : state F,
    0 <= millisecond_counter st < 2 ^ 32 ->
    millisecond_counter (ticks k st)
    = C.uint32 (millisecond_counter st + Z.of_nat k).
Proof.
  induction k as [|k IH]; intros st Hst.
  - cbn [ticks]. rewrite Z.add_0_r. symmetry. now apply uint32_small.
  - cbn [ticks].
    rewrite IH by (rewrite Timer1Handler_counter; apply uint32_range).
    rewrite Timer1Handler_counter. unfold C.uint32.
    rewrite Zplus_mod_idemp_l. f_equal. lia.
Qed.

(** C5.  With the 32-bit tick counter and a stored 32-bit start tick,
    [mstimer_elapsed] is [(now - start) mod 2^32]: a value in [0, 2^32),
    equal to [now - start] when the counter has not wrapped and to
    [now + 2^32 - start] when it has ([now < start]); [mstimer_expired] is
    true exactly when that elapsed value is at least the interval; and [k]
    further ticks of the counter advance the elapsed value by [k] modulo
    2^32, wherever the counter overflows. *)
Theorem mstimer_elapsed_wraparound (t : mstimer) (st : state F) :
  0 <= start t < 2 ^ 32 ->
  0 <= millisecond_counter st < 2 ^ 32 ->
  let now := millisecond_counter st in
  let e := mstimer_elapsed (Some t) st in
  e = (now - start t) mod 2 ^ 32
  /\ 0 <= e < 2 ^ 32
  /\ (start t <= now -> e = now - start t)
  /\ (now < start t -> e = now + 2 ^ 32 - start t)
  /\ (mstimer_expired (Some t) st <> 0 <-> interval t <= e)
  /\ (forall k : nat,
        mstimer_elapsed (Some t) (ticks k st)
        = (e + Z.of_nat k) mod 2 ^ 32).
Proof.
  intros Hs Hn now e.
  assert (He : e = (now - start t) mod 2 ^ 32) by reflexivity.
  split; [exact He|].
  split; [rewrite He; apply Z.mod_pos_bound; lia|].
  split; [intros Hle; rewrite He; apply Z.mod_small; lia|].
  split.
  { intros Hlt. rewrite He.
    replace (now - start t) with (now + 2 ^ 32 - start t + (-1) * 2 ^ 32)
      by lia.
    rewrite Z_mod_plus_full. apply Z.mod_small. lia. }
  split.
  { cbn [mstimer_expired].
    change (C.ulong (millisecond_counter st - start t)) with e.
    destruct (Z.geb_spec e (interval t)); split; intros; try lia; congruence. }
  intros k. cbn [mstimer_elapsed]. unfold C.ulong.
  rewrite ticks_counter by exact Hn. fold now.
  rewrite He. unfold C.uint32.
  rewrite <- Zminus_mod_idemp_l, Z.mod_mod by lia.
  rewrite Zminus_mod_idemp_l.
  rewrite Zplus_mod_idemp_l. f_equal. lia.
Qed.

End TimerFacts.

Lemma mstimer_elapsed_wraparound_witness :
  let t := {| start := 2 ^ 32 - 5; interval := 10 |} in
  let st := { Std.st0 with millisecond_counter := 10 } in
  mstimer_elapsed (Some t) st = 15
  /\ mstimer_expired (Some t) st <> 0
  /\ mstimer_elapsed (Some t) (ticks 3 st) = 18.
Proof.
  intros t st.
  destruct (mstimer_elapsed_wraparound t st) as (_ & _ & _ & Hw & He & Hk).
  - change (0 <= 2 ^ 32 - 5 < 2 ^ 32). lia.
  - change (0 <= 10 < 2 ^ 32). lia.
  - assert (Hlt : millisecond_counter st < start t)
      by (change (10 < 2 ^ 32 - 5); lia).
    split; [apply Hw; exact Hlt|].
    split; [apply He; rewrite Hw by exact Hlt;
            change (10 <= 10 + 2 ^ 32 - (2 ^ 32 - 5)); lia|].
    rewrite Hk, Hw by exact Hlt. reflexivity.
Defined.

(** ** Sending: the single transmit slot *)

Section SendFacts.
Context {F : Type} `{Mstp F}.
Implicit Types (dest : option BACNET_ADDRESS) (npdu : option BACNET_NPDU_DATA).
Implicit Types (pdu : option (list Z)) (bytes : list Z) (pdu_len : Z).

Lemma send_pdu_invalid dest npdu pdu pdu_len (st : state F) :
  is_null pdu || (pdu_len =? 0) || (pdu_len >? MAX_MPDU) = true ->
  dlmstp_send_pdu dest npdu pdu pdu_len st = (-1, st).
Proof. intros Hc. unfold dlmstp_send_pdu. now rewrite Hc. Qed.

Lemma send_pdu_busy dest npdu pdu pdu_len (st : state F) :
  is_null pdu || (pdu_len =? 0) || (pdu_len >? MAX_MPDU) = false ->
  TxPacket.ready (Transmit_Packet st) = true ->
  dlmstp_send_pdu dest npdu pdu pdu_len st = (-2, st).
Proof. intros Hc Hr. unfold dlmstp_send_pdu. now rewrite Hc, Hr. Qed.

(** The checks of [dlmstp_send_pdu], as a proposition. *)
Lemma send_pdu_checks pdu pdu_len :
  is_null pdu || (pdu_len =? 0) || (pdu_len >? MAX_MPDU) = true
  <-> pdu = None \/ pdu_len = 0 \/ pdu_len > MAX_MPDU.
Proof.
  rewrite !orb_true_iff, Z.eqb_eq, Z.gtb_gt.
  destruct pdu; cbn [is_null]; intuition (try discriminate; try lia).
Qed.

Lemma send_pdu_accepted dest npdu pdu pdu_len (st : state F) :
  is_null pdu || (pdu_len =? 0) || (pdu_len >? MAX_MPDU) = false ->
  TxPacket.ready (Transmit_Packet st) = false ->
  dlmstp_send_pdu dest npdu pdu pdu_len st
  = (C.int pdu_len,
     { st with Transmit_Packet := staged dest npdu pdu pdu_len st }).
Proof.
  intros Hc Hr. unfold dlmstp_send_pdu, staged. rewrite Hc, Hr.
  destruct npdu as [n|]; [destruct (data_expecting_reply n)|]; reflexivity.
Qed.

Lemma staged_default_dest dest npdu pdu pdu_len (st : state F)
  (b : BACNET_ADDRESS) :
  (dest = None \/ exists d, dest = Some d /\ Address.mac_len d <> 1) ->
  staged dest npdu pdu pdu_len st
  = staged (dlmstp_get_broadcast_address (Some b)) npdu pdu pdu_len st.
Proof.
  intros Hd. unfold staged. f_equal.
  destruct Hd as [-> | (d & -> & Hm)]; [reflexivity|].
  destruct (Z.eqb_spec (Address.mac_len d) 1); [contradiction | reflexivity].
Qed.

(** C1.  While a transmit packet is staged (the pending flag is set), a
    call of [dlmstp_send_pdu] with any arguments returns a negative value
    and changes nothing: the whole state, and so the staged destination,
    frame type, payload bytes, payload length and pending flag, are the
    same after the call as before. *)
Theorem send_pdu_pending_rejected dest npdu pdu pdu_len (st : state F) :
  TxPacket.ready (Transmit_Packet st) = true ->
  let r := dlmstp_send_pdu dest npdu pdu pdu_len st in
  fst r < 0
  /\ snd r = st
  /\ TxPacket.destination (Transmit_Packet (snd r))
     = TxPacket.destination (Transmit_Packet st)
  /\ TxPacket.frame_type (Transmit_Packet (snd r))
     = TxPacket.frame_type (Transmit_Packet st)
  /\ TxPacket.pdu (Transmit_Packet (snd r)) = TxPacket.pdu (Transmit_Packet st)
  /\ TxPacket.pdu_len (Transmit_Packet (snd r))
     = TxPacket.pdu_len (Transmit_Packet st)
  /\ TxPacket.ready (Transmit_Packet (snd r)) = true.
Proof.
  intros Hr r. subst r.
  destruct (is_null pdu || (pdu_len =? 0) || (pdu_len >? MAX_MPDU)) eqn:Hc.
  - rewrite send_pdu_invalid by exact Hc. cbn [fst snd].
    repeat split; solve [assumption | lia].
  - rewrite send_pdu_busy by assumption. cbn [fst snd].
    repeat split; solve [assumption | lia].
Qed.

(** C2.  For a length that is a value of [unsigned], [dlmstp_send_pdu]
    returns a negative value exactly when the payload pointer is null, the
    length is zero, the length exceeds [MAX_MPDU], or a transmit packet is
    pending; a rejected call leaves the whole state as it was; an accepted
    call returns the payload length, stages that many bytes of the payload
    and sets the pending flag. *)
Theorem send_pdu_result dest npdu pdu pdu_len (st : state F) :
  0 <= pdu_len < 2 ^ 32 ->
  let r := dlmstp_send_pdu dest npdu pdu pdu_len st in
  (fst r < 0 <->
     pdu = None \/ pdu_len = 0 \/ pdu_len > MAX_MPDU
     \/ TxPacket.ready (Transmit_Packet st) = true)
  /\ (fst r < 0 -> snd r = st)
  /\ (0 <= fst r ->
        fst r = pdu_len
        /\ Transmit_Packet (snd r) = staged dest npdu pdu pdu_len st
        /\ TxPacket.pdu_len (Transmit_Packet (snd r)) = pdu_len
        /\ TxPacket.ready (Transmit_Packet (snd r)) = true
        /\ ((Z.to_nat pdu_len <= length (bytes_at pdu))%nat ->
              firstn (Z.to_nat pdu_len) (TxPacket.pdu (Transmit_Packet (snd r)))
              = firstn (Z.to_nat pdu_len) (bytes_at pdu))).
Proof.
  intros Hlen r. subst r.
  destruct (is_null pdu || (pdu_len =? 0) || (pdu_len >? MAX_MPDU)) eqn:Hc.
  - rewrite send_pdu_invalid by exact Hc. cbn [fst snd].
    apply send_pdu_checks in Hc.
    split; [split; [intros _; tauto | lia]|].
    split; [reflexivity | lia].
  - assert (Hn : ~ (pdu = None \/ pdu_len = 0 \/ pdu_len > MAX_MPDU)).
    { rewrite <- send_pdu_checks, Hc. discriminate. }
    assert (Hb : 0 < pdu_len <= MAX_MPDU) by lia.
    unfold MAX_MPDU in Hb.
    destruct (TxPacket.ready (Transmit_Packet st)) eqn:Hr.
    + rewrite send_pdu_busy by assumption. cbn [fst snd].
      split; [split; [intros _; tauto | lia]|].
      split; [reflexivity | lia].
    + rewrite send_pdu_accepted by assumption. cbn [fst snd].
      rewrite int_small by lia.
      split; [split; [lia | intros [?|[?|[?|?]]]; try tauto; discriminate]|].
      split; [lia|]. intros _.
      split; [reflexivity|]. split; [reflexivity|].
      split; [cbn; apply uint16_small; lia|].
      split; [reflexivity|].
      intros Hsrc. cbn. now apply memcpy_prefix.
Qed.

(** C10.  With a valid payload, a valid length and no pending packet, a
    null destination or a destination whose [mac_len] is not 1 does not
    make [dlmstp_send_pdu] fail: the packet is staged to the broadcast
    address 0xFF and the call returns the payload length, with the same
    result and the same state as for the explicit broadcast destination
    that [dlmstp_get_broadcast_address] fills in. *)
Theorem send_pdu_default_broadcast dest npdu bytes pdu_len (st : state F) :
  0 < pdu_len <= MAX_MPDU ->
  TxPacket.ready (Transmit_Packet st) = false ->
  (dest = None \/ exists d, dest = Some d /\ Address.mac_len d <> 1) ->
  let r := dlmstp_send_pdu dest npdu (Some bytes) pdu_len st in
  fst r = pdu_len
  /\ TxPacket.destination (Transmit_Packet (snd r)) = 255
  /\ TxPacket.ready (Transmit_Packet (snd r)) = true
  /\ TxPacket.pdu_len (Transmit_Packet (snd r)) = pdu_len
  /\ forall b : BACNET_ADDRESS,
       dlmstp_send_pdu (dlmstp_get_broadcast_address (Some b)) npdu
         (Some bytes) pdu_len st = r.
Proof.
  intros Hlen Hr Hd r. subst r. unfold MAX_MPDU in Hlen.
  assert (Hc : is_null (Some bytes) || (pdu_len =? 0) || (pdu_len >? MAX_MPDU)
               = false).
  { cbn [is_null orb]. apply orb_false_iff. split.
    - apply Z.eqb_neq. lia.
    - unfold MAX_MPDU. destruct (Z.gtb_spec pdu_len 501); [lia | reflexivity]. }
  rewrite !send_pdu_accepted by assumption. cbn [fst snd].
  assert (Hdst : TxPacket.destination (staged dest npdu (Some bytes) pdu_len st)
                 = MSTP_BROADCAST_ADDRESS).
  { destruct Hd as [-> | (d & -> & Hm)]; cbn; [reflexivity|].
    destruct (Z.eqb_spec (Address.mac_len d) 1);
      [contradiction | reflexivity]. }
  split; [apply int_small; lia|].
  split; [exact Hdst|].
  split; [reflexivity|].
  split; [cbn; apply uint16_small; lia|].
  intros b.
  rewrite (staged_default_dest dest npdu (Some bytes) pdu_len st b Hd).
  apply send_pdu_accepted; assumption.
Qed.

End SendFacts.

Lemma send_pdu_pending_rejected_witness :
  TxPacket.ready (Transmit_Packet Std.st_pending) = true
  /\ fst (dlmstp_send_pdu None None (Some [9; 9]) 2 Std.st_pending) < 0
  /\ snd (dlmstp_send_pdu None None (Some [9; 9]) 2 Std.st_pending)
     = Std.st_pending.
Proof.
  split; [reflexivity|].
  destruct (send_pdu_pending_rejected None None (Some [9; 9]) 2 Std.st_pending)
    as (Hneg & Hsame & _); [reflexivity|].
  split; assumption.
Defined.

Lemma send_pdu_result_witness :
  fst (dlmstp_send_pdu (Some Std.addr10) None (Some Std.payload) 3 Std.st0) = 3
  /\ snd (dlmstp_send_pdu (Some Std.addr10) None (Some Std.payload) 0 Std.st0)
     = Std.st0.
Proof.
  split.
  - destruct (send_pdu_result (Some Std.addr10) None (Some Std.payload) 3
                Std.st0)
      as (_ & _ & Hacc); [lia|].
    apply Hacc. vm_compute. discriminate.
  - destruct (send_pdu_result (Some Std.addr10) None (Some Std.payload) 0
                Std.st0)
      as (_ & Hrej & _); [lia|].
    apply Hrej. vm_compute. reflexivity.
Defined.

Lemma send_pdu_default_broadcast_witness :
  fst (dlmstp_send_pdu (Some Std.addr_long) None (Some Std.payload) 3
         Std.st0) = 3
  /\ TxPacket.destination
       (Transmit_Packet
          (snd (dlmstp_send_pdu (Some Std.addr_long) None (Some Std.payload) 3
                  Std.st0))) = 255.
Proof.
  destruct (send_pdu_default_broadcast (Some Std.addr_long) None Std.payload 3
              Std.st0) as (Hret & Hdst & _).
  - unfold MAX_MPDU. lia.
  - reflexivity.
  - right. exists Std.addr_long. split; [reflexivity|].
    change (6 <> 1). lia.
  - split; assumption.
Defined.

(** ** The silence timer *)

Section SilenceFacts.
Context {F : Type}.

(** The byte-received event zeroes a member of the port structure that
    [MSTP_SilenceTimer] does not read: the value the state machine gets is
    the millisecond counter, before and after the event. *)
Lemma MSTP_SilenceTimer_rx_event (mstp_port : Port.t F) (st : state F) :
  Port.SilenceTimer (MSTP_Port (dlmstp_rs485_rx_event st)) = 0
  /\ MSTP_SilenceTimer mstp_port (dlmstp_rs485_rx_event st)
     = millisecond_counter st.
Proof. split; reflexivity. Qed.

End SilenceFacts.

(** C3.  The byte-received event does not reset the silence timer the
    state machine reads.  At a byte received 1000 ms after power-on,
    [dlmstp_rs485_rx_event] zeroes [MSTP_Port.SilenceTimer], and
    [MSTP_SilenceTimer] returns 1000, the value of the millisecond counter,
    not zero; it still does after [MSTP_SilenceTimerReset]. *)
Theorem rx_event_silence_timer_at_1000ms :
  let st := ticks 1000 Std.st0 in
  let st' := dlmstp_rs485_rx_event st in
  Port.SilenceTimer (MSTP_Port st') = 0
  /\ MSTP_SilenceTimer (MSTP_Port st') st' = 1000
  /\ MSTP_SilenceTimer (MSTP_Port st')
       (MSTP_SilenceTimerReset (MSTP_Port st') st') = 1000.
Proof. vm_compute. repeat split. Qed.

(** ** Configuration setters *)

Section ConfigFacts.
Context {F : Type} `{Mstp F}.

Lemma RS485_Set_Baud_Rate_enumerated (baud : Z) (st : state F) :
  In baud enumerated_baud_rates ->
  RS485_Set_Baud_Rate baud st
  = { st with U1BRG := GetPeripheralClock / (4 * baud) - 1 }.
Proof.
  unfold enumerated_baud_rates. cbn [In].
  intros [<- | [<- | [<- | [<- | [<- | [<- | []]]]]]]; reflexivity.
Qed.

Lemma set_baud_rate_test (baud : Z) :
  (baud =? 9600) || (baud =? 19200) || (baud =? 38400)
  || (baud =? 57600) || (baud =? 76800) || (baud =? 115200) = true
  <-> In baud enumerated_baud_rates.
Proof.
  unfold enumerated_baud_rates. cbn [In].
  rewrite !orb_true_iff, !Z.eqb_eq. intuition congruence.
Qed.

(** C4.  [dlmstp_set_baud_rate] accepts exactly the rates 9600, 19200,
    38400, 57600, 76800 and 115200: for each of them it returns true and
    configures the rate (the divisor [GetPeripheralClock / (4 * baud) - 1]
    goes to [U1BRG], nothing else changes); for every other value it
    returns false and the state, the configured divisor included, is
    unchanged. *)
Theorem set_baud_rate_enumerated (baud : Z) (st : state F) :
  (fst (dlmstp_set_baud_rate baud st) = true
   <-> In baud enumerated_baud_rates)
  /\ (In baud enumerated_baud_rates ->
        dlmstp_set_baud_rate baud st
        = (true, { st with U1BRG := GetPeripheralClock / (4 * baud) - 1 }))
  /\ (~ In baud enumerated_baud_rates ->
        dlmstp_set_baud_rate baud st = (false, st)).
Proof.
  pose proof (set_baud_rate_test baud) as Ht.
  unfold dlmstp_set_baud_rate. cbv zeta.
  destruct ((baud =? 9600) || (baud =? 19200) || (baud =? 38400)
            || (baud =? 57600) || (baud =? 76800) || (baud =? 115200)).
  - assert (Hin : In baud enumerated_baud_rates) by now apply Ht.
    cbn [fst]. split; [tauto|]. split; [|tauto].
    intros _. now rewrite RS485_Set_Baud_Rate_enumerated.
  - assert (Hout : ~ In baud enumerated_baud_rates).
    { intros Hin. apply Ht in Hin. discriminate. }
    cbn [fst]. split; [split; [discriminate | tauto]|].
    split; [tauto | reflexivity].
Qed.

Lemma set_mac_address_rejected (a : Z) (st : state F) :
  254 < a -> dlmstp_set_mac_address a st = st.
Proof.
  intros Ha. unfold dlmstp_set_mac_address.
  destruct (Z.leb_spec a 254); [lia | reflexivity].
Qed.

Lemma set_mac_address_config (a : Z) (st : state F) :
  a <= 254 ->
  This_Station (dlmstp_set_mac_address a st) = a
  /\ Max_Master (dlmstp_set_mac_address a st) = Max_Master st
  /\ Max_Info_Frames (dlmstp_set_mac_address a st) = Max_Info_Frames st.
Proof.
  intros Ha. unfold dlmstp_set_mac_address.
  destruct (Z.leb_spec a 254); [|lia]. cbv zeta.
  destruct (negb _); repeat split.
Qed.

Lemma set_max_master_rejected (m : Z) (st : state F) :
  127 < m -> dlmstp_set_max_master m st = st.
Proof.
  intros Hm. unfold dlmstp_set_max_master.
  destruct (Z.leb_spec m 127); [lia | reflexivity].
Qed.

Lemma set_max_master_applied (m : Z) (st : state F) :
  m <= 127 ->
  dlmstp_set_max_master m st
  = { st with Max_Master := m;
              MSTP_Port := { MSTP_Port st with Port.Nmax_master := m } }.
Proof.
  intros Hm. unfold dlmstp_set_max_master.
  destruct (Z.leb_spec m 127); [reflexivity | lia].
Qed.

Lemma set_max_info_frames_rejected (n : Z) (st : state F) :
  n < 1 -> dlmstp_set_max_info_frames n st = st.
Proof.
  intros Hn. unfold dlmstp_set_max_info_frames.
  destruct (Z.geb_spec n 1); [lia | reflexivity].
Qed.

Lemma set_max_info_frames_applied (n : Z) (st : state F) :
  1 <= n ->
  dlmstp_set_max_info_frames n st
  = { st with Max_Info_Frames := n;
              MSTP_Port := { MSTP_Port st with Port.Nmax_info_frames := n } }.
Proof.
  intros Hn. unfold dlmstp_set_max_info_frames.
  destruct (Z.geb_spec n 1); [reflexivity | lia].
Qed.

Lemma set_baud_rate_config (b : Z) (st : state F) :
  This_Station (snd (dlmstp_set_baud_rate b st)) = This_Station st
  /\ Max_Master (snd (dlmstp_set_baud_rate b st)) = Max_Master st
  /\ Max_Info_Frames (snd (dlmstp_set_baud_rate b st)) = Max_Info_Frames st.
Proof.
  unfold dlmstp_set_baud_rate. cbv zeta.
  destruct (_ || _); repeat split.
Qed.

Lemma init_config (st : state F) :
  This_Station (snd (dlmstp_init None st)) = This_Station st
  /\ Max_Master (snd (dlmstp_init None st)) = Max_Master st
  /\ Max_Info_Frames (snd (dlmstp_init None st)) = Max_Info_Frames st.
Proof. repeat split. Qed.

Lemma do_config_call_ok (st : state F) (c : config_call) :
  config_call_typed c = true -> config_ok st ->
  config_ok (do_config_call st c).
Proof.
  unfold config_ok, config_call_typed, is_uint8, is_uint32.
  intros Ht (Hs & Hm & Hi).
  destruct c as [| a | m | n | b]; cbn [do_config_call];
    [destruct (init_config st) as (-> & -> & ->); lia | ..];
    apply andb_true_iff in Ht; destruct Ht as (Hlo%Z.leb_le & Hhi%Z.ltb_lt).
  - destruct (Z.le_gt_cases a 254) as [Ha | Ha].
    + destruct (set_mac_address_config a st Ha) as (-> & -> & ->). lia.
    + rewrite set_mac_address_rejected by lia. lia.
  - destruct (Z.le_gt_cases m 127) as [Ha | Ha].
    + rewrite set_max_master_applied by lia.
      change (0 <= This_Station st <= 254
              /\ 0 <= m <= 127 /\ 1 <= Max_Info_Frames st). lia.
    + rewrite set_max_master_rejected by lia. lia.
  - destruct (Z.le_gt_cases 1 n) as [Ha | Ha].
    + rewrite set_max_info_frames_applied by lia.
      change (0 <= This_Station st <= 254
              /\ 0 <= Max_Master st <= 127 /\ 1 <= n). lia.
    + rewrite set_max_info_frames_rejected by lia. lia.
  - destruct (set_baud_rate_config b st) as (-> & -> & ->). lia.
Qed.

Lemma do_config_calls_ok (cs : list config_call) :
  forall st : state F,
    forallb config_call_typed cs = true ->
    config_ok st -> config_ok (do_config_calls cs st).
Proof.
  induction cs as [|c cs IH]; intros st Ht Hok; [exact Hok|].
  cbn [forallb] in Ht. apply andb_true_iff in Ht. destruct Ht as (Hc & Hcs).
  cbn [do_config_calls fold_left]. apply IH; [exact Hcs|].
  now apply do_config_call_ok.
Qed.

Lemma power_on_config_ok (o : F) : config_ok (power_on o).
Proof.
  change (0 <= 1 <= 254 /\ 0 <= 127 <= 127 /\ 1 <= 1). lia.
Qed.

(** C8.  The configuration setters keep the station address in 0..254,
    max_master in 0..127 and max_info_frames at least 1: the invariant
    holds after any sequence of calls of the setters and of [dlmstp_init]
    (with arguments of the parameters' C types), from any state where it
    holds and so from the power-on state; [dlmstp_set_mac_address] above 254,
    [dlmstp_set_max_master] above 127 and [dlmstp_set_max_info_frames] with
    0 return with the whole state unchanged; arguments in range are
    applied. *)
Theorem setters_preserve_config (st : state F) (cs : list config_call) :
  config_ok st ->
  forallb config_call_typed cs = true ->
  config_ok (do_config_calls cs st)
  /\ (forall o : F, config_ok (do_config_calls cs (power_on o)))
  /\ (forall a, 254 < a -> dlmstp_set_mac_address a st = st)
  /\ (forall m, 127 < m -> dlmstp_set_max_master m st = st)
  /\ dlmstp_set_max_info_frames 0 st = st
  /\ (forall a, 0 <= a <= 254 ->
        dlmstp_mac_address (dlmstp_set_mac_address a st) = a)
  /\ (forall m, 0 <= m <= 127 ->
        dlmstp_max_master (dlmstp_set_max_master m st) = m
        /\ Port.Nmax_master (MSTP_Port (dlmstp_set_max_master m st)) = m)
  /\ (forall n, 1 <= n ->
        dlmstp_max_info_frames (dlmstp_set_max_info_frames n st) = n
        /\ Port.Nmax_info_frames
             (MSTP_Port (dlmstp_set_max_info_frames n st)) = n).
Proof.
  intros Hok Ht.
  split; [now apply do_config_calls_ok|].
  split; [intros o; apply do_config_calls_ok;
          [exact Ht | apply power_on_config_ok]|].
  split; [intros a Ha; now apply set_mac_address_rejected|].
  split; [intros m Hm; now apply set_max_master_rejected|].
  split; [apply set_max_info_frames_rejected; lia|].
  split; [intros a Ha; apply set_mac_address_config; lia|].
  split.
  - intros m Hm. rewrite set_max_master_applied by lia. split; reflexivity.
  - intros n Hn. rewrite set_max_info_frames_applied by lia.
    split; reflexivity.
Qed.

(** C9.  [dlmstp_set_mac_address] with a valid address (0..254) that
    differs from the station address in the port structure stores the
    address and resets the state machine: [MSTP_Init] is run once on the
    port structure holding the new address.  With the address the port
    structure already holds, [This_Station] of the datalink layer is set
    and nothing else: the port structure is untouched and [MSTP_Init] is not
    called. *)
Theorem set_mac_address_reset (mac_address : Z) (st : state F) :
  0 <= mac_address <= 254 ->
  (Port.This_Station (MSTP_Port st) <> mac_address ->
     dlmstp_set_mac_address mac_address st
     = { st with
           This_Station := mac_address;
           MSTP_Port :=
             MSTP_Init { MSTP_Port st with Port.This_Station := mac_address };
           calls := call_MSTP_Init :: calls st })
  /\ (Port.This_Station (MSTP_Port st) = mac_address ->
        dlmstp_set_mac_address mac_address st
        = { st with This_Station := mac_address }
        /\ MSTP_Port (dlmstp_set_mac_address mac_address st) = MSTP_Port st
        /\ calls (dlmstp_set_mac_address mac_address st) = calls st).
Proof.
  intros Hr. unfold dlmstp_set_mac_address.
  destruct (Z.leb_spec mac_address 254); [|lia]. cbv zeta.
  change (Port.This_Station
            (MSTP_Port { st with This_Station := mac_address }))
    with (Port.This_Station (MSTP_Port st)).
  destruct (Z.eqb_spec (Port.This_Station (MSTP_Port st)) mac_address);
    cbn [negb]; split; intros Hd; try contradiction.
  - repeat split.
  - reflexivity.
Qed.

End ConfigFacts.

(** ** Callbacks of the state machine *)

Section CallbackFacts.
Context {F : Type} `{Mstp F}.

Lemma cons_neq_self {A : Type} (x : A) (l : list A) : x :: l <> l.
Proof.
  intros E. apply (f_equal (@length A)) in E. cbn [length] in E. lia.
Qed.

Lemma delivered_upstream_dec (mstp_port : Port.t F) :
  {delivered_upstream mstp_port} + {~ delivered_upstream mstp_port}.
Proof.
  unfold delivered_upstream.
  destruct (Z.eq_dec (Port.DestinationAddress mstp_port)
              (Port.This_Station mstp_port));
  destruct (Z.eq_dec (Port.DestinationAddress mstp_port) 255);
  destruct (Z.eq_dec (Port.FrameType mstp_port)
              FRAME_TYPE_BACNET_DATA_EXPECTING_REPLY);
  destruct (Z.eq_dec (Port.FrameType mstp_port)
              FRAME_TYPE_BACNET_DATA_NOT_EXPECTING_REPLY);
  destruct (Z_gt_dec (Port.DataLength mstp_port) 0);
  solve [left; tauto | right; tauto].
Qed.

(** The tests of [MSTP_Put_Receive], one at a time. *)
Ltac put_receive_cases mstp_port :=
  unfold MSTP_Put_Receive, MSTP_BROADCAST_ADDRESS; cbv zeta;
  destruct (Z.eqb_spec (Port.DestinationAddress mstp_port)
              (Port.This_Station mstp_port));
  destruct (Z.eqb_spec (Port.DestinationAddress mstp_port) 255);
  cbn [orb];
  destruct (Z.eqb_spec (Port.FrameType mstp_port)
              FRAME_TYPE_BACNET_DATA_NOT_EXPECTING_REPLY);
  destruct (Z.eqb_spec (Port.FrameType mstp_port)
              FRAME_TYPE_BACNET_DATA_EXPECTING_REPLY);
  cbn [orb];
  destruct (Z.gtb_spec (Port.DataLength mstp_port) 0);
  destruct (Port.FrameType mstp_port =? FRAME_TYPE_TEST_REQUEST).

Lemma put_receive_not_for_us (mstp_port : Port.t F) (st : state F) :
  Port.DestinationAddress mstp_port <> Port.This_Station mstp_port ->
  Port.DestinationAddress mstp_port <> 255 ->
  MSTP_Put_Receive mstp_port st = (0, st).
Proof.
  intros Hs Hb. put_receive_cases mstp_port;
    solve [contradiction | reflexivity].
Qed.

Lemma put_receive_delivers (mstp_port : Port.t F) (st : state F) :
  delivered_upstream mstp_port ->
  calls (snd (MSTP_Put_Receive mstp_port st))
  = call_npdu_handler (upstream_source mstp_port st)
      (Port.InputBuffer mstp_port) (C.uint16 (Port.DataLength mstp_port))
    :: calls st.
Proof.
  unfold delivered_upstream. intros (Hd & Ht & Hl).
  put_receive_cases mstp_port; solve [reflexivity | lia | tauto].
Qed.

Lemma put_receive_no_delivery (mstp_port : Port.t F) (st : state F) :
  ~ delivered_upstream mstp_port ->
  calls (snd (MSTP_Put_Receive mstp_port st)) = calls st.
Proof.
  unfold delivered_upstream. intros Hn.
  put_receive_cases mstp_port;
    solve [reflexivity | exfalso; apply Hn; repeat split; solve [tauto | lia]].
Qed.

(** C6.  [MSTP_Put_Receive] calls [npdu_handler] exactly when the
    destination address of the frame is this station's address or the
    broadcast address 0xFF, the frame type is BACnet data expecting reply
    or BACnet data not expecting reply, and the data length is greater than
    zero: in that case one call is made, with the source address and the
    data length of the frame, and in every other case no call is made.  For
    a destination that is neither this station nor 0xFF the function
    returns 0 and changes nothing. *)
Theorem put_receive_delivery (mstp_port : Port.t F) (st : state F) :
  let r := MSTP_Put_Receive mstp_port st in
  let handed :=
    call_npdu_handler (upstream_source mstp_port st)
      (Port.InputBuffer mstp_port) (C.uint16 (Port.DataLength mstp_port)) in
  (calls (snd r) = handed :: calls st <-> delivered_upstream mstp_port)
  /\ (calls (snd r) = calls st <-> ~ delivered_upstream mstp_port)
  /\ (Port.DestinationAddress mstp_port <> Port.This_Station mstp_port ->
      Port.DestinationAddress mstp_port <> 255 ->
      r = (0, st)).
Proof.
  intros r handed. subst r handed.
  destruct (delivered_upstream_dec mstp_port) as [Hd | Hn].
  - rewrite put_receive_delivers by exact Hd.
    split; [tauto|]. split.
    + split; [intros E; now apply cons_neq_self in E | tauto].
    + intros Hs Hb. exfalso. destruct Hd as ([? | ?] & _); contradiction.
  - rewrite put_receive_no_delivery by exact Hn.
    split; [split; [intros E; symmetry in E; now apply cons_neq_self in E
                   | tauto]|].
    split; [tauto|].
    intros Hs Hb. now apply put_receive_not_for_us.
Qed.

Lemma store_buf_Transmit_Packet (p : buf_ptr) (v : list Z) (st : state F) :
  Transmit_Packet (store_buf p v st) = Transmit_Packet st.
Proof. destruct p; reflexivity. Qed.

Lemma uint16_range (z : Z) : 0 <= C.uint16 z < 2 ^ 16.
Proof. unfold C.uint16. apply Z.mod_pos_bound. lia. Qed.

(** C7.  With a packet pending, [MSTP_Get_Send] returns the length
    [MSTP_Create_Frame] gives for the staged packet and clears the pending
    flag exactly when that length is not zero (the rest of the staged
    packet is kept); when the length is zero the staged packet stays
    pending and unmodified.  With no packet pending it returns 0 and
    changes nothing. *)
Theorem get_send_consumes (mstp_port : Port.t F) (timeout : Z)
  (st : state F) :
  let r := MSTP_Get_Send mstp_port timeout st in
  let n := C.uint16 (snd (create_staged_frame mstp_port st)) in
  (TxPacket.ready (Transmit_Packet st) = true ->
     fst r = n
     /\ (TxPacket.ready (Transmit_Packet (snd r)) = false <-> n <> 0)
     /\ (n <> 0 ->
         Transmit_Packet (snd r)
         = { Transmit_Packet st with TxPacket.ready := false })
     /\ (n = 0 -> Transmit_Packet (snd r) = Transmit_Packet st))
  /\ (TxPacket.ready (Transmit_Packet st) = false -> r = (0, st)).
Proof.
  intros r n. subst r n. unfold MSTP_Get_Send, create_staged_frame.
  cbv zeta.
  destruct (TxPacket.ready (Transmit_Packet st)) eqn:Hr;
    [|split; [discriminate | reflexivity]].
  split; [intros _ | discriminate].
  destruct (MSTP_Create_Frame _ _ _ _ _ _ _) as [buffer k]. cbn [snd].
  pose proof (uint16_range k) as Hk.
  destruct (Z.gtb_spec (C.uint16 k) 0) as [Hpos | Hzero].
  - cbn [fst snd]. split; [reflexivity|].
    split; [split; [lia | reflexivity]|].
    split; [|lia]. intros _.
    change (Transmit_Packet
              { store_buf (Port.OutputBuffer mstp_port) buffer st with
                  Transmit_Packet :=
                    { Transmit_Packet
                        (store_buf (Port.OutputBuffer mstp_port) buffer st)
                      with TxPacket.ready := false } })
      with { Transmit_Packet
               (store_buf (Port.OutputBuffer mstp_port) buffer st)
             with TxPacket.ready := false }.
    now rewrite store_buf_Transmit_Packet.
  - cbn [fst snd]. rewrite store_buf_Transmit_Packet.
    split; [reflexivity|].
    split; [split; [intros E; congruence | lia]|].
    split; [lia | reflexivity].
Qed.

End CallbackFacts.

(** ** The theorems at concrete inputs *)

Lemma set_baud_rate_enumerated_witness :
  dlmstp_set_baud_rate 38400 Std.st0 = (true, { Std.st0 with U1BRG := 519 })
  /\ dlmstp_set_baud_rate 12345 (snd (dlmstp_set_baud_rate 38400 Std.st0))
     = (false, { Std.st0 with U1BRG := 519 }).
Proof.
  split.
  - destruct (set_baud_rate_enumerated 38400 Std.st0) as (_ & Hin & _).
    apply Hin. unfold enumerated_baud_rates. cbn [In]. tauto.
  - destruct (set_baud_rate_enumerated 12345
                (snd (dlmstp_set_baud_rate 38400 Std.st0))) as (_ & _ & Hout).
    apply Hout. unfold enumerated_baud_rates. cbn [In].
    intros [E | [E | [E | [E | [E | [E | []]]]]]]; discriminate E.
Defined.

Lemma put_receive_delivery_witness :
  calls (snd (MSTP_Put_Receive Std.port_rx_broadcast Std.st0))
  = [call_npdu_handler (Address.mk 1 [2; 0; 0; 0; 0; 0; 0] 0 0)
       ptr_Receive_Buffer 3;
     call_MSTP_Init].
Proof.
  destruct (put_receive_delivery Std.port_rx_broadcast Std.st0)
    as ((_ & Hcall) & _).
  apply Hcall. unfold delivered_upstream.
  split; [right; reflexivity|].
  split; [right; reflexivity|].
  change (3 > 0). lia.
Defined.

Lemma get_send_consumes_witness :
  fst (MSTP_Get_Send (MSTP_Port Std.st_pending) 0 Std.st_pending) = 13
  /\ TxPacket.ready
       (Transmit_Packet
          (snd (MSTP_Get_Send (MSTP_Port Std.st_pending) 0 Std.st_pending)))
     = false.
Proof.
  destruct (get_send_consumes (MSTP_Port Std.st_pending) 0 Std.st_pending)
    as (Hpend & _).
  destruct Hpend as (Hret & Hclr & _); [reflexivity|].
  split; [exact Hret|].
  apply Hclr. vm_compute. discriminate.
Defined.

Lemma setters_preserve_config_witness :
  let cs := [set_mac_address 5; set_mac_address 255; set_max_master 200;
             init; set_max_info_frames 0; set_baud_rate 12345;
             set_max_info_frames 3] in
  config_ok (do_config_calls cs Std.st0)
  /\ dlmstp_set_mac_address 255 Std.st0 = Std.st0.
Proof.
  intros cs.
  destruct (setters_preserve_config Std.st0 cs) as (Hinv & _ & Hmac & _).
  - change (0 <= 1 <= 254 /\ 0 <= 127 <= 127 /\ 1 <= 1). lia.
  - reflexivity.
  - split; [exact Hinv | apply Hmac; lia].
Defined.

Lemma set_mac_address_reset_witness :
  calls Std.st0 = [call_MSTP_Init]
  /\ calls (dlmstp_set_mac_address 5 Std.st0) = [call_MSTP_Init; call_MSTP_Init]
  /\ Port.This_Station (MSTP_Port (dlmstp_set_mac_address 5 Std.st0)) = 5
  /\ calls (dlmstp_set_mac_address 1 Std.st0) = [call_MSTP_Init].
Proof.
  destruct (set_mac_address_reset 5 Std.st0) as (Hreset & _); [lia|].
  destruct (set_mac_address_reset 1 Std.st0) as (_ & Hsame); [lia|].
  split; [reflexivity|].
  split; [rewrite Hreset; [reflexivity | change (1 <> 5); lia]|].
  split; [rewrite Hreset; [reflexivity | change (1 <> 5); lia]|].
  destruct Hsame as (_ & _ & Hcalls); [reflexivity | exact Hcalls].
Defined.

(** * Further properties *)

(** ** Millisecond timer service *)

Section TimerRestFacts.
Context {F : Type}.


Lemma expired_iff (t : mstimer) (st : state F) :
  mstimer_expired (Some t) st <> 0
  <-> interval t <= mstimer_elapsed (Some t) st.
Proof.
  cbn [mstimer_expired mstimer_elapsed].
  destruct (Z.geb_spec (C.ulong (millisecond_counter st - start t))
              (interval t)); split; intros; try lia; congruence.
Qed.

Lemma remaining_eq (t : mstimer) (st : state F) :
  0 <= interval t < 2 ^ 32 ->
  mstimer_remaining (Some t) st
  = Z.max 0 (interval t - mstimer_elapsed (Some t) st).
Proof.
  intros Hi. cbn [mstimer_remaining mstimer_elapsed]. cbv zeta.
  pose proof (uint32_range (millisecond_counter st - start t)) as He.
  change (C.uint32 (millisecond_counter st - start t))
    with (C.ulong (millisecond_counter st - start t)) in He.
  destruct (Z.geb_spec (C.ulong (millisecond_counter st - start t))
              (interval t)); [lia|].
  unfold C.ulong at 1. rewrite uint32_small by (unfold C.ulong in *; lia).
  lia.
Qed.


(** X2.  For a timer and a counter within 32 bits, [mstimer_remaining] is
    [max 0 (interval - elapsed)]: it is zero exactly when the timer is
    expired, and before expiry remaining and elapsed time add up to the
    interval. *)
Theorem mstimer_remaining_complements_elapsed (t : mstimer) (st : state F) :
  0 <= interval t < 2 ^ 32 ->
  let r := mstimer_remaining (Some t) st in
  let e := mstimer_elapsed (Some t) st in
  r = Z.max 0 (interval t - e)
  /\ 0 <= r <= interval t
  /\ (r = 0 <-> mstimer_expired (Some t) st <> 0)
  /\ (mstimer_expired (Some t) st = 0 -> r + e = interval t).
Proof.
  intros Hi r e. subst r e.
  pose proof (remaining_eq t st Hi) as Hr.
  pose proof (expired_iff t st) as Hx.
  assert (He : 0 <= mstimer_elapsed (Some t) st)
    by (cbn [mstimer_elapsed]; apply uint32_range).
  split; [exact Hr|].
  split; [lia|].
  split; [rewrite Hx; lia|].
  intros H0. assert (~ interval t <= mstimer_elapsed (Some t) st)
    by (rewrite <- Hx; intros Hc; now apply Hc).
  lia.
Qed.

(** X3.  [mstimer_expire] makes a timer expired at once: its interval is
    kept, the elapsed time equals the interval, nothing remains, and the
    timer stays expired for the following ticks until the elapsed time
    would pass 2^32. *)
Theorem mstimer_expire_expires (t : mstimer) (k : nat) (st : state F) :
  0 <= millisecond_counter st < 2 ^ 32 ->
  0 <= interval t < 2 ^ 32 ->
  interval t + Z.of_nat k < 2 ^ 32 ->
  let t' := mstimer_expire (Some t) st in
  mstimer_interval t' = interval t
  /\ mstimer_elapsed t' st = interval t
  /\ mstimer_remaining t' st = 0
  /\ mstimer_expired t' (ticks k st) <> 0.
Proof.
  intros Hn Hi Hk t'. subst t'. cbn [mstimer_expire mstimer_interval].
  set (t' := {| start := C.ulong (millisecond_counter st - interval t);
                interval := interval t |}).
  assert (He : forall j : nat,
             interval t + Z.of_nat j < 2 ^ 32 ->
             mstimer_elapsed (Some t') (ticks j st)
             = interval t + Z.of_nat j).
  { intros j Hj. cbn [mstimer_elapsed start t']. unfold C.ulong.
    rewrite ticks_counter by exact Hn. unfold C.uint32.
    rewrite Zminus_mod_idemp_l, Zminus_mod_idemp_r.
    replace (millisecond_counter st + Z.of_nat j
             - (millisecond_counter st - interval t))
      with (interval t + Z.of_nat j) by lia.
    apply Z.mod_small. lia. }
  split; [reflexivity|].
  assert (He0 : mstimer_elapsed (Some t') st = interval t).
  { specialize (He 0%nat). cbn [ticks] in He. rewrite He; lia. }
  split; [exact He0|].
  split; [rewrite remaining_eq by exact Hi; rewrite He0; cbn [interval t']; lia|].
  rewrite expired_iff, He by exact Hk. cbn [interval t']. lia.
Qed.


Lemma Timer1Handler_mstp_timers (st : state F) :
  mstp_timer (Timer1Handler st)
  = (if 0 <? mstp_timer st then C.uint16 (mstp_timer st - 1)
     else mstp_timer st)
  /\ mstp_silence_timer (Timer1Handler st)
     = (if 0 <? mstp_silence_timer st
        then C.uint16 (mstp_silence_timer st - 1)
        else mstp_silence_timer st).
Proof.
  unfold Timer1Handler. cbv zeta.
  change (mstp_timer
            { st with millisecond_counter :=
                        C.uint32 (millisecond_counter st + 1) })
    with (mstp_timer st).
  destruct (0 <? mstp_timer st);
    match goal with
    | |- context [0 <? mstp_silence_timer ?s] =>
        change (mstp_silence_timer s) with (mstp_silence_timer st)
    end;
    destruct (0 <? mstp_silence_timer st);
    match goal with
    | |- context [if ?b then _ else _] => destruct b
    end; split; reflexivity.
Qed.

Lemma countdown_step (v : Z) :
  0 <= v < 2 ^ 16 ->
  (if 0 <? v then C.uint16 (v - 1) else v) = Z.max 0 (v - 1).
Proof.
  intros Hv. destruct (Z.ltb_spec 0 v); [|lia].
  rewrite uint16_small by lia. lia.
Qed.

Lemma ticks_mstp_timers (k : nat) :
  forall st : state F,
    0 <= mstp_timer st < 2 ^ 16 ->
    0 <= mstp_silence_timer st < 2 ^ 16 ->
    mstp_timer (ticks k st) = Z.max 0 (mstp_timer st - Z.of_nat k)
    /\ mstp_silence_timer (ticks k st)
       = Z.max 0 (mstp_silence_timer st - Z.of_nat k).
Proof.
  induction k as [|k IH]; intros st Ht Hs.
  - cbn [ticks]. lia.
  - cbn [ticks].
    destruct (Timer1Handler_mstp_timers st) as (H1 & H2).
    rewrite countdown_step in H1, H2 by assumption.
    destruct (IH (Timer1Handler st)) as (I1 & I2); [lia | lia |].
    rewrite I1, I2, H1, H2. lia.
Qed.

(** X5.  The two 16-bit MS/TP timers of the tick interrupt count down and
    stop at zero: after [k] ticks each holds [max 0 (v - k)] for its value
    [v] before, so neither wraps around below zero; after
    [mstimer_silence_reset] the silence timer is zero and stays zero. *)
Theorem mstp_timers_count_down_to_zero (k : nat) (st : state F) :
  0 <= mstp_timer st < 2 ^ 16 ->
  0 <= mstp_silence_timer st < 2 ^ 16 ->
  mstp_timer (ticks k st) = Z.max 0 (mstp_timer st - Z.of_nat k)
  /\ mstp_silence_timer (ticks k st)
     = Z.max 0 (mstp_silence_timer st - Z.of_nat k)
  /\ mstp_silence_timer (ticks k (mstimer_silence_reset st)) = 0
  /\ mstp_timer (ticks k (mstimer_silence_reset st))
     = Z.max 0 (mstp_timer st - Z.of_nat k).
Proof.
  intros Ht Hs.
  destruct (ticks_mstp_timers k st Ht Hs) as (H1 & H2).
  split; [exact H1|]. split; [exact H2|].
  destruct (ticks_mstp_timers k (mstimer_silence_reset st)) as (R1 & R2).
  - exact Ht.
  - change (0 <= 0 < 2 ^ 16). lia.
  - split; [rewrite R2; change (Z.max 0 (0 - Z.of_nat k) = 0); lia|].
    exact R1.
Qed.

End TimerRestFacts.


Lemma mstimer_remaining_complements_elapsed_witness :
  let st := { Std.st0 with millisecond_counter := 3 } in
  let t := {| start := 2 ^ 32 - 4; interval := 10 |} in
  mstimer_remaining (Some t) st = 3 /\ mstimer_elapsed (Some t) st = 7.
Proof.
  intros st t.
  destruct (mstimer_remaining_complements_elapsed t st) as (Hr & _);
    [change (0 <= 10 < 2 ^ 32); lia|].
  split; [rewrite Hr|]; reflexivity.
Defined.

Lemma mstimer_expire_expires_witness :
  let st := { Std.st0 with millisecond_counter := 3 } in
  let t := mstimer_expire (Some {| start := 1; interval := 10 |}) st in
  mstimer_expired t (ticks 2 st) <> 0 /\ mstimer_remaining t st = 0.
Proof.
  intros st t.
  destruct (mstimer_expire_expires {| start := 1; interval := 10 |} 2 st)
    as (_ & _ & Hr & Hx).
  - change (0 <= 3 < 2 ^ 32). lia.
  - change (0 <= 10 < 2 ^ 32). lia.
  - change (10 + 2 < 2 ^ 32). lia.
  - split; [exact Hx | exact Hr].
Defined.


Lemma mstp_timers_count_down_to_zero_witness :
  let st := { Std.st0 with mstp_timer := 3; mstp_silence_timer := 10 } in
  mstp_timer (ticks 5 st) = 0 /\ mstp_silence_timer (ticks 5 st) = 5.
Proof.
  intros st.
  destruct (mstp_timers_count_down_to_zero 5 st) as (H1 & H2 & _).
  - change (0 <= 3 < 2 ^ 16). lia.
  - change (0 <= 10 < 2 ^ 16). lia.
  - split; [rewrite H1 | rewrite H2]; reflexivity.
Defined.

(** ** RS-485 driver: transmitting a frame *)

Lemma skipn_cons_nth {A : Type} (p : nat) (l : list A) (d : A) :
  (p < length l)%nat -> skipn p l = nth p l d :: skipn (S p) l.
Proof.
  revert l. induction p as [|p IH]; intros [|x l] Hp; cbn [length] in Hp;
    try lia.
  - reflexivity.
  - cbn [skipn nth]. rewrite IH by lia. reflexivity.
Qed.

Lemma firstn_S_head {A : Type} (j : nat) (l : list A) (d : A) :
  (0 < length l)%nat -> firstn (S j) l = nth 0 l d :: firstn j (skipn 1 l).
Proof. destruct l as [|x l]; cbn [length]; [lia | reflexivity]. Qed.

Lemma memcpy_length (dst src : list Z) (n : Z) :
  (Z.to_nat n <= length src)%nat ->
  (Z.to_nat n <= length (C.memcpy dst src n))%nat.
Proof.
  intros Hn. unfold C.memcpy. rewrite length_app, length_firstn. lia.
Qed.

Section TransmitFacts.
Context {F Q : Type} `{Fifo Q}.

Lemma UART1Handler_TX_send (d : rs485_state Q) :
  tx_count d > 0 ->
  U1TXREG (UART1Handler_TX d)
  = nth (Z.to_nat (tx_pos d)) (tx_buffer d) 0 :: U1TXREG d
  /\ tx_pos (UART1Handler_TX d) = C.uint16 (tx_pos d + 1)
  /\ tx_count (UART1Handler_TX d) = C.uint16 (tx_count d - 1)
  /\ tx_buffer (UART1Handler_TX d) = tx_buffer d
  /\ tx_bytes (UART1Handler_TX d) = tx_bytes d
  /\ transmitting (UART1Handler_TX d) = transmitting d
  /\ LATD_U1RTS (UART1Handler_TX d) = LATD_U1RTS d
  /\ IEC0_U1TXIE (UART1Handler_TX d) = IEC0_U1TXIE d.
Proof.
  intros Hc. unfold UART1Handler_TX.
  destruct (Z.gtb_spec (tx_count d) 0); [|lia]. repeat split.
Qed.

Lemma UART1Handler_TX_close (d : rs485_state Q) :
  tx_count d <= 0 ->
  U1TXREG (UART1Handler_TX d) = U1TXREG d
  /\ transmitting (UART1Handler_TX d) = false
  /\ LATD_U1RTS (UART1Handler_TX d) = false
  /\ IEC0_U1TXIE (UART1Handler_TX d) = false.
Proof.
  intros Hc. unfold UART1Handler_TX.
  destruct (Z.gtb_spec (tx_count d) 0); [lia|]. repeat split.
Qed.

Lemma tx_interrupts_add (a b : nat) :
  forall d : rs485_state Q,
    tx_interrupts (a + b) d = tx_interrupts b (tx_interrupts a d).
Proof.
  induction a as [|a IH]; intros d; [reflexivity|].
  cbn [Nat.add tx_interrupts]. apply IH.
Qed.

(** The transmit interrupt while bytes are left: [j] interrupts put the
    next [j] bytes of the transmit buffer into [U1TXREG]. *)
Lemma tx_interrupts_progress (j : nat) :
  forall d : rs485_state Q,
    Z.of_nat j <= tx_count d ->
    0 <= tx_pos d ->
    tx_pos d + tx_count d <= Z.of_nat (length (tx_buffer d)) ->
    tx_pos d + tx_count d < 2 ^ 16 ->
    let d' := tx_interrupts j d in
    U1TXREG d'
    = rev (firstn j (skipn (Z.to_nat (tx_pos d)) (tx_buffer d))) ++ U1TXREG d
    /\ tx_pos d' = tx_pos d + Z.of_nat j
    /\ tx_count d' = tx_count d - Z.of_nat j
    /\ tx_buffer d' = tx_buffer d
    /\ tx_bytes d' = tx_bytes d
    /\ transmitting d' = transmitting d
    /\ LATD_U1RTS d' = LATD_U1RTS d
    /\ IEC0_U1TXIE d' = IEC0_U1TXIE d.
Proof.
  induction j as [|j IH]; intros d Hj Hp Hlen Hw.
  - cbn [tx_interrupts firstn rev app]. repeat split; lia.
  - cbn [tx_interrupts]. cbv zeta.
    destruct (UART1Handler_TX_send d) as (S1 & S2 & S3 & S4 & S5 & S6 & S7 & S8);
      [lia|].
    rewrite uint16_small in S2, S3 by lia.
    destruct (IH (UART1Handler_TX d))
      as (I1 & I2 & I3 & I4 & I5 & I6 & I7 & I8);
      rewrite ?S2, ?S3, ?S4; try lia.
    rewrite I1, I2, I3, I4, I5, I6, I7, I8.
    rewrite S1, S2, S3, S4, S5, S6, S7, S8.
    split; [|repeat split; lia].
    rewrite (skipn_cons_nth (Z.to_nat (tx_pos d)) (tx_buffer d) 0) by lia.
    cbn [firstn rev]. rewrite <- app_assoc. cbn [app].
    replace (Z.to_nat (tx_pos d + 1)) with (S (Z.to_nat (tx_pos d))) by lia.
    reflexivity.
Qed.

(** What [RS485_Send_Frame] leaves when it starts a transmission. *)
Lemma RS485_Send_Frame_start (buffer : list Z) (nbytes : Z)
  (d : rs485_state Q) :
  1 <= nbytes <= 512 ->
  transmitting d = false ->
  exists d1 : rs485_state Q,
    RS485_Send_Frame buffer nbytes d = Some d1
    /\ tx_buffer d1 = C.memcpy (tx_buffer d) buffer nbytes
    /\ tx_pos d1 = 1
    /\ tx_count d1 = nbytes - 1
    /\ U1TXREG d1
       = nth 0 (C.memcpy (tx_buffer d) buffer nbytes) 0 :: U1TXREG d
    /\ tx_bytes d1 = C.uint32 (tx_bytes d + nbytes)
    /\ transmitting d1 = true
    /\ LATD_U1RTS d1 = true
    /\ IEC0_U1TXIE d1 = true.
Proof.
  intros Hn Ht. unfold RS485_Send_Frame, BACNET_TX_FIFO_SIZE. rewrite Ht.
  destruct (Z.eqb_spec nbytes 0); [lia|].
  destruct (Z.gtb_spec nbytes 512); [lia|]. cbn [orb]. cbv zeta.
  match goal with
  | |- context [if ?c >? 0 then Some ?a else Some ?b] =>
      change c with nbytes; destruct (Z.gtb_spec nbytes 0); [exists a | lia]
  end.
  split; [reflexivity|].
  repeat split; cbn; apply uint16_small; lia.
Qed.

(** X6.  [MSTP_Send_Frame] never waits for the transmitter: it always
    returns.  With a transmission in flight, with no bytes or with more
    than [BACNET_TX_FIFO_SIZE] bytes the frame is dropped and the driver
    state is unchanged; otherwise the transmission is started (driver
    enabled, [transmitting] set) and the frame is counted in [tx_bytes]. *)
Theorem MSTP_Send_Frame_never_waits (mstp_port : Port.t F)
  (buffer : list Z) (nbytes : Z) (d : rs485_state Q) :
  exists d' : rs485_state Q,
    MSTP_Send_Frame mstp_port buffer nbytes d = Some d'
    /\ (transmitting d = true \/ nbytes = 0 \/ nbytes > BACNET_TX_FIFO_SIZE ->
        d' = d)
    /\ (transmitting d = false ->
        1 <= nbytes <= BACNET_TX_FIFO_SIZE ->
        transmitting d' = true
        /\ LATD_U1RTS d' = true
        /\ IEC0_U1TXIE d' = true
        /\ tx_bytes d' = C.uint32 (tx_bytes d + nbytes)).
Proof.
  unfold MSTP_Send_Frame, RS485_Transmit_Ready, RS485_Send_Frame,
    BACNET_TX_FIFO_SIZE.
  destruct (transmitting d) eqn:Ht; cbn [negb].
  - exists d. split; [reflexivity|]. split; [reflexivity | discriminate].
  - destruct (Z.eqb_spec nbytes 0) as [H0 | H0]; cbn [orb].
    + exists d. split; [reflexivity|]. split; [reflexivity | lia].
    + destruct (Z.gtb_spec nbytes 512) as [Hb | Hb].
      * exists d. split; [reflexivity|]. split; [reflexivity | lia].
      * cbv zeta.
        match goal with
        | |- context [if ?c >? 0 then Some ?a else Some ?b] =>
            change c with nbytes;
            destruct (nbytes >? 0); [exists a | exists b]
        end;
          (split; [reflexivity|]; split;
           [intros [? | [? | ?]]; [discriminate | lia | lia]
           | intros _ _; repeat split]).
Qed.

(** X7.  A frame of [nbytes] bytes (1..512) given to [RS485_Send_Frame]
    while no transmission is in flight goes out whole and in order: the
    call writes the first byte to [U1TXREG], each of the next [nbytes - 1]
    transmit interrupts writes the following byte, and until then the
    driver stays enabled with [transmitting] set; the interrupt after the
    last byte disables the driver and the transmit interrupt and clears
    [transmitting]. *)
Theorem frame_transmitted_in_order (buffer : list Z) (nbytes : Z)
  (d : rs485_state Q) :
  1 <= nbytes <= BACNET_TX_FIFO_SIZE ->
  nbytes <= Z.of_nat (length buffer) ->
  transmitting d = false ->
  exists d1 : rs485_state Q,
    RS485_Send_Frame buffer nbytes d = Some d1
    /\ (forall j : nat,
          Z.of_nat j < nbytes ->
          U1TXREG (tx_interrupts j d1)
          = rev (firstn (S j) buffer) ++ U1TXREG d
          /\ transmitting (tx_interrupts j d1) = true
          /\ LATD_U1RTS (tx_interrupts j d1) = true)
    /\ U1TXREG (tx_interrupts (Z.to_nat nbytes) d1)
       = rev (firstn (Z.to_nat nbytes) buffer) ++ U1TXREG d
    /\ transmitting (tx_interrupts (Z.to_nat nbytes) d1) = false
    /\ LATD_U1RTS (tx_interrupts (Z.to_nat nbytes) d1) = false
    /\ IEC0_U1TXIE (tx_interrupts (Z.to_nat nbytes) d1) = false.
Proof.
  unfold BACNET_TX_FIFO_SIZE. intros Hn Hlen Ht.
  destruct (RS485_Send_Frame_start buffer nbytes d Hn Ht)
    as (d1 & Hs & D1 & D2 & D3 & D4 & _ & D6 & D7 & _).
  exists d1. split; [exact Hs|].
  set (B := C.memcpy (tx_buffer d) buffer nbytes) in *.
  assert (HB : (Z.to_nat nbytes <= length B)%nat)
    by (apply memcpy_length; lia).
  assert (Hpre : forall m : nat,
             (m <= Z.to_nat nbytes)%nat -> firstn m B = firstn m buffer).
  { intros m Hm. unfold B, C.memcpy.
    rewrite firstn_app, firstn_firstn, length_firstn.
    replace (Nat.min m (Z.to_nat nbytes)) with m by lia.
    replace (m - Nat.min (Z.to_nat nbytes) (length buffer))%nat with 0%nat
      by lia.
    cbn [firstn]. apply app_nil_r. }
  assert (Hrun : forall j : nat,
             Z.of_nat j < nbytes ->
             U1TXREG (tx_interrupts j d1)
             = rev (firstn (S j) buffer) ++ U1TXREG d
             /\ tx_count (tx_interrupts j d1) = nbytes - 1 - Z.of_nat j
             /\ transmitting (tx_interrupts j d1) = true
             /\ LATD_U1RTS (tx_interrupts j d1) = true).
  { intros j Hj.
    destruct (tx_interrupts_progress j d1)
      as (P1 & _ & P3 & _ & _ & P6 & P7 & _);
      rewrite ?D1, ?D2, ?D3; try lia.
    rewrite P1, P3, P6, P7, D1, D2, D3, D4, D6, D7.
    split; [|repeat split].
    rewrite <- (Hpre (S j)), (firstn_S_head j B 0) by lia.
    change (Z.to_nat 1) with 1%nat.
    cbn [rev]. rewrite <- app_assoc. reflexivity. }
  split; [intros j Hj; destruct (Hrun j Hj) as (R1 & _ & R3 & R4);
          repeat split; assumption|].
  destruct (Hrun (Z.to_nat nbytes - 1)%nat) as (R1 & R2 & _); [lia|].
  replace (Z.to_nat nbytes) with ((Z.to_nat nbytes - 1) + 1)%nat at 1 3 4 5
    by lia.
  rewrite tx_interrupts_add. cbn [tx_interrupts].
  destruct (UART1Handler_TX_close (tx_interrupts (Z.to_nat nbytes - 1) d1))
    as (C1 & C2 & C3 & C4); [lia|].
  rewrite C1, C2, C3, C4, R1.
  replace (S (Z.to_nat nbytes - 1)) with (Z.to_nat nbytes) by lia.
  repeat split.
Qed.

End TransmitFacts.

Lemma MSTP_Send_Frame_never_waits_witness :
  let busy := { ListFifo.d0 with transmitting := true } in
  MSTP_Send_Frame (MSTP_Port Std.st0) [85; 255; 6] 3 busy = Some busy.
Proof.
  intros busy.
  destruct (MSTP_Send_Frame_never_waits (MSTP_Port Std.st0) [85; 255; 6] 3
              busy) as (d' & Hs & Hdrop & _).
  rewrite Hs. f_equal. apply Hdrop. left. reflexivity.
Defined.

Lemma frame_transmitted_in_order_witness :
  exists d1 : rs485_state (list Z),
    RS485_Send_Frame [85; 255; 6] 3 ListFifo.d0 = Some d1
    /\ U1TXREG (tx_interrupts 3 d1) = [6; 255; 85]
    /\ transmitting (tx_interrupts 3 d1) = false.
Proof.
  destruct (frame_transmitted_in_order [85; 255; 6] 3 ListFifo.d0)
    as (d1 & Hs & _ & Hout & Hdone & _).
  - unfold BACNET_TX_FIFO_SIZE. lia.
  - cbn. lia.
  - reflexivity.
  - exists d1. split; [exact Hs|]. split; [exact Hout | exact Hdone].
Defined.

(** ** RS-485 driver: receiving bytes *)

Lemma length_array_set (i v : Z) (a : list Z) :
  length (array_set i v a) = length a.
Proof.
  unfold array_set.
  destruct (Z.leb_spec 0 i); destruct (Z.ltb_spec i (Z.of_nat (length a)));
    cbn [andb]; try reflexivity.
  rewrite length_app, length_firstn. cbn [length]. rewrite length_skipn. lia.
Qed.

Lemma nth_array_set_eq (i v d : Z) (a : list Z) :
  0 <= i < Z.of_nat (length a) ->
  nth (Z.to_nat i) (array_set i v a) d = v.
Proof.
  intros Hi. unfold array_set.
  destruct (Z.leb_spec 0 i); [|lia].
  destruct (Z.ltb_spec i (Z.of_nat (length a))); [|lia]. cbn [andb].
  rewrite app_nth2 by (rewrite length_firstn; lia).
  rewrite length_firstn.
  replace (Z.to_nat i - Nat.min (Z.to_nat i) (length a))%nat with 0%nat
    by lia.
  reflexivity.
Qed.

Lemma nth_array_set_neq (i v d : Z) (j : nat) (a : list Z) :
  j <> Z.to_nat i ->
  nth j (array_set i v a) d = nth j a d.
Proof.
  intros Hj. unfold array_set.
  destruct (Z.leb_spec 0 i); [|reflexivity].
  destruct (Z.ltb_spec i (Z.of_nat (length a))); [|reflexivity]. cbn [andb].
  rewrite <- (firstn_skipn (Z.to_nat i) a) at 3.
  destruct (Nat.lt_ge_cases j (Z.to_nat i)) as [Hlt | Hge].
  - rewrite !app_nth1 by (rewrite length_firstn; lia). reflexivity.
  - rewrite !app_nth2 by (rewrite length_firstn; lia).
    rewrite length_firstn.
    replace (Nat.min (Z.to_nat i) (length a)) with (Z.to_nat i) by lia.
    rewrite (skipn_cons_nth (Z.to_nat i) a d) by lia.
    destruct (j - Z.to_nat i)%nat as [|m] eqn:Hm; [lia|]. reflexivity.
Qed.

Section ReceiveFacts.
Context {F Q : Type} `{Fifo Q}.

Lemma rx_byte_fields (st : state F) (d : rs485_state Q) (data : Z) :
  fst (rx_byte (st, d) data) = dlmstp_rs485_rx_event st
  /\ rx_fifo (snd (rx_byte (st, d) data)) = snd (FIFO_Put (rx_fifo d) data)
  /\ rx_timestamp (snd (rx_byte (st, d) data))
     = array_set (rx_timestamp_head d) (millisecond_counter st)
         (rx_timestamp d)
  /\ rx_timestamp_head (snd (rx_byte (st, d) data))
     = (rx_timestamp_head d + 1) mod BACNET_RX_FIFO_SIZE
  /\ rx_timestamp_tail (snd (rx_byte (st, d) data)) = rx_timestamp_tail d
  /\ rx_bytes (snd (rx_byte (st, d) data)) = C.uint32 (rx_bytes d + 1)
  /\ tx_bytes (snd (rx_byte (st, d) data)) = tx_bytes d.
Proof. repeat split. Qed.

Lemma RS485_Receive_nonempty (data_byte : Z) (timestamp : option Z)
  (d : rs485_state Q) :
  FIFO_Empty (rx_fifo d) = false ->
  RS485_Receive data_byte timestamp d
  = (true, fst (FIFO_Get (rx_fifo d)),
     match timestamp with
     | Some _ =>
         Some (nth (Z.to_nat (rx_timestamp_tail d)) (rx_timestamp d) 0)
     | None => None
     end,
     { d with rx_fifo := snd (FIFO_Get (rx_fifo d));
              rx_timestamp_tail :=
                (rx_timestamp_tail d + 1) mod BACNET_RX_FIFO_SIZE }).
Proof.
  intros He. unfold RS485_Receive. rewrite He. cbn [negb]. cbv zeta.
  destruct (FIFO_Get (rx_fifo d)) as [b q]. reflexivity.
Qed.

Lemma slot_distinct (tail i n : Z) :
  0 <= i < n -> n < 512 ->
  (tail + i) mod 512 <> (tail + n) mod 512.
Proof. intros Hi Hn. Z.div_mod_to_equations. lia. Qed.

(** X8.  A byte the receive interrupt stores while the FIFO has room keeps
    the pairing of bytes and arrival times: the byte joins the pending
    bytes with the value of the millisecond counter as its arrival time.
    The interrupt also runs the byte-received event of the datalink
    layer. *)
Theorem rx_byte_keeps_pairing (contents : Q -> list Z) (capacity : nat)
  (st : state F) (d : rs485_state Q) (pending : list (Z * Z)) (data : Z) :
  fifo_model contents capacity ->
  rx_paired contents d pending ->
  (length pending < capacity)%nat ->
  Z.of_nat (length pending) < BACNET_RX_FIFO_SIZE ->
  rx_paired contents (snd (rx_byte (st, d) data))
    (pending ++ [(data, millisecond_counter st)])
  /\ fst (rx_byte (st, d) data) = dlmstp_rs485_rx_event st.
Proof.
  intros Hm (Hc & Hl & Hn & Ht & Hh & Hs) Hroom Hring.
  destruct (rx_byte_fields st d data) as (E0 & E1 & E2 & E3 & E4 & _).
  split; [|exact E0].
  unfold rx_paired, BACNET_RX_FIFO_SIZE in *.
  rewrite E1, E2, E3, E4, length_array_set, length_app, map_app.
  cbn [length map fst].
  assert (Hhr : 0 <= rx_timestamp_head d < 512)
    by (rewrite Hh; apply Z.mod_pos_bound; lia).
  split.
  { rewrite (fifo_put_room _ _ Hm) by (rewrite Hc, length_map; lia).
    now rewrite Hc. }
  split; [exact Hl|]. split; [lia|]. split; [exact Ht|]. split.
  { rewrite Hh, Zplus_mod_idemp_l. f_equal. lia. }
  intros i Hi.
  destruct (Nat.eq_dec i (length pending)) as [-> | Hne].
  - rewrite <- Hh, nth_array_set_eq by lia.
    rewrite app_nth2, Nat.sub_diag by lia. reflexivity.
  - rewrite nth_array_set_neq.
    + rewrite app_nth1 by lia. apply Hs. lia.
    + rewrite Hh. intros E. apply Z2Nat.inj in E;
        try (apply Z.mod_pos_bound; lia).
      revert E. apply slot_distinct; lia.
Qed.

(** X9.  [RS485_Receive] hands out the oldest pending byte together with
    its arrival time and keeps the pairing for the bytes that remain; with
    a null timestamp pointer the byte is handed out and the same state is
    left. *)
Theorem RS485_Receive_oldest_with_time (contents : Q -> list Z)
  (capacity : nat) (d : rs485_state Q) (b t : Z) (rest : list (Z * Z))
  (data_byte timestamp : Z) :
  fifo_model contents capacity ->
  rx_paired contents d ((b, t) :: rest) ->
  exists d' : rs485_state Q,
    RS485_Receive data_byte (Some timestamp) d = (true, b, Some t, d')
    /\ RS485_Receive data_byte None d = (true, b, None, d')
    /\ RS485_DataAvailable d = true
    /\ rx_paired contents d' rest.
Proof.
  intros Hm (Hc & Hl & Hn & Ht & Hh & Hs).
  cbn [map fst length] in Hc, Hn, Hh.
  assert (He : FIFO_Empty (rx_fifo d) = false).
  { destruct (FIFO_Empty (rx_fifo d)) eqn:E; [|reflexivity].
    apply (fifo_empty _ _ Hm) in E. rewrite Hc in E. discriminate. }
  destruct (fifo_get _ _ Hm _ _ _ Hc) as (Gb & Gq).
  rewrite !RS485_Receive_nonempty by exact He. rewrite Gb.
  eexists. split; [|split; [reflexivity|]].
  - f_equal. f_equal. f_equal.
    specialize (Hs 0%nat). cbn [length nth snd] in Hs.
    rewrite <- Hs by lia.
    unfold BACNET_RX_FIFO_SIZE in *.
    rewrite Z.add_0_r, Z.mod_small by lia. reflexivity.
  - split; [unfold RS485_DataAvailable; now rewrite He|].
    unfold rx_paired, BACNET_RX_FIFO_SIZE in *.
    cbn [rx_fifo rx_timestamp rx_timestamp_head rx_timestamp_tail].
    change (rx_fifo { d with rx_fifo := snd (FIFO_Get (rx_fifo d));
                             rx_timestamp_tail :=
                               (rx_timestamp_tail d + 1) mod 512 })
      with (snd (FIFO_Get (rx_fifo d))).
    change (rx_timestamp { d with rx_fifo := snd (FIFO_Get (rx_fifo d));
                                  rx_timestamp_tail :=
                                    (rx_timestamp_tail d + 1) mod 512 })
      with (rx_timestamp d).
    change (rx_timestamp_head
              { d with rx_fifo := snd (FIFO_Get (rx_fifo d));
                       rx_timestamp_tail :=
                         (rx_timestamp_tail d + 1) mod 512 })
      with (rx_timestamp_head d).
    change (rx_timestamp_tail
              { d with rx_fifo := snd (FIFO_Get (rx_fifo d));
                       rx_timestamp_tail :=
                         (rx_timestamp_tail d + 1) mod 512 })
      with ((rx_timestamp_tail d + 1) mod 512).
    split; [exact Gq|]. split; [exact Hl|]. split; [lia|].
    split; [apply Z.mod_pos_bound; lia|]. split.
    + rewrite Hh, Zplus_mod_idemp_l. f_equal. lia.
    + intros i Hi. rewrite Zplus_mod_idemp_l.
      specialize (Hs (S i)). cbn [length nth] in Hs.
      rewrite <- Hs by lia. f_equal. f_equal. f_equal. lia.
Qed.

End ReceiveFacts.

Section ReceiveMoreFacts.
Context {F Q : Type} `{Fifo Q}.

(** X10.  When the FIFO holds 512 bytes, as many as [rx_timestamp] has
    slots, a further byte is lost, and its arrival time replaces the
    arrival time of the oldest pending byte: the byte is counted in
    [rx_bytes], the FIFO keeps its contents, and the next [RS485_Receive]
    returns the oldest byte with the time of the lost one. *)
Theorem rx_overflow_takes_oldest_time (contents : Q -> list Z)
  (st : state F) (d : rs485_state Q) (b0 t0 : Z) (rest : list (Z * Z))
  (data data_byte timestamp : Z) :
  fifo_model contents (Z.to_nat BACNET_RX_FIFO_SIZE) ->
  rx_paired contents d ((b0, t0) :: rest) ->
  Z.of_nat (length ((b0, t0) :: rest)) = BACNET_RX_FIFO_SIZE ->
  let d1 := snd (rx_byte (st, d) data) in
  contents (rx_fifo d1) = b0 :: map fst rest
  /\ rx_bytes d1 = C.uint32 (rx_bytes d + 1)
  /\ exists d2 : rs485_state Q,
       RS485_Receive data_byte (Some timestamp) d1
       = (true, b0, Some (millisecond_counter st), d2).
Proof.
  intros Hm (Hc & Hl & Hn & Ht & Hh & Hs) Hfull d1. subst d1.
  destruct (rx_byte_fields st d data) as (_ & E1 & E2 & E3 & E4 & E5 & _).
  unfold BACNET_RX_FIFO_SIZE in *.
  assert (Hc1 : contents (rx_fifo (snd (rx_byte (st, d) data)))
                = b0 :: map fst rest).
  { rewrite E1, (fifo_put_full _ _ Hm); [exact Hc|].
    rewrite Hc, length_map. lia. }
  split; [exact Hc1|]. split; [exact E5|].
  assert (He : FIFO_Empty (rx_fifo (snd (rx_byte (st, d) data))) = false).
  { destruct (FIFO_Empty _) eqn:E; [|reflexivity].
    apply (fifo_empty _ _ Hm) in E. rewrite Hc1 in E. discriminate. }
  rewrite RS485_Receive_nonempty by exact He.
  destruct (fifo_get _ _ Hm _ _ _ Hc1) as (Gb & _).
  rewrite Gb, E2, E4. eexists. f_equal. f_equal. f_equal.
  assert (Hht : rx_timestamp_head d = rx_timestamp_tail d).
  { rewrite Hh, Hfull. rewrite <- (Z.mul_1_l 512) at 1.
    rewrite Z_mod_plus_full. apply Z.mod_small. lia. }
  rewrite Hht. apply nth_array_set_eq. lia.
Qed.

(** X11.  [MSTP_Get_Receive] with an empty FIFO returns 0, clears
    [DataAvailable] and leaves the data register and the driver as they
    were; with a byte pending it returns 1, puts the oldest byte in the
    data register, sets [DataAvailable] and takes the byte off the FIFO. *)
Theorem MSTP_Get_Receive_byte (contents : Q -> list Z) (capacity : nat)
  (mstp_port : Port.t F) (d : rs485_state Q) :
  fifo_model contents capacity ->
  (contents (rx_fifo d) = [] ->
   MSTP_Get_Receive mstp_port d
   = (0, { mstp_port with Port.DataAvailable := false }, d))
  /\ (forall (b : Z) (l : list Z),
        contents (rx_fifo d) = b :: l ->
        exists d' : rs485_state Q,
          MSTP_Get_Receive mstp_port d
          = (1, { mstp_port with Port.DataRegister := b;
                                 Port.DataAvailable := true }, d')
          /\ contents (rx_fifo d') = l
          /\ rx_timestamp_tail d'
             = (rx_timestamp_tail d + 1) mod BACNET_RX_FIFO_SIZE).
Proof.
  intros Hm. split.
  - intros Hc. apply (fifo_empty _ _ Hm) in Hc.
    unfold MSTP_Get_Receive, RS485_DataAvailable. now rewrite Hc.
  - intros b l Hc.
    assert (He : FIFO_Empty (rx_fifo d) = false).
    { destruct (FIFO_Empty (rx_fifo d)) eqn:E; [|reflexivity].
      apply (fifo_empty _ _ Hm) in E. rewrite Hc in E. discriminate. }
    destruct (fifo_get _ _ Hm _ _ _ Hc) as (Gb & Gq).
    unfold MSTP_Get_Receive, RS485_DataAvailable. rewrite He. cbn [negb].
    rewrite RS485_Receive_nonempty by exact He. rewrite Gb.
    eexists. split; [reflexivity|]. split; [exact Gq | reflexivity].
Qed.

Lemma UART1Handler_RX_counts (bs : list Z) :
  forall (st : state F) (d : rs485_state Q),
    rx_bytes (snd (UART1Handler_RX bs (st, d)))
    = C.uint32 (rx_bytes d + Z.of_nat (length bs))
      \/ (bs = [] /\ rx_bytes (snd (UART1Handler_RX bs (st, d))) = rx_bytes d).
Proof.
  induction bs as [|b bs IH]; intros st d; [right; now split|].
  left. unfold UART1Handler_RX. cbn [fold_left].
  destruct (rx_byte (st, d) b) as [st1 d1] eqn:E1.
  assert (R : rx_bytes d1 = C.uint32 (rx_bytes d + 1))
    by (change d1 with (snd (st1, d1)); now rewrite <- E1).
  destruct (IH st1 d1) as [I | (-> & I)]; unfold UART1Handler_RX in I.
  - rewrite I, R. unfold C.uint32. rewrite Zplus_mod_idemp_l.
    f_equal. cbn [length]. lia.
  - cbn [fold_left snd]. rewrite R. f_equal.
Qed.

Lemma UART1Handler_RX_others (bs : list Z) :
  forall (st : state F) (d : rs485_state Q),
    tx_bytes (snd (UART1Handler_RX bs (st, d))) = tx_bytes d
    /\ millisecond_counter (fst (UART1Handler_RX bs (st, d)))
       = millisecond_counter st
    /\ (bs <> [] ->
        Port.SilenceTimer (MSTP_Port (fst (UART1Handler_RX bs (st, d)))) = 0).
Proof.
  induction bs as [|b bs IH]; intros st d.
  - repeat split. intros E. now contradiction E.
  - unfold UART1Handler_RX. cbn [fold_left].
    destruct (rx_byte (st, d) b) as [st1 d1] eqn:E1.
    assert (R : tx_bytes d1 = tx_bytes d
                /\ st1 = dlmstp_rs485_rx_event st).
    { change d1 with (snd (st1, d1)). change st1 with (fst (st1, d1)) at 2.
      rewrite <- E1. split; reflexivity. }
    destruct R as (R1 & R2).
    assert (M1 : millisecond_counter st1 = millisecond_counter st)
      by (rewrite R2; reflexivity).
    destruct (IH st1 d1) as (I1 & I2 & I3). unfold UART1Handler_RX in *.
    rewrite I1, I2, R1, M1. split; [reflexivity|]. split; [reflexivity|].
    intros _. destruct bs as [|b' bs]; [rewrite R2; reflexivity|].
    apply I3. discriminate.
Qed.

(** X12.  The receive interrupt counts every byte it reads in [rx_bytes]
    (modulo 2^32), whether or not the FIFO stores it, and leaves
    [tx_bytes] alone; it zeroes the [SilenceTimer] member of the port
    structure and does not touch the millisecond counter.
    [RS485_Get_Statistics] reports the two counters, and after
    [RS485_Clear_Statistics] it reports zero for both. *)
Theorem statistics_count_received_bytes (bs : list Z) (st : state F)
  (d : rs485_state Q) (x y : Z) :
  0 <= rx_bytes d < 2 ^ 32 ->
  let w := UART1Handler_RX bs (st, d) in
  RS485_Get_Statistics (Some x) (Some y) (snd w)
  = (Some (C.uint32 (rx_bytes d + Z.of_nat (length bs))), Some (tx_bytes d))
  /\ RS485_Get_Statistics (Some x) (Some y) (RS485_Clear_Statistics (snd w))
     = (Some 0, Some 0)
  /\ RS485_Get_Statistics None None (snd w) = (None, None)
  /\ millisecond_counter (fst w) = millisecond_counter st
  /\ (bs <> [] -> Port.SilenceTimer (MSTP_Port (fst w)) = 0).
Proof.
  intros Hr w. subst w.
  destruct (UART1Handler_RX_others bs st d) as (T & M & S).
  assert (R : rx_bytes (snd (UART1Handler_RX bs (st, d)))
              = C.uint32 (rx_bytes d + Z.of_nat (length bs))).
  { destruct (UART1Handler_RX_counts bs st d) as [R | (-> & R)];
      [exact R|].
    rewrite R. cbn [length]. rewrite Z.add_0_r. symmetry.
    now apply uint32_small. }
  unfold RS485_Get_Statistics. rewrite R, T.
  repeat split; assumption.
Qed.

End ReceiveMoreFacts.

(** The list FIFO is a bounded queue of 512 bytes. *)
Lemma ListFifo_model : fifo_model (fun q : list Z => q) ListFifo.capacity.
Proof.
  split.
  - intros [|b q]; cbn; split; intros E; congruence.
  - intros q b Hq.
    change (FIFO_Put q b)
      with (if (length q <? ListFifo.capacity)%nat
            then (true, q ++ [b]) else (false, q)).
    destruct (Nat.ltb_spec (length q) ListFifo.capacity); [reflexivity | lia].
  - intros q b Hq.
    change (FIFO_Put q b)
      with (if (length q <? ListFifo.capacity)%nat
            then (true, q ++ [b]) else (false, q)).
    destruct (Nat.ltb_spec (length q) ListFifo.capacity); [lia | reflexivity].
  - intros q b l ->. split; reflexivity.
Qed.

Lemma nth_repeat_lt {A : Type} (a d : A) (n i : nat) :
  (i < n)%nat -> nth i (repeat a n) d = a.
Proof.
  revert i. induction n as [|n IH]; intros [|i] Hi; cbn; try lia;
    [reflexivity | apply IH; lia].
Qed.

Lemma rx_paired_d0 : rx_paired (fun q : list Z => q) ListFifo.d0 [].
Proof.
  unfold rx_paired, BACNET_RX_FIFO_SIZE. cbn [length].
  repeat split; try reflexivity; try (cbn; lia).
Qed.

(** The driver with 512 bytes pending, each of value 7 arrived at
    time 5. *)
Lemma rx_paired_full :
  rx_paired (fun q : list Z => q)
    { ListFifo.d0 with rx_fifo := repeat 7 512;
                       rx_timestamp := repeat 5 512 }
    ((7, 5) :: repeat (7, 5) 511).
Proof.
  unfold rx_paired, BACNET_RX_FIFO_SIZE.
  split; [vm_compute; reflexivity|].
  split; [vm_compute; reflexivity|].
  split; [vm_compute; discriminate|].
  split; [cbn; lia|].
  split; [vm_compute; reflexivity|].
  intros i Hi.
  change ((7, 5) :: repeat (7, 5) 511) with (repeat (7, 5) 512) in *.
  rewrite repeat_length in Hi.
  change (rx_timestamp _) with (repeat 5 512).
  rewrite !nth_repeat_lt; [reflexivity | lia |].
  change (rx_timestamp_tail _) with 0.
  pose proof (Z.mod_pos_bound (0 + Z.of_nat i) 512). lia.
Qed.

Lemma rx_paired_one :
  rx_paired (fun q : list Z => q)
    (snd (rx_byte (ticks 1000 Std.st0, ListFifo.d0) 85)) [(85, 1000)].
Proof.
  unfold rx_paired, BACNET_RX_FIFO_SIZE.
  split; [vm_compute; reflexivity|].
  split; [vm_compute; reflexivity|].
  split; [vm_compute; discriminate|].
  split; [vm_compute; split; [discriminate | reflexivity]|].
  split; [vm_compute; reflexivity|].
  intros [|i] Hi; [vm_compute; reflexivity | cbn [length] in Hi; lia].
Qed.

Lemma rx_byte_keeps_pairing_witness :
  let st := ticks 1000 Std.st0 in
  rx_paired (fun q : list Z => q) (snd (rx_byte (st, ListFifo.d0) 85))
    [(85, 1000)].
Proof.
  intros st.
  destruct (rx_byte_keeps_pairing (fun q : list Z => q) ListFifo.capacity
              st ListFifo.d0 [] 85 ListFifo_model rx_paired_d0)
    as (Hp & _).
  - cbn. unfold ListFifo.capacity. lia.
  - cbn. unfold BACNET_RX_FIFO_SIZE. lia.
  - exact Hp.
Defined.

Lemma RS485_Receive_oldest_with_time_witness :
  let st := ticks 1000 Std.st0 in
  exists d' : rs485_state (list Z),
    RS485_Receive 0 (Some 0) (snd (rx_byte (st, ListFifo.d0) 85))
    = (true, 85, Some 1000, d').
Proof.
  intros st.
  destruct (RS485_Receive_oldest_with_time (fun q : list Z => q)
              ListFifo.capacity (snd (rx_byte (st, ListFifo.d0) 85))
              85 1000 [] 0 0 ListFifo_model rx_paired_one)
    as (d' & Hr & _).
  exists d'. exact Hr.
Defined.

Lemma rx_overflow_takes_oldest_time_witness :
  let st := ticks 1000 Std.st0 in
  let full := { ListFifo.d0 with rx_fifo := repeat 7 512;
                                 rx_timestamp := repeat 5 512 } in
  exists d2 : rs485_state (list Z),
    RS485_Receive 0 (Some 0) (snd (rx_byte (st, full) 9))
    = (true, 7, Some 1000, d2).
Proof.
  intros st full.
  destruct (rx_overflow_takes_oldest_time (fun q : list Z => q) st full
              7 5 (repeat (7, 5) 511) 9 0 0 ListFifo_model rx_paired_full)
    as (_ & _ & d2 & Hr).
  - vm_compute. reflexivity.
  - exists d2. exact Hr.
Defined.

Lemma MSTP_Get_Receive_byte_witness :
  MSTP_Get_Receive (MSTP_Port Std.st0) ListFifo.d0
  = (0, { MSTP_Port Std.st0 with Port.DataAvailable := false }, ListFifo.d0).
Proof.
  destruct (MSTP_Get_Receive_byte (fun q : list Z => q) ListFifo.capacity
              (MSTP_Port Std.st0) ListFifo.d0 ListFifo_model) as (He & _).
  apply He. reflexivity.
Defined.

Lemma statistics_count_received_bytes_witness :
  RS485_Get_Statistics (Some 0) (Some 0)
    (snd (UART1Handler_RX [85; 255; 0] (Std.st0, ListFifo.d0)))
  = (Some 3, Some 0).
Proof.
  destruct (statistics_count_received_bytes [85; 255; 0] Std.st0 ListFifo.d0
              0 0) as (Hs & _).
  - change (0 <= 0 < 2 ^ 32). lia.
  - exact Hs.
Defined.

(** ** Datalink layer: initialisation, the transmit slot, addresses *)

Section DatalinkMoreFacts.
Context {F : Type} `{Mstp F}.
Implicit Types (dest : option BACNET_ADDRESS) (npdu : option BACNET_NPDU_DATA).
Implicit Types (bytes : list Z) (pdu_len : Z).

Lemma valid_send_checks bytes pdu_len :
  0 < pdu_len <= MAX_MPDU ->
  is_null (Some bytes) || (pdu_len =? 0) || (pdu_len >? MAX_MPDU) = false.
Proof.
  intros Hl. cbn [is_null orb]. apply orb_false_iff. split.
  - apply Z.eqb_neq. lia.
  - destruct (Z.gtb_spec pdu_len MAX_MPDU); [lia | reflexivity].
Qed.

(** X13.  [dlmstp_init] returns true from any state; afterwards the port
    structure carries the configured station address, max_master and
    max_info_frames, its input and output buffers are the datalink's
    receive and transmit buffers with size [MAX_MPDU], [MSTP_Init] has been
    run once, the configuration is unchanged and no transmit packet is
    pending, so that a valid [dlmstp_send_pdu] is accepted even if a packet
    was pending before. *)
Theorem init_attaches_port_and_frees_slot
  (ifname : option (list Z)) (st : state F) :
  let r := dlmstp_init ifname st in
  fst r = true
  /\ Port.This_Station (MSTP_Port (snd r)) = dlmstp_mac_address st
  /\ Port.Nmax_master (MSTP_Port (snd r)) = dlmstp_max_master st
  /\ Port.Nmax_info_frames (MSTP_Port (snd r)) = dlmstp_max_info_frames st
  /\ load_buf (Port.InputBuffer (MSTP_Port (snd r))) (snd r)
     = Receive_Buffer st
  /\ load_buf (Port.OutputBuffer (MSTP_Port (snd r))) (snd r)
     = Transmit_Buffer st
  /\ Port.InputBufferSize (MSTP_Port (snd r)) = MAX_MPDU
  /\ Port.OutputBufferSize (MSTP_Port (snd r)) = MAX_MPDU
  /\ calls (snd r) = call_MSTP_Init :: calls st
  /\ dlmstp_mac_address (snd r) = dlmstp_mac_address st
  /\ dlmstp_max_master (snd r) = dlmstp_max_master st
  /\ dlmstp_max_info_frames (snd r) = dlmstp_max_info_frames st
  /\ TxPacket.ready (Transmit_Packet (snd r)) = false
  /\ forall dest npdu bytes pdu_len,
       0 < pdu_len <= MAX_MPDU ->
       fst (dlmstp_send_pdu dest npdu (Some bytes) pdu_len (snd r)) = pdu_len.
Proof.
  intros r. subst r.
  do 13 (split; [reflexivity|]).
  intros dest npdu bytes pdu_len Hl.
  rewrite send_pdu_accepted; [|now apply valid_send_checks | reflexivity].
  cbn [fst]. apply int_small. unfold MAX_MPDU in Hl. lia.
Qed.

Lemma get_send_pending (mstp_port : Port.t F) (timeout : Z) (st : state F) :
  TxPacket.ready (Transmit_Packet st) = true ->
  (fst (MSTP_Get_Send mstp_port timeout st) <> 0 ->
   TxPacket.ready (Transmit_Packet (snd (MSTP_Get_Send mstp_port timeout st)))
   = false)
  /\ (fst (MSTP_Get_Send mstp_port timeout st) = 0 ->
      Transmit_Packet (snd (MSTP_Get_Send mstp_port timeout st))
      = Transmit_Packet st).
Proof.
  intros Hr. unfold MSTP_Get_Send. cbv zeta. rewrite Hr.
  destruct (MSTP_Create_Frame _ _ _ _ _ _ _) as [buffer k].
  pose proof (uint16_range k) as Hk.
  destruct (Z.gtb_spec (C.uint16 k) 0); cbn [fst snd].
  - split; [intros _; reflexivity | lia].
  - split; [lia | intros _; apply store_buf_Transmit_Packet].
Qed.

(** X14.  The transmit slot goes round: after an accepted
    [dlmstp_send_pdu], [MSTP_Get_Send] asks [MSTP_Create_Frame] for a frame
    with the staged frame type, destination and payload and with the
    station address of the port as source; when a frame results, the slot
    is free and the next valid [dlmstp_send_pdu] is accepted; when none
    results, the next [dlmstp_send_pdu] is refused with -2 and the first
    packet stays staged. *)
Theorem transmit_slot_cycle dest npdu bytes pdu_len
  dest2 npdu2 bytes2 pdu_len2 (mstp_port : Port.t F) (timeout : Z)
  (st : state F) :
  0 < pdu_len <= MAX_MPDU ->
  0 < pdu_len2 <= MAX_MPDU ->
  TxPacket.ready (Transmit_Packet st) = false ->
  let st1 := snd (dlmstp_send_pdu dest npdu (Some bytes) pdu_len st) in
  let r := MSTP_Get_Send mstp_port timeout st1 in
  let next := dlmstp_send_pdu dest2 npdu2 (Some bytes2) pdu_len2 (snd r) in
  create_staged_frame mstp_port st1
  = MSTP_Create_Frame
      (load_buf (Port.OutputBuffer mstp_port) st)
      (Port.OutputBufferSize mstp_port)
      (TxPacket.frame_type (staged dest npdu (Some bytes) pdu_len st))
      (TxPacket.destination (staged dest npdu (Some bytes) pdu_len st))
      (Port.This_Station mstp_port)
      (C.memcpy (TxPacket.pdu (Transmit_Packet st)) bytes pdu_len)
      pdu_len
  /\ (fst r <> 0 -> fst next = pdu_len2)
  /\ (fst r = 0 ->
      next = (-2, snd r)
      /\ Transmit_Packet (snd r) = staged dest npdu (Some bytes) pdu_len st).
Proof.
  intros Hl Hl2 Hr st1 r next. subst st1 r next.
  rewrite send_pdu_accepted by (try apply valid_send_checks; assumption).
  cbn [snd].
  set (st1 := { st with Transmit_Packet :=
                          staged dest npdu (Some bytes) pdu_len st }).
  assert (Hr1 : TxPacket.ready (Transmit_Packet st1) = true) by reflexivity.
  destruct (get_send_pending mstp_port timeout st1 Hr1) as (Hsent & Hkept).
  split.
  { unfold create_staged_frame.
    replace (load_buf (Port.OutputBuffer mstp_port) st1)
      with (load_buf (Port.OutputBuffer mstp_port) st)
      by (destruct (Port.OutputBuffer mstp_port); reflexivity).
    change (Transmit_Packet st1)
      with (staged dest npdu (Some bytes) pdu_len st).
    cbn [staged TxPacket.pdu TxPacket.pdu_len bytes_at].
    rewrite uint16_small by (unfold MAX_MPDU in Hl; lia). reflexivity. }
  split.
  - intros Hn. rewrite send_pdu_accepted;
      [|now apply valid_send_checks | now apply Hsent].
    cbn [fst]. apply int_small. unfold MAX_MPDU in Hl2. lia.
  - intros Hz. specialize (Hkept Hz). split; [|exact Hkept].
    apply send_pdu_busy; [now apply valid_send_checks|].
    rewrite Hkept. reflexivity.
Qed.

(** X15.  [dlmstp_get_my_address] reports the station address last set:
    after [dlmstp_set_mac_address a] with [a] in 0..254 the address has
    [mac_len] 1, [mac[0] = a], network 0 and [len] 0; after a call with an
    address above 254 it reports what it reported before.
    [dlmstp_get_broadcast_address] always gives [mac_len] 1, [mac[0]] 0xFF
    and [len] 0; a null pointer is left alone by both. *)
Theorem my_address_follows_mac_address (a : Z) (b : BACNET_ADDRESS)
  (st : state F) :
  (a <= 254 ->
   dlmstp_get_my_address (Some b) (dlmstp_set_mac_address a st)
   = Some (Address.mk 1 (a :: tl (Address.mac b)) 0 0))
  /\ (254 < a ->
      dlmstp_get_my_address (Some b) (dlmstp_set_mac_address a st)
      = dlmstp_get_my_address (Some b) st)
  /\ dlmstp_get_broadcast_address (Some b)
     = Some (Address.mk 1 (255 :: tl (Address.mac b))
               BACNET_BROADCAST_NETWORK 0)
  /\ dlmstp_get_my_address None st = None
  /\ dlmstp_get_broadcast_address None = None.
Proof.
  split.
  { intros Ha. destruct (set_mac_address_config a st Ha) as (Hs & _).
    unfold dlmstp_get_my_address. rewrite Hs. reflexivity. }
  split.
  { intros Ha. now rewrite set_mac_address_rejected. }
  repeat split.
Qed.



(** X25.  [dlmstp_baud_rate] does not follow [dlmstp_set_baud_rate]: after
    an accepted rate other than 19200 the divisor in [U1BRG] is the one of
    the new rate, which is not the divisor of 19200, and
    [dlmstp_baud_rate] still answers 19200. *)
Theorem baud_rate_getter_fixed (baud : Z) (st : state F) :
  In baud enumerated_baud_rates ->
  baud <> 19200 ->
  let r := dlmstp_set_baud_rate baud st in
  fst r = true
  /\ U1BRG (snd r) = GetPeripheralClock / (4 * baud) - 1
  /\ U1BRG (snd r) <> U1BRG (snd (dlmstp_set_baud_rate 19200 st))
  /\ dlmstp_baud_rate (snd r) = 19200.
Proof.
  intros Hin Hne r. subst r.
  assert (H19 : dlmstp_set_baud_rate 19200 st
                = (true, RS485_Set_Baud_Rate 19200 st)) by reflexivity.
  assert (Hb : dlmstp_set_baud_rate baud st
               = (true, RS485_Set_Baud_Rate baud st)).
  { unfold dlmstp_set_baud_rate. cbv zeta.
    apply set_baud_rate_test in Hin. now rewrite Hin. }
  rewrite H19, Hb. cbn [fst snd].
  rewrite !RS485_Set_Baud_Rate_enumerated
    by (try exact Hin; unfold enumerated_baud_rates; cbn [In]; tauto).
  split; [reflexivity|]. split; [reflexivity|]. split; [|reflexivity].
  change (GetPeripheralClock / (4 * baud) - 1
          <> GetPeripheralClock / (4 * 19200) - 1).
  unfold enumerated_baud_rates in Hin. cbn [In] in Hin.
  destruct Hin as [<- | [<- | [<- | [<- | [<- | [<- | []]]]]]];
    solve [contradiction | vm_compute; discriminate].
Qed.

End DatalinkMoreFacts.

Lemma baud_rate_getter_fixed_witness :
  U1BRG (snd (dlmstp_set_baud_rate 38400 Std.st0)) = 519
  /\ dlmstp_baud_rate (snd (dlmstp_set_baud_rate 38400 Std.st0)) = 19200.
Proof.
  destruct (baud_rate_getter_fixed 38400 Std.st0) as (_ & B & _ & G);
    [unfold enumerated_baud_rates; cbn [In]; tauto | lia |].
  split; [rewrite B; reflexivity | exact G].
Defined.

Section DeviceFacts.
Context {F : Type} `{Mstp F}.

(** X17.  [Device_Set_Object_Instance_Number] with an instance up to
    [BACNET_MAX_INSTANCE] returns true, stores the instance and sets the
    MS/TP station address to the low seven bits of the instance, a value in
    0..127, so that the configuration invariant is kept; with a larger
    instance it returns false and changes nothing. *)
Theorem device_instance_sets_station (BACNET_MAX_INSTANCE instance : Z)
  (ds : device_state F) :
  0 <= instance < 2 ^ 32 ->
  let r := Device_Set_Object_Instance_Number BACNET_MAX_INSTANCE instance ds in
  (instance <= BACNET_MAX_INSTANCE ->
   fst r = true
   /\ Device_Object_Instance_Number (snd r) = instance
   /\ Device_Valid_Object_Instance_Number instance (snd r) = true
   /\ dlmstp_mac_address (datalink (snd r)) = instance mod 128
   /\ 0 <= dlmstp_mac_address (datalink (snd r)) <= 127
   /\ (config_ok (datalink ds) -> config_ok (datalink (snd r))))
  /\ (BACNET_MAX_INSTANCE < instance -> r = (false, ds)).
Proof.
  intros Hi r. subst r. unfold Device_Set_Object_Instance_Number. cbv zeta.
  assert (Hm : C.uint8 (Z.land instance 127) = instance mod 128).
  { change 127 with (Z.ones 7). rewrite Z.land_ones by lia.
    apply Z.mod_small. change (2 ^ 7) with 128.
    pose proof (Z.mod_pos_bound instance 128). lia. }
  pose proof (Z.mod_pos_bound instance 128 ltac:(lia)) as Hb.
  destruct (Z.leb_spec instance BACNET_MAX_INSTANCE); split; intros Hc;
    try lia; try reflexivity.
  cbn [fst snd]. rewrite Hm.
  change (datalink
            { { ds with Device_Object_Instance := instance } with
                datalink :=
                  dlmstp_set_mac_address (instance mod 128)
                    (datalink { ds with Device_Object_Instance := instance }) })
    with (dlmstp_set_mac_address (instance mod 128) (datalink ds)).
  destruct (set_mac_address_config (instance mod 128) (datalink ds))
    as (Hs & Hmm & Hmi); [lia|].
  unfold dlmstp_mac_address. rewrite Hs.
  split; [reflexivity|]. split; [reflexivity|].
  split; [unfold Device_Valid_Object_Instance_Number; apply Z.eqb_refl|].
  split; [reflexivity|]. split; [lia|].
  unfold config_ok. rewrite Hs, Hmm, Hmi. lia.
Qed.

End DeviceFacts.

Lemma init_attaches_port_and_frees_slot_witness :
  fst (dlmstp_send_pdu None None (Some [9; 9]) 2
         (snd (dlmstp_init None Std.st_pending))) = 2.
Proof.
  destruct (init_attaches_port_and_frees_slot None Std.st_pending)
    as (_ & _ & _ & _ & _ & _ & _ & _ & _ & _ & _ & _ & _ & Hsend).
  apply Hsend. unfold MAX_MPDU. lia.
Defined.

Lemma transmit_slot_cycle_witness :
  fst (MSTP_Get_Send (MSTP_Port Std.st0) 0 Std.st_pending) = 13
  /\ fst (dlmstp_send_pdu None None (Some [9; 9]) 2
            (snd (MSTP_Get_Send (MSTP_Port Std.st0) 0 Std.st_pending))) = 2.
Proof.
  split; [reflexivity|].
  destruct (transmit_slot_cycle (Some Std.addr10) None Std.payload 3
              None None [9; 9] 2 (MSTP_Port Std.st0) 0 Std.st0)
    as (_ & Hnext & _).
  - unfold MAX_MPDU. lia.
  - unfold MAX_MPDU. lia.
  - reflexivity.
  - apply Hnext. vm_compute. discriminate.
Defined.

Lemma my_address_follows_mac_address_witness :
  dlmstp_get_my_address (Some Std.addr10) (dlmstp_set_mac_address 5 Std.st0)
  = Some (Address.mk 1 [5; 0; 0; 0; 0; 0; 0] 0 0)
  /\ dlmstp_get_my_address (Some Std.addr10)
       (dlmstp_set_mac_address 255 Std.st0)
     = Some (Address.mk 1 [1; 0; 0; 0; 0; 0; 0] 0 0).
Proof.
  destruct (my_address_follows_mac_address 5 Std.addr10 Std.st0)
    as (Hok & _).
  destruct (my_address_follows_mac_address 255 Std.addr10 Std.st0)
    as (_ & Hbad & _).
  split; [apply Hok; lia | rewrite Hbad by lia; reflexivity].
Defined.


Lemma device_instance_sets_station_witness :
  let ds := mkDevice 1234 Std.st0 in
  dlmstp_mac_address
    (datalink (snd (Device_Set_Object_Instance_Number 4194303 12345 ds)))
  = 57.
Proof.
  intros ds.
  destruct (device_instance_sets_station 4194303 12345 ds) as (Hok & _);
    [lia|].
  destruct Hok as (_ & _ & _ & Hmac & _); [lia|].
  rewrite Hmac. reflexivity.
Defined.

(** ** Binary Output object *)

Lemma length_list_set {A : Type} (i : nat) (v : A) (a : list A) :
  length (list_set i v a) = length a.
Proof.
  unfold list_set. destruct (Nat.ltb_spec i (length a)); [|reflexivity].
  rewrite length_app, length_firstn. cbn [length]. rewrite length_skipn. lia.
Qed.

Lemma nth_list_set_eq {A : Type} (i : nat) (v d : A) (a : list A) :
  (i < length a)%nat -> nth i (list_set i v a) d = v.
Proof.
  intros Hi. unfold list_set.
  destruct (Nat.ltb_spec i (length a)); [|lia].
  rewrite app_nth2 by (rewrite length_firstn; lia).
  rewrite length_firstn.
  replace (i - Nat.min i (length a))%nat with 0%nat by lia. reflexivity.
Qed.

Lemma nth_list_set_neq {A : Type} (i j : nat) (v d : A) (a : list A) :
  j <> i -> nth j (list_set i v a) d = nth j a d.
Proof.
  intros Hj. unfold list_set.
  destruct (Nat.ltb_spec i (length a)); [|reflexivity].
  rewrite <- (firstn_skipn i a) at 3.
  destruct (Nat.lt_ge_cases j i) as [Hlt | Hge].
  - rewrite !app_nth1 by (rewrite length_firstn; lia). reflexivity.
  - rewrite !app_nth2 by (rewrite length_firstn; lia).
    rewrite length_firstn. replace (Nat.min i (length a)) with i by lia.
    rewrite (skipn_cons_nth i a d) by lia.
    destruct (j - i)%nat as [|m] eqn:Hm; [lia | reflexivity].
Qed.

Lemma nth_error_list_set_eq {A : Type} (i : nat) (v : A) (a : list A) :
  (i < length a)%nat -> nth_error (list_set i v a) i = Some v.
Proof.
  intros Hi. unfold list_set.
  destruct (Nat.ltb_spec i (length a)); [|lia].
  rewrite nth_error_app2 by (rewrite length_firstn; lia).
  rewrite length_firstn.
  replace (i - Nat.min i (length a))%nat with 0%nat by lia. reflexivity.
Qed.

Lemma nth_error_list_set_neq {A : Type} (i j : nat) (v : A) (a : list A) :
  j <> i -> nth_error (list_set i v a) j = nth_error a j.
Proof.
  intros Hj. unfold list_set.
  destruct (Nat.ltb_spec i (length a)); [|reflexivity].
  rewrite <- (firstn_skipn i a) at 3.
  destruct (Nat.lt_ge_cases j i) as [Hlt | Hge].
  - rewrite !nth_error_app1 by (rewrite length_firstn; lia). reflexivity.
  - rewrite !nth_error_app2 by (rewrite length_firstn; lia).
    rewrite length_firstn. replace (Nat.min i (length a)) with i by lia.
    destruct (j - i)%nat as [|m] eqn:Hm; [lia|].
    destruct (skipn i a) as [|x l] eqn:Hs.
    + apply (f_equal (@length A)) in Hs. rewrite length_skipn in Hs.
      cbn [length] in Hs. lia.
    + change (S i) with (1 + i)%nat. rewrite <- skipn_skipn, Hs.
      reflexivity.
Qed.

Lemma In_list_set {A : Type} (i : nat) (v x : A) (a : list A) :
  In x (list_set i v a) -> x = v \/ In x a.
Proof.
  unfold list_set. destruct (Nat.ltb_spec i (length a)); [|now right].
  rewrite in_app_iff. cbn [In]. intros [Hx | [Hx | Hx]].
  - right. rewrite <- (firstn_skipn i a). apply in_or_app. now left.
  - now left.
  - right. rewrite <- (firstn_skipn (S i) a). apply in_or_app. now right.
Qed.

Lemma first_active_Some (active : list bool) :
  forall (values : list Z) (v : Z),
    first_active active values = Some v ->
    exists k : nat,
      (k < length active)%nat
      /\ nth k active false = true
      /\ nth k values 0 = v
      /\ forall j : nat, (j < k)%nat -> nth j active false = false.
Proof.
  induction active as [|[|] active IH]; intros [|x values] v Hf;
    cbn [first_active] in Hf; try discriminate.
  - injection Hf as <-. exists 0%nat. cbn [length nth].
    split; [lia|]. split; [reflexivity|]. split; [reflexivity|].
    intros j Hj. lia.
  - destruct (IH values v Hf) as (k & Hk & Ha & Hv & Hlow).
    exists (S k). cbn [length nth].
    split; [lia|]. split; [exact Ha|]. split; [exact Hv|].
    intros [|j] Hj; [reflexivity | apply Hlow; lia].
Qed.

Lemma first_active_None (active : list bool) :
  forall values : list Z,
    length active = length values ->
    first_active active values = None ->
    forall j : nat, nth j active false = false.
Proof.
  induction active as [|[|] active IH]; intros [|x values] Hl Hf j;
    cbn [first_active length] in *; try discriminate.
  - destruct j; reflexivity.
  - destruct j as [|j]; [reflexivity|]. cbn [nth].
    apply (IH values); [lia | exact Hf].
Qed.

Section BinaryOutputFacts.
Context {F CS : Type} `{Bacnet CS}.

Lemma BO_update_nth_error (index : Z) (f : BO.t CS -> BO.t CS)
  (bo : list (BO.t CS)) (o : BO.t CS) :
  nth_error bo (Z.to_nat index) = Some o ->
  BO_update index f bo = list_set (Z.to_nat index) (f o) bo
  /\ nth_error (BO_update index f bo) (Z.to_nat index) = Some (f o).
Proof.
  intros Ho. unfold BO_update. rewrite Ho. split; [reflexivity|].
  apply nth_error_list_set_eq. apply nth_error_Some. congruence.
Qed.

Lemma BO_member_nth_error {A : Type} (index : Z) (g : BO.t CS -> A) (d : A)
  (bo : list (BO.t CS)) (o : BO.t CS) :
  nth_error bo (Z.to_nat index) = Some o -> BO_member index g d bo = g o.
Proof. intros Ho. unfold BO_member. now rewrite Ho. Qed.

Lemma instance_index (object_instance : Z) :
  (object_instance < MAX_BINARY_OUTPUTS ->
   Binary_Output_Instance_To_Index object_instance = object_instance)
  /\ (MAX_BINARY_OUTPUTS <= object_instance ->
      Binary_Output_Instance_To_Index object_instance = MAX_BINARY_OUTPUTS).
Proof.
  unfold Binary_Output_Instance_To_Index. cbv zeta.
  destruct (Z.ltb_spec object_instance MAX_BINARY_OUTPUTS); split; intros;
    solve [reflexivity | lia].
Qed.

(** The calculation when both minimum times are zero: the present value
    becomes the commanded value, and only the present value, the last
    state and the time of the change are written. *)
Lemma calculate_object_commanded (st : state F) (o : BO.t CS) :
  length (BO.Priority_Array o) = Z.to_nat BACNET_PRIORITY_ARRAY_SIZE ->
  length (BO.Priority_Active o) = Z.to_nat BACNET_PRIORITY_ARRAY_SIZE ->
  BO.Minimum_Off_Time_ms o = 0 ->
  BO.Minimum_On_Time_ms o = 0 ->
  let o' := Present_Value_Calculate_object st o in
  commanded o (BO.Present_Value o')
  /\ BO.Priority_Array o' = BO.Priority_Array o
  /\ BO.Priority_Active o' = BO.Priority_Active o
  /\ BO.Relinquish_Default o' = BO.Relinquish_Default o
  /\ BO.Out_Of_Service o' = BO.Out_Of_Service o
  /\ BO.Polarity o' = BO.Polarity o
  /\ BO.Changed o' = BO.Changed o
  /\ BO.Minimum_Off_Time_ms o' = 0
  /\ BO.Minimum_On_Time_ms o' = 0.
Proof.
  intros Hla Hlb Hoff Hon o'. subst o'.
  unfold Present_Value_Calculate_object.
  rewrite !firstn_all2 by lia.
  rewrite Hoff, Hon. cbv zeta.
  pose proof (uint32_range
                (millisecond_counter st
                 - BO.Time_Of_State_Count_Change_ms o)) as Ht.
  destruct (Z.ltb_spec
              (C.uint32 (millisecond_counter st
                         - BO.Time_Of_State_Count_Change_ms o)) 0);
    [lia|].
  destruct (first_active (BO.Priority_Active o) (BO.Priority_Array o))
    as [v|] eqn:Hf.
  - rewrite !andb_false_r.
    assert (Hc : commanded o v).
    { destruct (first_active_Some _ _ _ Hf) as (k & Hk & Ha & Hv & Hlow).
      left. exists (Z.of_nat k + 1). unfold priority_active, priority_value.
      replace (Z.to_nat (Z.of_nat k + 1 - 1)) with k by lia.
      split; [unfold BACNET_PRIORITY_ARRAY_SIZE in *; lia|].
      split; [exact Ha|]. split; [exact Hv|].
      intros q Hq. apply Hlow. lia. }
    destruct (Z.eqb_spec (BO.Present_Value o) v) as [E | E]; cbn [negb].
    + rewrite E. repeat split; assumption.
    + repeat split; assumption.
  - assert (Hc : commanded o (BO.Relinquish_Default o)).
    { right. split; [|reflexivity]. intros q Hq. unfold priority_active.
      apply (first_active_None _ _ (eq_trans Hlb (eq_sym Hla)) Hf). }
    destruct (Z.eqb_spec (BO.Present_Value o) (BO.Relinquish_Default o))
      as [E | E]; cbn [negb].
    + rewrite E. repeat split; assumption.
    + repeat split; assumption.
Qed.

Lemma commanded_unique (o : BO.t CS) (v w : Z) :
  commanded o v -> commanded o w -> v = w.
Proof.
  intros [(p & Hp & Ha & Hv & Hlow) | (Hnone & Hv)]
         [(p' & Hp' & Ha' & Hv' & Hlow') | (Hnone' & Hv')].
  - assert (p = p').
    { destruct (Z.lt_trichotomy p p') as [L | [E | L]]; [|exact E|].
      - rewrite Hlow' in Ha by lia. discriminate.
      - rewrite Hlow in Ha' by lia. discriminate. }
    subst p'. congruence.
  - rewrite Hnone' in Ha by lia. discriminate.
  - rewrite Hnone in Ha' by lia. discriminate.
  - congruence.
Qed.

Lemma commanded_ext (o o' : BO.t CS) (v : Z) :
  BO.Priority_Array o' = BO.Priority_Array o ->
  BO.Priority_Active o' = BO.Priority_Active o ->
  BO.Relinquish_Default o' = BO.Relinquish_Default o ->
  commanded o v -> commanded o' v.
Proof.
  intros Ha Hb Hr. unfold commanded, priority_active, priority_value.
  now rewrite Ha, Hb, Hr.
Qed.

Lemma BO_update_changed (index : Z) (f : BO.t CS -> BO.t CS)
  (bo : list (BO.t CS)) (o : BO.t CS) :
  nth_error bo (Z.to_nat index) = Some o ->
  only_object_changed index (f o) bo (BO_update index f bo).
Proof.
  intros Ho. destruct (BO_update_nth_error index f bo o Ho) as (E & N).
  split; [exact N|]. rewrite E. split.
  - intros j Hj. now apply nth_error_list_set_neq.
  - apply length_list_set.
Qed.

Lemma changed_refl (index : Z) (bo : list (BO.t CS)) (o : BO.t CS) :
  nth_error bo (Z.to_nat index) = Some o ->
  only_object_changed index o bo bo.
Proof. intros Ho. split; [exact Ho|]. split; [intros; reflexivity|reflexivity]. Qed.

Lemma changed_trans (index : Z) (o1 o2 : BO.t CS)
  (bo bo1 bo2 : list (BO.t CS)) :
  only_object_changed index o1 bo bo1 ->
  only_object_changed index o2 bo1 bo2 ->
  only_object_changed index o2 bo bo2.
Proof.
  intros (_ & A2 & A3) (B1 & B2 & B3). split; [exact B1|]. split.
  - intros j Hj. rewrite B2, A2 by exact Hj. reflexivity.
  - congruence.
Qed.

Lemma changed_In (index : Z) (o' x : BO.t CS) (bo bo' : list (BO.t CS)) :
  only_object_changed index o' bo bo' ->
  In x bo' -> x = o' \/ In x bo.
Proof.
  intros (C1 & C2 & _) Hx. apply In_nth_error in Hx. destruct Hx as (j & Hj).
  destruct (Nat.eq_dec j (Z.to_nat index)) as [-> | Hne].
  - left. congruence.
  - right. rewrite C2 in Hj by exact Hne. now apply nth_error_In in Hj.
Qed.

Lemma changed_sized (index : Z) (o' : BO.t CS) (bo bo' : list (BO.t CS)) :
  BO_sized bo ->
  only_object_changed index o' bo bo' ->
  length (BO.Priority_Array o') = Z.to_nat BACNET_PRIORITY_ARRAY_SIZE ->
  length (BO.Priority_Active o') = Z.to_nat BACNET_PRIORITY_ARRAY_SIZE ->
  BO_sized bo'.
Proof.
  intros (Hl & Ho) Hc Ha Hb. split.
  - destruct Hc as (_ & _ & L). congruence.
  - intros x Hx. destruct (changed_In _ _ _ _ _ Hc Hx) as [-> | Hin];
      [split; assumption | now apply Ho].
Qed.

Lemma changed_quiet (index : Z) (o' : BO.t CS) (bo bo' : list (BO.t CS)) :
  BO_quiet bo ->
  only_object_changed index o' bo bo' ->
  length (BO.Priority_Array o') = Z.to_nat BACNET_PRIORITY_ARRAY_SIZE ->
  length (BO.Priority_Active o') = Z.to_nat BACNET_PRIORITY_ARRAY_SIZE ->
  BO.Minimum_Off_Time_ms o' = 0 ->
  BO.Minimum_On_Time_ms o' = 0 ->
  BO_quiet bo'.
Proof.
  intros (Hs & Hq) Hc Ha Hb Hoff Hon. split.
  - now apply (changed_sized index o' bo).
  - intros x Hx. destruct (changed_In _ _ _ _ _ Hc Hx) as [-> | Hin];
      [split; assumption | now apply Hq].
Qed.


(** The recalculation and the change-of-value check that follow a write
    to the priority array. *)
Lemma cov_path (index : Z) (st : state F) (bo bo2 : list (BO.t CS))
  (o1 : BO.t CS) :
  0 <= index < MAX_BINARY_OUTPUTS ->
  only_object_changed index o1 bo bo2 ->
  let o2 := Present_Value_Calculate_object st o1 in
  let bo3 := Binary_Output_Present_Value_Calculate index st bo2 in
  only_object_changed index
    (if negb (BO.Present_Value o1 =? BO.Present_Value o2)
     then { o2 with BO.Changed := true } else o2)
    bo
    (if negb (BO_member index BO.Present_Value 0 bo2
              =? BO_member index BO.Present_Value 0 bo3)
     then BO_update index (fun o => { o with BO.Changed := true }) bo3
     else bo3).
Proof.
  intros Hi Hc o2 bo3. subst o2 bo3.
  unfold Binary_Output_Present_Value_Calculate.
  destruct (Z.ltb_spec index MAX_BINARY_OUTPUTS); [|lia].
  pose proof Hc as (N1 & _).
  pose proof (BO_update_changed index (Present_Value_Calculate_object st)
                bo2 o1 N1) as Hc3.
  pose proof Hc3 as (N3 & _).
  rewrite (BO_member_nth_error index _ 0 bo2 o1 N1).
  rewrite (BO_member_nth_error index _ 0 _ _ N3).
  destruct (negb _).
  - eapply changed_trans; [exact Hc|]. eapply changed_trans; [exact Hc3|].
    apply (BO_update_changed index (fun o => { o with BO.Changed := true })
             _ _ N3).
  - eapply changed_trans; [exact Hc | exact Hc3].
Qed.

(** What the object is after recalculation and change-of-value check. *)
Lemma cov_object (st : state F) (o1 : BO.t CS) :
  length (BO.Priority_Array o1) = Z.to_nat BACNET_PRIORITY_ARRAY_SIZE ->
  length (BO.Priority_Active o1) = Z.to_nat BACNET_PRIORITY_ARRAY_SIZE ->
  BO.Minimum_Off_Time_ms o1 = 0 ->
  BO.Minimum_On_Time_ms o1 = 0 ->
  let o2 := Present_Value_Calculate_object st o1 in
  let o3 := if negb (BO.Present_Value o1 =? BO.Present_Value o2)
            then { o2 with BO.Changed := true } else o2 in
  commanded o3 (BO.Present_Value o3)
  /\ BO.Priority_Array o3 = BO.Priority_Array o1
  /\ BO.Priority_Active o3 = BO.Priority_Active o1
  /\ BO.Relinquish_Default o3 = BO.Relinquish_Default o1
  /\ BO.Out_Of_Service o3 = BO.Out_Of_Service o1
  /\ BO.Polarity o3 = BO.Polarity o1
  /\ BO.Changed o3
     = BO.Changed o1 || negb (BO.Present_Value o1 =? BO.Present_Value o3)
  /\ BO.Minimum_Off_Time_ms o3 = 0
  /\ BO.Minimum_On_Time_ms o3 = 0.
Proof.
  intros Ha Hb Hoff Hon o2 o3.
  destruct (calculate_object_commanded st o1 Ha Hb Hoff Hon)
    as (C & A & B & R & S & P & Ch & Mo & Mn).
  fold o2 in C, A, B, R, S, P, Ch, Mo, Mn.
  assert (E : BO.Present_Value o3 = BO.Present_Value o2
              /\ BO.Priority_Array o3 = BO.Priority_Array o2
              /\ BO.Priority_Active o3 = BO.Priority_Active o2
              /\ BO.Relinquish_Default o3 = BO.Relinquish_Default o2
              /\ BO.Out_Of_Service o3 = BO.Out_Of_Service o2
              /\ BO.Polarity o3 = BO.Polarity o2
              /\ BO.Minimum_Off_Time_ms o3 = BO.Minimum_Off_Time_ms o2
              /\ BO.Minimum_On_Time_ms o3 = BO.Minimum_On_Time_ms o2)
    by (subst o3; destruct (negb _); repeat split).
  destruct E as (E1 & E2 & E3 & E4 & E5 & E6 & E7 & E8).
  split.
  { rewrite E1. apply (commanded_ext o1); congruence. }
  rewrite E1, E2, E3, E4, E5, E6, E7, E8.
  repeat split; try assumption.
  subst o3. destruct (negb (BO.Present_Value o1 =? BO.Present_Value o2)).
  - cbn [BO.Changed]. now rewrite orb_true_r.
  - rewrite Ch. now rewrite orb_false_r.
Qed.

Lemma getter_Present_Value (object_instance : Z) (bo : list (BO.t CS))
  (o : BO.t CS) :
  0 <= object_instance < MAX_BINARY_OUTPUTS ->
  nth_error bo (Z.to_nat object_instance) = Some o ->
  Binary_Output_Present_Value object_instance bo = BO.Present_Value o
  /\ Binary_Output_Change_Of_Value object_instance bo = BO.Changed o
  /\ Binary_Output_Out_Of_Service object_instance bo = BO.Out_Of_Service o
  /\ Binary_Output_Polarity object_instance bo = BO.Polarity o
  /\ Binary_Output_Relinquish_Default object_instance bo
     = BO.Relinquish_Default o
  /\ forall p, 1 <= p <= BACNET_PRIORITY_ARRAY_SIZE ->
       Binary_Output_Priority_Array_Value object_instance p bo
       = if priority_active p o then priority_value p o
         else BINARY_INACTIVE.
Proof.
  intros Hi Ho.
  destruct (instance_index object_instance) as (Hidx & _).
  unfold Binary_Output_Present_Value, Binary_Output_Change_Of_Value,
    Binary_Output_Out_Of_Service, Binary_Output_Polarity,
    Binary_Output_Relinquish_Default, Binary_Output_Priority_Array_Value.
  cbv zeta. rewrite Hidx by lia.
  destruct (Z.ltb_spec object_instance MAX_BINARY_OUTPUTS); [|lia].
  rewrite !(BO_member_nth_error object_instance _ _ bo o Ho).
  repeat split. intros p Hp.
  destruct (Z.eqb_spec p 0); [lia|].
  destruct (Z.leb_spec p BACNET_PRIORITY_ARRAY_SIZE); [|lia].
  cbn [negb andb].
  rewrite !(BO_member_nth_error object_instance _ _ bo o Ho).
  reflexivity.
Qed.

(** The path of [Binary_Output_Present_Value_Set] for a priority in
    1..16: only the object is changed, into the object with the command
    recorded, recalculated and checked for a change of value. *)
Lemma set_valid_changed (object_instance value priority : Z)
  (st : state F) (bo : list (BO.t CS)) (o : BO.t CS) :
  0 <= object_instance < MAX_BINARY_OUTPUTS ->
  1 <= priority <= BACNET_PRIORITY_ARRAY_SIZE ->
  nth_error bo (Z.to_nat object_instance) = Some o ->
  let k := Z.to_nat (priority - 1) in
  let o1 :=
    { { o with BO.Priority_Array := list_set k value (BO.Priority_Array o) }
      with BO.Priority_Active := list_set k true (BO.Priority_Active o) } in
  let o2 := Present_Value_Calculate_object st o1 in
  let r :=
    Binary_Output_Present_Value_Set object_instance value priority st bo in
  fst r = true
  /\ only_object_changed object_instance
       (if negb (BO.Present_Value o1 =? BO.Present_Value o2)
        then { o2 with BO.Changed := true } else o2)
       bo (snd r).
Proof.
  intros Hi Hp Ho k o1 o2 r. subst r.
  destruct (instance_index object_instance) as (Hidx & _).
  unfold Binary_Output_Present_Value_Set. cbv zeta. rewrite Hidx by lia.
  destruct (Z.ltb_spec object_instance MAX_BINARY_OUTPUTS); [|lia].
  destruct (Z.eqb_spec priority 0); [lia|].
  destruct (Z.leb_spec priority BACNET_PRIORITY_ARRAY_SIZE); [|lia].
  cbn [negb andb fst snd]. split; [reflexivity|]. fold k.
  set (f1 := fun o0 : BO.t CS =>
               { o0 with BO.Priority_Array :=
                           list_set k value (BO.Priority_Array o0) }).
  set (f2 := fun o0 : BO.t CS =>
               { o0 with BO.Priority_Active :=
                           list_set k true (BO.Priority_Active o0) }).
  assert (Hc1 : only_object_changed object_instance (f1 o) bo
                  (BO_update object_instance f1 bo))
    by (apply (BO_update_changed object_instance f1 bo o Ho)).
  assert (Hc2 : only_object_changed object_instance o1 bo
                  (BO_update object_instance f2
                     (BO_update object_instance f1 bo))).
  { eapply changed_trans; [exact Hc1|].
    destruct Hc1 as (N1 & _).
    apply (BO_update_changed object_instance f2 _ (f1 o) N1). }
  exact (cov_path object_instance st bo _ o1 Hi Hc2).
Qed.

(** The same for [Binary_Output_Present_Value_Relinquish]. *)
Lemma relinquish_valid_changed (object_instance priority : Z)
  (st : state F) (bo : list (BO.t CS)) (o : BO.t CS) :
  0 <= object_instance < MAX_BINARY_OUTPUTS ->
  1 <= priority <= BACNET_PRIORITY_ARRAY_SIZE ->
  nth_error bo (Z.to_nat object_instance) = Some o ->
  let k := Z.to_nat (priority - 1) in
  let o1 :=
    { o with BO.Priority_Active := list_set k false (BO.Priority_Active o) } in
  let o2 := Present_Value_Calculate_object st o1 in
  let r :=
    Binary_Output_Present_Value_Relinquish object_instance priority st bo in
  fst r = true
  /\ only_object_changed object_instance
       (if negb (BO.Present_Value o1 =? BO.Present_Value o2)
        then { o2 with BO.Changed := true } else o2)
       bo (snd r).
Proof.
  intros Hi Hp Ho k o1 o2 r. subst r.
  destruct (instance_index object_instance) as (Hidx & _).
  unfold Binary_Output_Present_Value_Relinquish. cbv zeta.
  rewrite Hidx by lia.
  destruct (Z.ltb_spec object_instance MAX_BINARY_OUTPUTS); [|lia].
  destruct (Z.eqb_spec priority 0); [lia|].
  destruct (Z.leb_spec priority BACNET_PRIORITY_ARRAY_SIZE); [|lia].
  cbn [negb andb fst snd]. split; [reflexivity|]. fold k.
  set (f2 := fun o0 : BO.t CS =>
               { o0 with BO.Priority_Active :=
                           list_set k false (BO.Priority_Active o0) }).
  assert (Hc2 : only_object_changed object_instance o1 bo
                  (BO_update object_instance f2 bo))
    by (apply (BO_update_changed object_instance f2 bo o Ho)).
  exact (cov_path object_instance st bo _ o1 Hi Hc2).
Qed.

(** X18.  [Binary_Output_Present_Value_Set] with a valid instance and a
    priority in 1..16 returns true and changes only that object: the value
    is recorded as the active command of that priority, the other
    priorities are untouched, and the present value becomes the value
    commanded by the priority array, which is the written value when no
    priority with a lower number is active.  The change-of-value flag is
    raised when the present value changed and never lowered. *)
Theorem present_value_set_commands (object_instance value priority : Z)
  (st : state F) (bo : list (BO.t CS)) (o : BO.t CS) :
  BO_quiet bo ->
  0 <= object_instance < MAX_BINARY_OUTPUTS ->
  1 <= priority <= BACNET_PRIORITY_ARRAY_SIZE ->
  nth_error bo (Z.to_nat object_instance) = Some o ->
  let r :=
    Binary_Output_Present_Value_Set object_instance value priority st bo in
  exists o' : BO.t CS,
    fst r = true
    /\ only_object_changed object_instance o' bo (snd r)
    /\ BO_quiet (snd r)
    /\ priority_active priority o' = true
    /\ priority_value priority o' = value
    /\ (forall q, 1 <= q -> q <> priority ->
          priority_active q o' = priority_active q o
          /\ priority_value q o' = priority_value q o)
    /\ commanded o' (BO.Present_Value o')
    /\ ((forall q, 1 <= q < priority -> priority_active q o = false) ->
        BO.Present_Value o' = value)
    /\ BO.Changed o'
       = BO.Changed o || negb (BO.Present_Value o =? BO.Present_Value o')
    /\ BO.Relinquish_Default o' = BO.Relinquish_Default o
    /\ BO.Out_Of_Service o' = BO.Out_Of_Service o
    /\ Binary_Output_Present_Value object_instance (snd r)
       = BO.Present_Value o'
    /\ Binary_Output_Priority_Array_Value object_instance priority (snd r)
       = value.
Proof.
  intros Hq Hi Hp Ho r. subst r.
  pose proof Hq as ((Hlen & Hsz) & Hmin).
  assert (Hin : In o bo) by now apply nth_error_In in Ho.
  destruct (Hsz o Hin) as (Ha & Hb). destruct (Hmin o Hin) as (Hoff & Hon).
  destruct (set_valid_changed object_instance value priority st bo o
              Hi Hp Ho) as (Hret & Hc4).
  cbv zeta in Hc4.
  set (k := Z.to_nat (priority - 1)) in *.
  set (o1 := { { o with BO.Priority_Array :=
                          list_set k value (BO.Priority_Array o) }
               with BO.Priority_Active :=
                      list_set k true (BO.Priority_Active o) }) in *.
  assert (Hk : (k < 16)%nat)
    by (unfold k, BACNET_PRIORITY_ARRAY_SIZE in *; lia).
  assert (PA1 : BO.Priority_Array o1
                = list_set k value (BO.Priority_Array o)) by reflexivity.
  assert (PB1 : BO.Priority_Active o1
                = list_set k true (BO.Priority_Active o)) by reflexivity.
  assert (Ha1 : length (BO.Priority_Array o1)
                = Z.to_nat BACNET_PRIORITY_ARRAY_SIZE)
    by (rewrite PA1, length_list_set; exact Ha).
  assert (Hb1 : length (BO.Priority_Active o1)
                = Z.to_nat BACNET_PRIORITY_ARRAY_SIZE)
    by (rewrite PB1, length_list_set; exact Hb).
  destruct (cov_object st o1 Ha1 Hb1 Hoff Hon)
    as (C & A & B & R & S & _ & Ch & Mo & Mn).
  cbv zeta in C, A, B, R, S, Ch, Mo, Mn.
  match type of Hc4 with
  | only_object_changed _ ?o3 _ _ => set (o3' := o3) in *
  end.
  exists o3'. split; [exact Hret|]. split; [exact Hc4|].
  assert (Hact : priority_active priority o3' = true).
  { unfold priority_active. fold k. rewrite B, PB1.
    apply nth_list_set_eq. unfold BACNET_PRIORITY_ARRAY_SIZE in *. lia. }
  assert (Hval : priority_value priority o3' = value).
  { unfold priority_value. fold k. rewrite A, PA1.
    apply nth_list_set_eq. unfold BACNET_PRIORITY_ARRAY_SIZE in *. lia. }
  split.
  { apply (changed_quiet object_instance o3' bo); try assumption;
      congruence. }
  split; [exact Hact|]. split; [exact Hval|].
  split.
  { intros q Hq1 Hne. unfold priority_active, priority_value.
    rewrite A, B, PA1, PB1.
    rewrite !nth_list_set_neq by (unfold k; lia). split; reflexivity. }
  split; [exact C|].
  split.
  { intros Hlow. apply (commanded_unique o3'); [exact C|].
    left. exists priority. split; [exact Hp|]. split; [exact Hact|].
    split; [exact Hval|].
    intros q Hq'. unfold priority_active. rewrite B, PB1.
    rewrite nth_list_set_neq by (unfold k; lia). apply Hlow. exact Hq'. }
  split; [exact Ch|]. split; [exact R|]. split; [exact S|].
  destruct Hc4 as (N4 & _).
  destruct (getter_Present_Value object_instance _ o3' Hi N4)
    as (G1 & _ & _ & _ & _ & G6).
  split; [exact G1|].
  rewrite G6 by exact Hp. rewrite Hact. exact Hval.
Qed.

(** X19.  [Binary_Output_Present_Value_Relinquish] with a valid instance
    and a priority in 1..16 returns true and changes only that object: the
    priority becomes inactive and reads as [BINARY_INACTIVE], the other
    priorities are untouched, and the present value becomes the value
    commanded by what remains of the priority array: the relinquish
    default when no other priority is active.  The change-of-value flag is
    raised when the present value changed and never lowered. *)
Theorem present_value_relinquish_commands (object_instance priority : Z)
  (st : state F) (bo : list (BO.t CS)) (o : BO.t CS) :
  BO_quiet bo ->
  0 <= object_instance < MAX_BINARY_OUTPUTS ->
  1 <= priority <= BACNET_PRIORITY_ARRAY_SIZE ->
  nth_error bo (Z.to_nat object_instance) = Some o ->
  let r :=
    Binary_Output_Present_Value_Relinquish object_instance priority st bo in
  exists o' : BO.t CS,
    fst r = true
    /\ only_object_changed object_instance o' bo (snd r)
    /\ BO_quiet (snd r)
    /\ priority_active priority o' = false
    /\ (forall q, 1 <= q -> q <> priority ->
          priority_active q o' = priority_active q o)
    /\ (forall q, priority_value q o' = priority_value q o)
    /\ commanded o' (BO.Present_Value o')
    /\ ((forall q, 1 <= q <= BACNET_PRIORITY_ARRAY_SIZE -> q <> priority ->
                   priority_active q o = false) ->
        BO.Present_Value o' = BO.Relinquish_Default o)
    /\ BO.Changed o'
       = BO.Changed o || negb (BO.Present_Value o =? BO.Present_Value o')
    /\ Binary_Output_Present_Value object_instance (snd r)
       = BO.Present_Value o'
    /\ Binary_Output_Priority_Array_Value object_instance priority (snd r)
       = BINARY_INACTIVE.
Proof.
  intros Hq Hi Hp Ho r. subst r.
  pose proof Hq as ((Hlen & Hsz) & Hmin).
  assert (Hin : In o bo) by now apply nth_error_In in Ho.
  destruct (Hsz o Hin) as (Ha & Hb). destruct (Hmin o Hin) as (Hoff & Hon).
  destruct (relinquish_valid_changed object_instance priority st bo o
              Hi Hp Ho) as (Hret & Hc4).
  cbv zeta in Hc4.
  set (k := Z.to_nat (priority - 1)) in *.
  set (o1 := { o with BO.Priority_Active :=
                        list_set k false (BO.Priority_Active o) }) in *.
  assert (Hk : (k < 16)%nat)
    by (unfold k, BACNET_PRIORITY_ARRAY_SIZE in *; lia).
  assert (PA1 : BO.Priority_Array o1 = BO.Priority_Array o) by reflexivity.
  assert (PB1 : BO.Priority_Active o1
                = list_set k false (BO.Priority_Active o)) by reflexivity.
  assert (Ha1 : length (BO.Priority_Array o1)
                = Z.to_nat BACNET_PRIORITY_ARRAY_SIZE)
    by (rewrite PA1; exact Ha).
  assert (Hb1 : length (BO.Priority_Active o1)
                = Z.to_nat BACNET_PRIORITY_ARRAY_SIZE)
    by (rewrite PB1, length_list_set; exact Hb).
  destruct (cov_object st o1 Ha1 Hb1 Hoff Hon)
    as (C & A & B & R & S & _ & Ch & Mo & Mn).
  cbv zeta in C, A, B, R, S, Ch, Mo, Mn.
  match type of Hc4 with
  | only_object_changed _ ?o3 _ _ => set (o3' := o3) in *
  end.
  exists o3'. split; [exact Hret|]. split; [exact Hc4|].
  assert (Hact : priority_active priority o3' = false).
  { unfold priority_active. fold k. rewrite B, PB1.
    apply nth_list_set_eq. unfold BACNET_PRIORITY_ARRAY_SIZE in *. lia. }
  assert (Hoth : forall q, 1 <= q -> q <> priority ->
                   priority_active q o3' = priority_active q o).
  { intros q Hq1 Hne. unfold priority_active. rewrite B, PB1.
    apply nth_list_set_neq. unfold k. lia. }
  split.
  { apply (changed_quiet object_instance o3' bo); try assumption;
      congruence. }
  split; [exact Hact|]. split; [exact Hoth|].
  split; [intros q; unfold priority_value; now rewrite A, PA1|].
  split; [exact C|].
  split.
  { intros Hnone. apply (commanded_unique o3'); [exact C|].
    right. split; [|symmetry; exact R].
    intros q Hq'. destruct (Z.eq_dec q priority) as [-> | Hne];
      [exact Hact|].
    rewrite Hoth by lia. now apply Hnone. }
  split; [exact Ch|].
  destruct Hc4 as (N4 & _).
  destruct (getter_Present_Value object_instance _ o3' Hi N4)
    as (G1 & _ & _ & _ & _ & G6).
  split; [exact G1|].
  rewrite G6 by exact Hp. now rewrite Hact.
Qed.

Lemma init_four (st : state F) (a b c d : BO.t CS) :
  Binary_Output_Init st [a; b; c; d]
  = [Binary_Output_Init_object st 0 a; Binary_Output_Init_object st 1 b;
     Binary_Output_Init_object st 2 c; Binary_Output_Init_object st 3 d].
Proof. reflexivity. Qed.

Lemma four_objects (bo : list (BO.t CS)) :
  length bo = Z.to_nat MAX_BINARY_OUTPUTS ->
  exists a b c d, bo = [a; b; c; d].
Proof.
  destruct bo as [|a [|b [|c [|d [|e bo]]]]]; cbn; intros Hl;
    try discriminate.
  now exists a, b, c, d.
Qed.

Lemma init_quiet (st : state F) (bo : list (BO.t CS)) :
  length bo = Z.to_nat MAX_BINARY_OUTPUTS ->
  BO_quiet (Binary_Output_Init st bo).
Proof.
  intros Hl. destruct (four_objects bo Hl) as (a & b & c & d & ->).
  rewrite init_four. split; [split; [reflexivity|]|];
    intros o [<- | [<- | [<- | [<- | []]]]]; split;
    solve [reflexivity | apply repeat_length].
Qed.

(** X20.  After [Binary_Output_Init] every object is inactive and holds no
    command: present value and relinquish default are [BINARY_INACTIVE],
    no priority is active and each reads as [BINARY_INACTIVE], the object
    is in service with normal polarity, the change-of-value flag is down,
    the minimum on and off times are zero, and the time of the last change
    is the value of the millisecond counter. *)
Theorem binary_output_init_state (st : state F) (bo : list (BO.t CS))
  (object_instance : Z) :
  length bo = Z.to_nat MAX_BINARY_OUTPUTS ->
  0 <= object_instance < MAX_BINARY_OUTPUTS ->
  let bo' := Binary_Output_Init st bo in
  BO_quiet bo'
  /\ Binary_Output_Present_Value object_instance bo' = BINARY_INACTIVE
  /\ Binary_Output_Relinquish_Default object_instance bo' = BINARY_INACTIVE
  /\ Binary_Output_Out_Of_Service object_instance bo' = false
  /\ Binary_Output_Change_Of_Value object_instance bo' = false
  /\ Binary_Output_Polarity object_instance bo' = POLARITY_NORMAL
  /\ (forall p, 1 <= p <= BACNET_PRIORITY_ARRAY_SIZE ->
        Binary_Output_Priority_Array_Value object_instance p bo'
        = BINARY_INACTIVE)
  /\ exists o : BO.t CS,
       nth_error bo' (Z.to_nat object_instance) = Some o
       /\ (forall q, priority_active q o = false)
       /\ commanded o (BO.Present_Value o)
       /\ BO.Time_Of_State_Count_Change_ms o = millisecond_counter st
       /\ BO.Last_State o = BINARY_INACTIVE.
Proof.
  intros Hl Hi bo'. subst bo'.
  split; [now apply init_quiet|].
  destruct (four_objects bo Hl) as (a & b & c & d & ->).
  rewrite init_four.
  assert (Hnone : forall (i : Z) (x : BO.t CS) (q : Z),
             priority_active q (Binary_Output_Init_object st i x) = false).
  { intros i x q. unfold priority_active. cbn [BO.Priority_Active
      Binary_Output_Init_object].
    destruct (Nat.lt_ge_cases (Z.to_nat (q - 1))
                (Z.to_nat BACNET_PRIORITY_ARRAY_SIZE)) as [L | G].
    - now apply nth_repeat_lt.
    - apply nth_overflow. now rewrite repeat_length. }
  assert (Hobj : exists (i : Z) (x : BO.t CS),
             nth_error
               [Binary_Output_Init_object st 0 a;
                Binary_Output_Init_object st 1 b;
                Binary_Output_Init_object st 2 c;
                Binary_Output_Init_object st 3 d]
               (Z.to_nat object_instance)
             = Some (Binary_Output_Init_object st i x)).
  { unfold MAX_BINARY_OUTPUTS in Hi.
    assert (Hc : object_instance = 0 \/ object_instance = 1
                 \/ object_instance = 2 \/ object_instance = 3) by lia.
    destruct Hc as [-> | [-> | [-> | ->]]];
      [exists 0, a | exists 1, b | exists 2, c | exists 3, d];
      reflexivity. }
  destruct Hobj as (i & x & Hn).
  destruct (getter_Present_Value object_instance _ _ Hi Hn)
    as (G1 & G2 & G3 & G4 & G5 & G6).
  rewrite G1, G2, G3, G4, G5.
  do 5 (split; [reflexivity|]).
  split; [intros p Hp; rewrite G6 by exact Hp; now rewrite Hnone|].
  eexists. split; [exact Hn|]. split; [apply Hnone|].
  split; [|split; reflexivity].
  right. split; [intros q _; apply Hnone | reflexivity].
Qed.

Lemma invalid_instance_index (object_instance : Z) :
  MAX_BINARY_OUTPUTS <= object_instance ->
  (Binary_Output_Instance_To_Index object_instance <? MAX_BINARY_OUTPUTS)
  = false.
Proof.
  intros Hi. destruct (instance_index object_instance) as (_ & E).
  rewrite (E Hi). reflexivity.
Qed.

Lemma valid_instance_index (object_instance : Z) :
  object_instance < MAX_BINARY_OUTPUTS ->
  Binary_Output_Instance_To_Index object_instance = object_instance
  /\ (object_instance <? MAX_BINARY_OUTPUTS) = true.
Proof.
  intros Hi. destruct (instance_index object_instance) as (E & _).
  split; [exact (E Hi) | now apply Z.ltb_lt].
Qed.

Lemma invalid_priority_test (priority : Z) :
  priority = 0 \/ BACNET_PRIORITY_ARRAY_SIZE < priority ->
  negb (priority =? 0) && (priority <=? BACNET_PRIORITY_ARRAY_SIZE) = false.
Proof.
  intros [-> | Hp]; [reflexivity|].
  destruct (Z.leb_spec priority BACNET_PRIORITY_ARRAY_SIZE); [lia|].
  apply andb_false_r.
Qed.

(** X21.  Every function of the object refuses an instance that is not
    below [MAX_BINARY_OUTPUTS]: the setters return false (where they return
    a status) and leave [BO_Data] as it is, the getters return their
    defaults.  A priority outside 1..16 is refused by
    [Binary_Output_Present_Value_Relinquish], reads as [BINARY_INACTIVE],
    and is refused by [Binary_Output_Present_Value_Set] unless the object
    is out of service. *)
Theorem binary_output_rejects (object_instance value priority polarity : Z)
  (oos_flag : bool) (st : state F) (bo : list (BO.t CS)) :
  (MAX_BINARY_OUTPUTS <= object_instance ->
   Binary_Output_Valid_Instance object_instance = false
   /\ Binary_Output_Present_Value_Set object_instance value priority st bo
      = (false, bo)
   /\ Binary_Output_Present_Value_Relinquish object_instance priority st bo
      = (false, bo)
   /\ Binary_Output_Polarity_Set object_instance polarity bo = (false, bo)
   /\ Binary_Output_Relinquish_Default_Set object_instance value bo
      = (false, bo)
   /\ Binary_Output_Out_Of_Service_Set object_instance oos_flag bo = bo
   /\ Binary_Output_Change_Of_Value_Clear object_instance bo = bo
   /\ Binary_Output_Present_Value object_instance bo = BINARY_INACTIVE
   /\ Binary_Output_Priority_Array_Value object_instance priority bo
      = BINARY_INACTIVE
   /\ Binary_Output_Out_Of_Service object_instance bo = false
   /\ Binary_Output_Change_Of_Value object_instance bo = false
   /\ Binary_Output_Polarity object_instance bo = POLARITY_NORMAL
   /\ Binary_Output_Relinquish_Default object_instance bo
      = BINARY_INACTIVE)
  /\ (priority = 0 \/ BACNET_PRIORITY_ARRAY_SIZE < priority ->
      Binary_Output_Present_Value_Relinquish object_instance priority st bo
      = (false, bo)
      /\ Binary_Output_Priority_Array_Value object_instance priority bo
         = BINARY_INACTIVE
      /\ (Binary_Output_Out_Of_Service object_instance bo = false ->
          Binary_Output_Present_Value_Set object_instance value priority
            st bo = (false, bo))).
Proof.
  split.
  - intros Hi. pose proof (invalid_instance_index object_instance Hi) as Hx.
    unfold Binary_Output_Valid_Instance, Binary_Output_Present_Value_Set,
      Binary_Output_Present_Value_Relinquish, Binary_Output_Polarity_Set,
      Binary_Output_Relinquish_Default_Set,
      Binary_Output_Out_Of_Service_Set,
      Binary_Output_Change_Of_Value_Clear, Binary_Output_Present_Value,
      Binary_Output_Priority_Array_Value, Binary_Output_Out_Of_Service,
      Binary_Output_Change_Of_Value, Binary_Output_Polarity,
      Binary_Output_Relinquish_Default.
    cbv zeta. rewrite !Hx.
    destruct (Z.ltb_spec object_instance MAX_BINARY_OUTPUTS); [lia|].
    repeat split.
  - intros Hp. pose proof (invalid_priority_test priority Hp) as Ht.
    unfold Binary_Output_Present_Value_Set,
      Binary_Output_Present_Value_Relinquish,
      Binary_Output_Priority_Array_Value, Binary_Output_Out_Of_Service.
    cbv zeta. rewrite !Ht.
    destruct (Binary_Output_Instance_To_Index object_instance
              <? MAX_BINARY_OUTPUTS).
    + split; [reflexivity|]. split; [reflexivity|].
      intros ->. reflexivity.
    + repeat split.
Qed.

(** The direct write of [Binary_Output_Present_Value_Set] to an object out
    of service. *)
Lemma oos_write_changed (object_instance value priority : Z)
  (st : state F) (bo : list (BO.t CS)) (o : BO.t CS) :
  0 <= object_instance < MAX_BINARY_OUTPUTS ->
  priority = 0 \/ BACNET_PRIORITY_ARRAY_SIZE < priority ->
  nth_error bo (Z.to_nat object_instance) = Some o ->
  Binary_Output_Present_Value_Set object_instance value priority st bo
  = if BO.Out_Of_Service o then
      (true,
       if negb (BO.Present_Value o =? value) then
         BO_update object_instance
           (fun o => { o with BO.Changed := true;
                              BO.Last_State := BO.Present_Value o;
                              BO.Present_Value := value;
                              BO.Time_Of_State_Count_Change_ms :=
                                millisecond_counter st }) bo
       else bo)
    else (false, bo).
Proof.
  intros Hi Hp Ho.
  destruct (valid_instance_index object_instance) as (Hidx & Hlt); [lia|].
  unfold Binary_Output_Present_Value_Set. cbv zeta.
  rewrite Hidx, Hlt, (invalid_priority_test priority Hp).
  rewrite !(BO_member_nth_error object_instance _ _ bo o Ho).
  reflexivity.
Qed.

(** X22.  With a priority outside 1..16, [Binary_Output_Present_Value_Set]
    writes the present value of an object that is out of service directly:
    it returns true, the present value is the written value, the priority
    array is not touched, a change raises the change-of-value flag and
    records the previous value and the time; writing the value the object
    already has changes nothing.  No other object is changed. *)
Theorem out_of_service_direct_write (object_instance value priority : Z)
  (st : state F) (bo : list (BO.t CS)) (o : BO.t CS) :
  0 <= object_instance < MAX_BINARY_OUTPUTS ->
  priority = 0 \/ BACNET_PRIORITY_ARRAY_SIZE < priority ->
  nth_error bo (Z.to_nat object_instance) = Some o ->
  BO.Out_Of_Service o = true ->
  let r :=
    Binary_Output_Present_Value_Set object_instance value priority st bo in
  exists o' : BO.t CS,
    fst r = true
    /\ only_object_changed object_instance o' bo (snd r)
    /\ BO.Present_Value o' = value
    /\ Binary_Output_Present_Value object_instance (snd r) = value
    /\ BO.Priority_Array o' = BO.Priority_Array o
    /\ BO.Priority_Active o' = BO.Priority_Active o
    /\ BO.Out_Of_Service o' = true
    /\ BO.Changed o' = BO.Changed o || negb (BO.Present_Value o =? value)
    /\ (BO.Present_Value o <> value ->
        BO.Last_State o' = BO.Present_Value o
        /\ BO.Time_Of_State_Count_Change_ms o' = millisecond_counter st)
    /\ (BO.Present_Value o = value -> snd r = bo).
Proof.
  intros Hi Hp Ho Hoos r. subst r.
  rewrite (oos_write_changed object_instance value priority st bo o Hi Hp Ho).
  rewrite Hoos. cbn [fst snd].
  destruct (Z.eqb_spec (BO.Present_Value o) value) as [E | E]; cbn [negb].
  - exists o. split; [reflexivity|].
    split; [now apply changed_refl|]. split; [exact E|].
    destruct (getter_Present_Value object_instance bo o Hi Ho) as (G1 & _).
    split; [now rewrite G1|].
    split; [reflexivity|]. split; [reflexivity|]. split; [exact Hoos|].
    split; [now rewrite orb_false_r|].
    split; [intros Hc; contradiction | reflexivity].
  - eexists. split; [reflexivity|].
    split; [apply (BO_update_changed object_instance _ bo o Ho)|].
    cbv beta.
    destruct (BO_update_nth_error object_instance
                (fun o => { o with BO.Changed := true;
                                   BO.Last_State := BO.Present_Value o;
                                   BO.Present_Value := value;
                                   BO.Time_Of_State_Count_Change_ms :=
                                     millisecond_counter st }) bo o Ho)
      as (_ & N).
    destruct (getter_Present_Value object_instance _ _ Hi N) as (G1 & _).
    split; [reflexivity|]. split; [now rewrite G1|].
    split; [reflexivity|]. split; [reflexivity|]. split; [exact Hoos|].
    split; [now rewrite orb_true_r|].
    split; [intros _; split; reflexivity | intros Hc; contradiction].
Qed.

(** X23.  The plain setters and getters of an object agree and change
    nothing else: out-of-service, polarity and relinquish default read back
    as written, [Binary_Output_Change_Of_Value_Clear] lowers the
    change-of-value flag, and none of them changes the present value; in
    particular [Binary_Output_Relinquish_Default_Set] does not recalculate
    it. *)
Theorem plain_setters_read_back (object_instance value polarity : Z)
  (oos_flag : bool) (bo : list (BO.t CS)) (o : BO.t CS) :
  0 <= object_instance < MAX_BINARY_OUTPUTS ->
  nth_error bo (Z.to_nat object_instance) = Some o ->
  let bo1 := Binary_Output_Out_Of_Service_Set object_instance oos_flag bo in
  let r2 := Binary_Output_Polarity_Set object_instance polarity bo in
  let r3 := Binary_Output_Relinquish_Default_Set object_instance value bo in
  let bo4 := Binary_Output_Change_Of_Value_Clear object_instance bo in
  (Binary_Output_Out_Of_Service object_instance bo1 = oos_flag
   /\ only_object_changed object_instance
        { o with BO.Out_Of_Service := oos_flag } bo bo1)
  /\ (fst r2 = true
      /\ Binary_Output_Polarity object_instance (snd r2) = polarity
      /\ only_object_changed object_instance
           { o with BO.Polarity := polarity } bo (snd r2))
  /\ (fst r3 = true
      /\ Binary_Output_Relinquish_Default object_instance (snd r3) = value
      /\ Binary_Output_Present_Value object_instance (snd r3)
         = Binary_Output_Present_Value object_instance bo
      /\ only_object_changed object_instance
           { o with BO.Relinquish_Default := value } bo (snd r3))
  /\ (Binary_Output_Change_Of_Value object_instance bo4 = false
      /\ Binary_Output_Present_Value object_instance bo4
         = Binary_Output_Present_Value object_instance bo
      /\ only_object_changed object_instance
           { o with BO.Changed := false } bo bo4).
Proof.
  intros Hi Ho bo1 r2 r3 bo4. subst bo1 r2 r3 bo4.
  destruct (valid_instance_index object_instance) as (Hidx & Hlt); [lia|].
  unfold Binary_Output_Out_Of_Service_Set, Binary_Output_Polarity_Set,
    Binary_Output_Relinquish_Default_Set,
    Binary_Output_Change_Of_Value_Clear.
  cbv zeta. rewrite Hidx, Hlt. cbn [fst snd].
  destruct (getter_Present_Value object_instance bo o Hi Ho) as (P0 & _).
  pose proof (fun f => BO_update_changed object_instance f bo o Ho) as Hu.
  repeat split;
    try (apply (Hu (fun o => { o with BO.Out_Of_Service := oos_flag })));
    try (apply (Hu (fun o => { o with BO.Polarity := polarity })));
    try (apply (Hu (fun o => { o with BO.Relinquish_Default := value })));
    try (apply (Hu (fun o => { o with BO.Changed := false })));
    rewrite ?P0;
    match goal with
    | |- context [BO_update object_instance ?f bo] =>
        destruct (Hu f) as (N & _);
        destruct (getter_Present_Value object_instance _ _ Hi N)
          as (G1 & G2 & G3 & G4 & G5 & _);
        rewrite ?G1, ?G2, ?G3, ?G4, ?G5; reflexivity
    end.
Qed.





End BinaryOutputFacts.

(** The objects after [Binary_Output_Init] at power-on. *)
Lemma bo0_quiet : BO_quiet StdBo.bo0.
Proof. apply init_quiet. reflexivity. Qed.

Lemma present_value_set_commands_witness :
  exists o' : BO.t String.string,
    fst (Binary_Output_Present_Value_Set 2 1 8 Std.st0 StdBo.bo0) = true
    /\ priority_active 8 o' = true
    /\ priority_value 8 o' = 1
    /\ Binary_Output_Priority_Array_Value 2 8
         (snd (Binary_Output_Present_Value_Set 2 1 8 Std.st0 StdBo.bo0)) = 1.
Proof.
  destruct (present_value_set_commands 2 1 8 Std.st0 StdBo.bo0
              (Binary_Output_Init_object Std.st0 2 StdBo.zero))
    as (o' & R & _ & _ & A & V & _ & _ & _ & _ & _ & _ & _ & G);
    [exact bo0_quiet
    |unfold MAX_BINARY_OUTPUTS; lia
    |unfold BACNET_PRIORITY_ARRAY_SIZE; lia
    |reflexivity|].
  exists o'. repeat split; assumption.
Defined.

Lemma present_value_relinquish_commands_witness :
  exists o' : BO.t String.string,
    fst (Binary_Output_Present_Value_Relinquish 2 8 Std.st0 StdBo.bo0) = true
    /\ priority_active 8 o' = false
    /\ Binary_Output_Priority_Array_Value 2 8
         (snd (Binary_Output_Present_Value_Relinquish 2 8 Std.st0 StdBo.bo0))
       = 0.
Proof.
  destruct (present_value_relinquish_commands 2 8 Std.st0 StdBo.bo0
              (Binary_Output_Init_object Std.st0 2 StdBo.zero))
    as (o' & R & _ & _ & A & _ & _ & _ & _ & _ & _ & G);
    [exact bo0_quiet
    |unfold MAX_BINARY_OUTPUTS; lia
    |unfold BACNET_PRIORITY_ARRAY_SIZE; lia
    |reflexivity|].
  exists o'. repeat split; assumption.
Defined.

Lemma binary_output_init_state_witness :
  Binary_Output_Present_Value 1 StdBo.bo0 = 0
  /\ Binary_Output_Out_Of_Service 1 StdBo.bo0 = false.
Proof.
  destruct (binary_output_init_state Std.st0 (repeat StdBo.zero 4) 1)
    as (_ & P & _ & S & _);
    [reflexivity | unfold MAX_BINARY_OUTPUTS; lia |].
  split; [exact P | exact S].
Defined.

Lemma binary_output_rejects_witness :
  Binary_Output_Present_Value_Set 4 1 8 Std.st0 StdBo.bo0
  = (false, StdBo.bo0)
  /\ Binary_Output_Present_Value_Relinquish 0 0 Std.st0 StdBo.bo0
     = (false, StdBo.bo0).
Proof.
  split.
  - destruct (binary_output_rejects 4 1 8 0 true Std.st0 StdBo.bo0)
      as (Hi & _).
    destruct Hi as (_ & S & _); [unfold MAX_BINARY_OUTPUTS; lia | exact S].
  - destruct (binary_output_rejects 0 1 0 0 true Std.st0 StdBo.bo0)
      as (_ & Hp).
    destruct Hp as (R & _); [left; reflexivity | exact R].
Defined.

Lemma out_of_service_direct_write_witness :
  let bo := Binary_Output_Out_Of_Service_Set 1 true StdBo.bo0 in
  Binary_Output_Present_Value 1
    (snd (Binary_Output_Present_Value_Set 1 1 0 Std.st0 bo)) = 1.
Proof.
  intros bo.
  destruct (out_of_service_direct_write 1 1 0 Std.st0 bo
              { Binary_Output_Init_object Std.st0 1 StdBo.zero
                with BO.Out_Of_Service := true })
    as (o' & _ & _ & _ & G & _);
    [unfold MAX_BINARY_OUTPUTS; lia
    |left; reflexivity
    |reflexivity
    |reflexivity|].
  exact G.
Defined.

Lemma plain_setters_read_back_witness :
  Binary_Output_Out_Of_Service 1
    (Binary_Output_Out_Of_Service_Set 1 true StdBo.bo0) = true
  /\ Binary_Output_Relinquish_Default 1
       (snd (Binary_Output_Relinquish_Default_Set 1 1 StdBo.bo0)) = 1.
Proof.
  destruct (plain_setters_read_back 1 1 1 true StdBo.bo0
              (Binary_Output_Init_object Std.st0 1 StdBo.zero))
    as ((S & _) & _ & (_ & R & _) & _);
    [unfold MAX_BINARY_OUTPUTS; lia | reflexivity |].
  split; [exact S | exact R].
Defined.

